(** * pmpanel: the panel synchronisation client of nboard-node

    A shallow embedding of [api/pmpanel/pmpanel.go] and the properties of its
    specification that concern it: the construction of the client, the local
    rule loader, the classification of panel responses, the Shadowsocks node
    parser and the user roster parser.

    Conventions of the embedding.
    - Go [int] and [uint64] values are [Z]; [float64] values are the IEEE 754
      binary64 numbers of [SpecFloat], with round-to-nearest-even arithmetic.
    - Go strings and byte slices are [string] (a sequence of 8-bit characters).
    - A Go [error] is its [Error()] text; a nilable result is an [option].
    - A Go function returning [(value, error)] returns a pair of options, so
      that [(nil, nil)], which two of the parsers return, is expressible.
    - A pointer argument that the code dereferences unconditionally is
      modelled by its pointee; the pointer to the user list, which the JSON
      decoder can leave nil, is an [option].
    - Effects (file access, logging, requests sent to the panel, panics and
      process exit) are recorded by the [IO] monad: a trace of events and an
      outcome.
    - The transport is resty: a call of [Get] or [Post] is one event of the
      trace, whatever the number of attempts that the transport makes for
      it; the settings of the transport client are a record, and its error
      hooks are functions that give the lines they log.  The log of the
      trace is the one that the package writes to; what the transport
      writes to its own logger is not part of it. *)

From Stdlib Require Import ZArith String Ascii List Lia DecimalString.
From Stdlib Require Import Floats.SpecFloat.
From stdpp Require Import base option list strings gmap.

Local Open Scope Z_scope.

(** ** float64 *)

Definition float64 : Type := spec_float.

Definition float64_prec : Z := 53.
Definition float64_emax : Z := 1024.

(** The conversion of an integer constant or value to [float64]. *)
Definition float64_of_Z (n : Z) : float64 :=
  binary_normalize float64_prec float64_emax n 0 false.

Definition float64_mul : float64 -> float64 -> float64 :=
  SFmul float64_prec float64_emax.

Definition float64_div : float64 -> float64 -> float64 :=
  SFdiv float64_prec float64_emax.

(** [x > y]; false as soon as one side is NaN. *)
Definition float64_gt (x y : float64) : bool := SFltb y x.

(** The integer part of a float (the fraction is discarded, truncation
    towards zero), when it has one. *)
Definition float64_truncate (f : float64) : option Z :=
  match f with
  | S754_zero _ => Some 0
  | S754_finite s m e =>
      let a := Z.shiftl (Zpos m) e in
      Some (if s then - a else a)
  | S754_infinity _ | S754_nan => None
  end.

(** ** fmt: the verbs this package uses *)

Inductive operand : Type :=
| OpString (s : string)   (* a string, an error, or a value already rendered *)
| OpInt (n : Z).

Definition itoa (n : Z) : string := NilZero.string_of_int (Z.to_int n).

Definition verb_s (a : operand) : string :=
  match a with
  | OpString s => s
  | OpInt n => "%!s(int=" +:+ itoa n +:+ ")"
  end.

Definition verb_d (a : operand) : string :=
  match a with
  | OpInt n => itoa n
  | OpString s => "%!d(string=" +:+ s +:+ ")"
  end.

Definition verb_v (a : operand) : string :=
  match a with
  | OpString s => s
  | OpInt n => itoa n
  end.

(** [fmt.Sprintf] for the verbs [%s], [%d] and [%+v]; every other character
    is copied.  A verb without an operand prints Go's [%!verb(MISSING)]. *)
Fixpoint Sprintf (format : string) (a : list operand) : string :=
  match format with
  | EmptyString => EmptyString
  | String c rest =>
      if Ascii.eqb c "%" then
        match rest with
        | String v rest' =>
            if Ascii.eqb v "s" then
              match a with
              | x :: a' => verb_s x +:+ Sprintf rest' a'
              | [] => "%!s(MISSING)" +:+ Sprintf rest' []
              end
            else if Ascii.eqb v "d" then
              match a with
              | x :: a' => verb_d x +:+ Sprintf rest' a'
              | [] => "%!d(MISSING)" +:+ Sprintf rest' []
              end
            else
              match rest' with
              | String v' rest'' =>
                  if Ascii.eqb v "+" && Ascii.eqb v' "v" then
                    match a with
                    | x :: a' => verb_v x +:+ Sprintf rest'' a'
                    | [] => "%!v(MISSING)" +:+ Sprintf rest'' []
                    end
                  else String c (String v (String v' (Sprintf rest'' a)))
              | EmptyString => String c (String v EmptyString)
              end
        | EmptyString => String c EmptyString
        end
      else String c (Sprintf rest a)
  end.

Definition error : Type := string.

(** [fmt.Errorf]: an error whose text is the formatted string. *)
Definition Errorf (format : string) (a : list operand) : error := Sprintf format a.

(** ** The data model *)

(** Modelled from the spec: [api.Config] is declared in a package that is not
    among the sources.  The fields are those that [New] reads, with the
    types of the [APIClient] fields they are assigned to. *)
Module Config.
Record t : Type := {
    APIHost : string;
    NodeID : string;
    Key : string;
    NodeType : string;
    EnableVless : bool;
    VlessFlow : string;
    Timeout : Z;
    SpeedLimit : float64;
    DeviceLimit : Z;
    RuleListPath : string
  }.
End Config.

(** A compiled [*regexp.Regexp], determined by the text it was compiled from
    (what its [String] method returns). *)
Record Regexp : Type := { expr : string }.

(** Modelled from the spec: [api.DetectRule] (a traffic-audit pattern: a rule
    identifier and a compiled pattern) is declared in a package that is not
    among the sources. *)
Module DetectRule.
Record t : Type := {
    ID : Z;
    Pattern : Regexp
  }.
End DetectRule.

(** Modelled from the spec: [api.NodeInfo] (the canonical node descriptor) is
    declared in a package that is not among the sources.  The fields are
    those this package mentions.  A composite literal leaves the fields it
    does not list at their zero value. *)
Module NodeInfo.
Record t : Type := {
    NodeType : string;
    NodeID : string;
    Port : Z;
    SpeedLimit : Z;              (* uint64, bytes per second *)
    AlterID : Z;
    TransportProtocol : string;
    EnableTLS : bool;
    Path : string;
    Host : string;
    EnableVless : bool;
    VlessFlow : string;
    ServiceName : string;
    CypherMethod : string;
    ServerKey : string
  }.
End NodeInfo.

(** Modelled from the spec: [api.UserInfo] (the canonical user record) is
    declared in a package that is not among the sources.  The fields are
    those this package assigns. *)
Module UserInfo.
Record t : Type := {
    UID : Z;
    Passwd : string;
    UUID : string;
    SpeedLimit : Z;              (* uint64, bytes per second *)
    DeviceLimit : Z
  }.

  (** The zero value, with which [make] fills a new slice. *)
Definition zero : t :=
    {| UID := 0; Passwd := ""; UUID := ""; SpeedLimit := 0; DeviceLimit := 0 |}.
End UserInfo.

(** Modelled from the spec: the declaration of [NodeInfoResponse] (the panel's
    node config payload) is not among the sources.  The fields are those that
    [ParseSSNodeResponse] reads; [SpeedLimit] is a [float64], megabits per
    second, as the client's own [SpeedLimit] with which it shares the
    conversion expression. *)
Module NodeInfoResponse.
Record t : Type := {
    Port : Z;
    Method : string;
    ServerKey : string;
    SpeedLimit : float64
  }.
End NodeInfoResponse.

(** Modelled from the spec: the declaration of [UserResponse] (one record of
    the panel's user list payload) is not among the sources.  The fields are
    those that [ParseUserListResponse] reads, [SpeedLimit] as above. *)
Module UserResponse.
Record t : Type := {
    ID : Z;
    Passwd : string;
    SpeedLimit : float64;
    DeviceLimit : Z
  }.
End UserResponse.

(** [strings.TrimRight(s, cutset)]: [s] without its trailing bytes that
    occur in [cutset] (a cutset of ASCII characters, as the one of resty's
    [SetBaseURL] is). *)
Fixpoint string_contains (cutset : string) (c : ascii) : bool :=
  match cutset with
  | EmptyString => false
  | String c' cutset' => Ascii.eqb c c' || string_contains cutset' c
  end.

Fixpoint strings_TrimRight (s : string) (cutset : string) : string :=
  match s with
  | EmptyString => EmptyString
  | String c rest =>
      match strings_TrimRight rest cutset with
      | EmptyString => if string_contains cutset c then EmptyString else String c EmptyString
      | rest' => String c rest'
      end
  end.

(** The [*resty.Client] that [New] makes, with the settings and the hooks
    that this package touches, and the requests and responses of resty. *)
Module Resty.
Record Request : Type := {
    Method : string;
    URL : string;
    ForceContentType : string;
    Body : option string
  }.

Record Response : Type := {
    StatusCode : Z;
    RespBody : string
  }.

  (** The [error] that an [OnError] hook receives: resty wraps the error of
      the call in a [*ResponseError] when the call has a response, and passes
      it as it is when there is none. *)
Inductive HookError : Type :=
| PlainError (err : error)
| ResponseError (resp : Response) (Err : error).

  (** An [ErrorHook], a function of the request and the error, as the lines
      that it writes to the log. *)
Definition ErrorHook : Type := Request -> HookError -> list string.

Record Client : Type := {
    RetryCount : Z;
    Timeout : Z;                       (* time.Duration: int64 nanoseconds *)
    BaseURL : string;
    Header : gmap string string;
    QueryParam : gmap string string;
    Debug : bool;
    errorHooks : list ErrorHook
  }.

  (** [resty.New()]. *)
Definition New : Client :=
    {| RetryCount := 0; Timeout := 0; BaseURL := ""; Header := ∅;
       QueryParam := ∅; Debug := false; errorHooks := [] |}.

Definition SetRetryCount (n : Z) (c : Client) : Client :=
    {| RetryCount := n; Timeout := Timeout c; BaseURL := BaseURL c;
       Header := Header c; QueryParam := QueryParam c; Debug := Debug c;
       errorHooks := errorHooks c |}.

Definition SetTimeout (d : Z) (c : Client) : Client :=
    {| RetryCount := RetryCount c; Timeout := d; BaseURL := BaseURL c;
       Header := Header c; QueryParam := QueryParam c; Debug := Debug c;
       errorHooks := errorHooks c |}.

  (** [OnError] appends the hook to those of the client. *)
Definition OnError (h : ErrorHook) (c : Client) : Client :=
    {| RetryCount := RetryCount c; Timeout := Timeout c; BaseURL := BaseURL c;
       Header := Header c; QueryParam := QueryParam c; Debug := Debug c;
       errorHooks := errorHooks c ++ [h] |}.

  (** [SetBaseURL] stores the address without its trailing slashes. *)
Definition SetBaseURL (u : string) (c : Client) : Client :=
    {| RetryCount := RetryCount c; Timeout := Timeout c;
       BaseURL := strings_TrimRight u "/";
       Header := Header c; QueryParam := QueryParam c; Debug := Debug c;
       errorHooks := errorHooks c |}.

Definition SetHeaders (h : gmap string string) (c : Client) : Client :=
    {| RetryCount := RetryCount c; Timeout := Timeout c; BaseURL := BaseURL c;
       Header := h ∪ Header c; QueryParam := QueryParam c; Debug := Debug c;
       errorHooks := errorHooks c |}.

Definition SetQueryParams (q : gmap string string) (c : Client) : Client :=
    {| RetryCount := RetryCount c; Timeout := Timeout c; BaseURL := BaseURL c;
       Header := Header c; QueryParam := q ∪ QueryParam c; Debug := Debug c;
       errorHooks := errorHooks c |}.

Definition SetDebug (d : bool) (c : Client) : Client :=
    {| RetryCount := RetryCount c; Timeout := Timeout c; BaseURL := BaseURL c;
       Header := Header c; QueryParam := QueryParam c; Debug := d;
       errorHooks := errorHooks c |}.

  (** [onErrorHooks], which every call runs when it ends: with an error, the
      error hooks run in the order of their registration, on the error
      wrapped with the response if there is one ([resp] is [None] for a nil
      response); what they log is returned.  Without an error the success
      hooks run, of which this package registers none. *)
Definition onErrorHooks (c : Client) (req : Request) (resp : option Response)
    (err : option error) : list string :=
    match err with
    | Some err =>
        let err :=
          match resp with
          | Some resp => ResponseError resp err
          | None => PlainError err
          end in
        flat_map (fun h => h req err) (errorHooks c)
    | None => []
    end.
End Resty.

(** [APIClient]. *)
Module APIClient.
Record t : Type := {
    client : Resty.Client;
    APIHost : string;
    NodeID : string;
    Key : string;
    NodeType : string;
    EnableVless : bool;
    VlessFlow : string;
    SpeedLimit : float64;
    DeviceLimit : Z;
    LocalRuleList : list DetectRule.t
  }.
End APIClient.

(** ** What the Go runtime and the libraries decide *)

Class GoRuntime : Type := {
  (** The result of converting to [uint64] a float whose integer part is not
      a [uint64] (negative, too large, infinite or NaN): the conversion
      succeeds and its value depends on the implementation. *)
  uint64_unrepresentable : float64 -> Z;
  (** [strings.Map(unicode.ToLower, s)], which [strings.ToLower] calls on a
      string that is not pure ASCII. *)
  Map_unicode_ToLower : string -> string;
  (** The error of [regexp.Compile], when the text is not a valid pattern,
      as [regexp.MustCompile] words it in its panic. *)
  regexp_Compile_error : string -> option string;
  (** [json.Unmarshal] into a new [NodeInfoResponse]. *)
  json_Unmarshal_NodeInfoResponse : string -> NodeInfoResponse.t + error;
  (** [json.Unmarshal] into a nil [*[]UserResponse]: JSON [null] leaves the
      pointer nil. *)
  json_Unmarshal_UserResponses : string -> option (list UserResponse.t) + error;
  (** [json.Marshal] and the [%+v] rendering of the payloads. *)
  json_Marshal_NodeInfoResponse : NodeInfoResponse.t -> string;
  json_Marshal_UserResponses : option (list UserResponse.t) -> string;
  fmt_NodeInfoResponse : NodeInfoResponse.t -> string
}.

(** ** Effects *)

Inductive Event : Type :=
| EvOpen (path : string)                  (* os.Open *)
| EvClose (path : string)                 (* file.Close *)
| EvLog (msg : string)                    (* log.Printf, log.Print, log.Fatalf *)
| EvSend (c : Resty.Client) (r : Resty.Request).   (* a request to the panel *)

Inductive Outcome (A : Type) : Type :=
| Returned (a : A)
| Panicked (v : string)
| Exited (code : Z).
Arguments Returned {A} a.
Arguments Panicked {A} v.
Arguments Exited {A} code.

Definition IO (A : Type) : Type := list Event * Outcome A.

Definition io_ret {A : Type} (a : A) : IO A := ([], Returned a).

Definition io_bind {A B : Type} (m : IO A) (k : A -> IO B) : IO B :=
  match m with
  | (t, Returned a) => let '(t', o) := k a in (t ++ t', o)
  | (t, Panicked v) => (t, Panicked v)
  | (t, Exited n) => (t, Exited n)
  end.

#[global] Instance IO_ret : MRet IO := @io_ret.
#[global] Instance IO_bind : MBind IO := fun A B k m => io_bind m k.

Definition emit (e : Event) : IO unit := ([e], Returned tt).
Definition panic {A : Type} (v : string) : IO A := ([], Panicked v).

(** [log.Printf]. *)
Definition log_Printf (format : string) (a : list operand) : IO unit :=
  emit (EvLog (Sprintf format a)).

(** [log.Fatalf]: the message is logged and the process exits with status 1. *)
Definition log_Fatalf {A : Type} (format : string) (a : list operand) : IO A :=
  ([EvLog (Sprintf format a)], Exited 1).

(** The lines that a hook of the transport writes to the log. *)
Definition log_lines (lines : list string) : IO unit := (map EvLog lines, Returned tt).

(** What is outside the process: the files that can be opened, and the panel
    behind the transport. *)
Module World.
  (** An opened file: the bytes that reading delivers, and the error, if any,
      that ends the reading instead of the end of the file. *)
Record File : Type := {
    contents : string;
    read_error : option error
  }.

  (** [Execute] is what a call such as [Get] or [Post] returns for a request
      of a client, after the retries of the transport: the response and the
      error.  [HasResponse] tells whether that response is a response object
      or nil: the transport returns the object once the request was handed to
      the HTTP client, also when the exchange then failed, and nil when the
      request could not be prepared.  A nil response comes with an error, and
      is the one case in which the [Response] of [Execute] stands for
      nothing. *)
Record t : Type := {
    os_Open : string -> File + error;
    Execute : Resty.Client -> Resty.Request -> Resty.Response * option error;
    HasResponse : Resty.Client -> Resty.Request -> bool
  }.
End World.

(** ** strings and bufio *)

Definition is_ASCII (c : ascii) : bool := (N_of_ascii c <? 128)%N.

Definition is_upper (c : ascii) : bool :=
  ((N_of_ascii "A" <=? N_of_ascii c) && (N_of_ascii c <=? N_of_ascii "Z"))%N.

(** [c += 'a' - 'A'] on an upper-case letter. *)
Definition lower_byte (c : ascii) : ascii :=
  if is_upper c then ascii_of_N (N_of_ascii c + (N_of_ascii "a" - N_of_ascii "A")) else c.

Fixpoint string_forallb (p : ascii -> bool) (s : string) : bool :=
  match s with
  | EmptyString => true
  | String c s' => p c && string_forallb p s'
  end.

Fixpoint string_map (f : ascii -> ascii) (s : string) : string :=
  match s with
  | EmptyString => EmptyString
  | String c s' => String (f c) (string_map f s')
  end.

(** [strings.ToLower]: bytewise on a pure ASCII string, through the Unicode
    tables otherwise. *)
Definition strings_ToLower `{GoRuntime} (s : string) : string :=
  if string_forallb is_ASCII s then
    if string_forallb (fun c => negb (is_upper c)) s then s
    else string_map lower_byte s
  else Map_unicode_ToLower s.

Definition LF : ascii := ascii_of_N 10.
Definition CR : ascii := ascii_of_N 13.

(** [dropCR] of [bufio]: a final carriage return is not part of the line. *)
Fixpoint dropCR (line : string) : string :=
  match line with
  | EmptyString => EmptyString
  | String c EmptyString => if Ascii.eqb c CR then EmptyString else line
  | String c rest => String c (dropCR rest)
  end.

Definition bufio_MaxScanTokenSize : Z := 64 * 1024.
Definition bufio_ErrTooLong : error := "bufio.Scanner: token too long".

(** A [bufio.Scanner] with its default split function [ScanLines] and its
    default buffer, run to the end over what the file delivers: the tokens in
    order, and the value of [Err()] afterwards.  [line] is the part of the
    current line seen so far.  A line that fills the buffer before its end is
    found stops the scan with [ErrTooLong]; a read error ends the input like
    the end of the file does, and is what [Err()] returns. *)
Fixpoint bufio_scan (data : string) (line : string) (read_error : option error)
  : list string * option error :=
  match data with
  | EmptyString =>
      (match line with EmptyString => [] | _ => [dropCR line] end, read_error)
  | String c rest =>
      if Ascii.eqb c LF then
        let '(tokens, err) := bufio_scan rest EmptyString read_error in
        (dropCR line :: tokens, err)
      else if bufio_MaxScanTokenSize <=? Z.of_nat (String.length line) + 1 then
        ([], Some bufio_ErrTooLong)
      else bufio_scan rest (line +:+ String c EmptyString) read_error
  end.

(** ** The client *)

Section Client.
Context `{GoRuntime}.

(** [regexp.MustCompile]. *)
Definition regexp_MustCompile (str : string) : IO Regexp :=
  match regexp_Compile_error str with
  | Some v => panic v
  | None => mret {| expr := str |}
  end.

(** The loop of [readLocalRuleList]: one rule is appended per token. *)
Fixpoint readLocalRuleList_loop (tokens : list string) (LocalRuleList : list DetectRule.t)
  : IO (list DetectRule.t) :=
  match tokens with
  | [] => mret LocalRuleList
  | text :: tokens' =>
      pattern ← regexp_MustCompile text;
      readLocalRuleList_loop tokens'
        (LocalRuleList ++ [ {| DetectRule.ID := -1; DetectRule.Pattern := pattern |} ])
  end.

Definition readLocalRuleList (w : World.t) (path : string) : IO (list DetectRule.t) :=
  let LocalRuleList := [] in
  if negb (String.eqb path "") then
    emit (EvOpen path);;
    match World.os_Open w path with
    | inr err =>
        log_Printf "Error when opening file: %s" [OpString err];;
        mret LocalRuleList
    | inl file =>
        let '(tokens, scan_err) :=
          bufio_scan (World.contents file) EmptyString (World.read_error file) in
        LocalRuleList ← readLocalRuleList_loop tokens LocalRuleList;
        match scan_err with
        | Some err => log_Fatalf "Error while reading file: %s" [OpString err]
        | None => emit (EvClose path);; mret LocalRuleList
        end
    end
  else mret LocalRuleList.

Definition time_Second : Z := 1000000000.

(** Arithmetic on [int64] (a [time.Duration]) wraps around. *)
Definition int64_wrap (z : Z) : Z := (z + 2 ^ 63) mod 2 ^ 64 - 2 ^ 63.

(** The hook that [New] registers with [OnError]: for an error that is a
    [*resty.ResponseError] it logs the original error, [log.Print(v.Err)],
    and for any other error it does nothing. *)
Definition New_OnError (req : Resty.Request) (err : Resty.HookError) : list string :=
  match err with
  | Resty.ResponseError _ v_Err => [v_Err]
  | Resty.PlainError _ => []
  end.

Definition New (w : World.t) (apiConfig : Config.t) : IO (option APIClient.t) :=
  let client := Resty.New in
  let client := Resty.SetRetryCount 3 client in
  let client :=
    if 0 <? Config.Timeout apiConfig
    then Resty.SetTimeout (int64_wrap (Config.Timeout apiConfig * time_Second)) client
    else Resty.SetTimeout (5 * time_Second) client in
  let client := Resty.OnError New_OnError client in
  let client := Resty.SetBaseURL (Config.APIHost apiConfig) client in
  let client := Resty.SetHeaders {[ "Authorization" := Config.Key apiConfig ]} client in
  let nodeType := strings_ToLower (Config.NodeType apiConfig) in
  if negb (String.eqb nodeType "shadowsocks") && negb (String.eqb nodeType "v2ray")
     && negb (String.eqb nodeType "trojan")
  then mret None
  else
    log_Printf "Getting node info, Type: %s, NodeID: %s"
      [OpString nodeType; OpString (Config.NodeID apiConfig)];;
    let client :=
      Resty.SetQueryParams
        {[ "protocol" := nodeType; "node_id" := Config.NodeID apiConfig ]} client in
    localRuleList ← readLocalRuleList w (Config.RuleListPath apiConfig);
    mret (Some {| APIClient.client := client;
                  APIClient.NodeID := Config.NodeID apiConfig;
                  APIClient.Key := Config.Key apiConfig;
                  APIClient.APIHost := Config.APIHost apiConfig;
                  APIClient.NodeType := Config.NodeType apiConfig;
                  APIClient.EnableVless := Config.EnableVless apiConfig;
                  APIClient.VlessFlow := Config.VlessFlow apiConfig;
                  APIClient.SpeedLimit := Config.SpeedLimit apiConfig;
                  APIClient.DeviceLimit := Config.DeviceLimit apiConfig;
                  APIClient.LocalRuleList := localRuleList |}).

Definition assembleURL (c : APIClient.t) (path : string) : string :=
  APIClient.APIHost c +:+ path.

Definition parseResponse (c : APIClient.t) (res : Resty.Response) (path : string)
    (err : option error) : option string * option error :=
  match err with
  | Some err =>
      (None, Some (Errorf "request %s failed: %s"
                     [OpString (assembleURL c path); OpString err]))
  | None =>
      if negb (Resty.StatusCode res =? 200) then
        let body := Resty.RespBody res in
        if Resty.StatusCode res =? 400 then
          (None, Some (Errorf "request %s failed with bad request: %s"
                         [OpString (assembleURL c path); OpString body]))
        else if Resty.StatusCode res =? 401 then
          (None, Some (Errorf "request %s failed with unauthorized: %s"
                         [OpString (assembleURL c path); OpString body]))
        else if Resty.StatusCode res =? 403 then
          (None, Some (Errorf "request %s failed with forbidden: %s"
                         [OpString (assembleURL c path); OpString body]))
        else
          (None, Some (Errorf "request %s failed with status code %d: %s"
                         [OpString (assembleURL c path); OpInt (Resty.StatusCode res);
                          OpString body]))
      else (Some (Resty.RespBody res), None)
  end.

(** A call of [Get] or [Post] on a request of the transport client: the
    request goes to the panel, whose answer is the world's; before the call
    returns, the transport runs the hooks of the client on the outcome. *)
Definition resty_call (w : World.t) (client : Resty.Client) (r : Resty.Request)
  : IO (Resty.Response * option error) :=
  emit (EvSend client r);;
  let '(res, err) := World.Execute w client r in
  let resp := if World.HasResponse w client r then Some res else None in
  log_lines (Resty.onErrorHooks client r resp err);;
  mret (res, err).

(** [c.client.R().ForceContentType(ct).Get(path)] and the like. *)
Definition resty_Execute (w : World.t) (c : APIClient.t) (r : Resty.Request)
  : IO (Resty.Response * option error) :=
  resty_call w (APIClient.client c) r.

(** [uint64(f)]: the integer part when it is a [uint64]. *)
Definition uint64_of_float64 (f : float64) : Z :=
  match float64_truncate f with
  | Some z => if (0 <=? z) && (z <? 2 ^ 64) then z else uint64_unrepresentable f
  | None => uint64_unrepresentable f
  end.

Definition ParseV2rayNodeResponse (c : APIClient.t) (nodeInfoResponse : NodeInfoResponse.t)
  : option NodeInfo.t * option error := (None, None).

Definition ParseSSNodeResponse (c : APIClient.t) (nodeInfoResponse : NodeInfoResponse.t)
  : option NodeInfo.t * option error :=
  let speedLimit := 0 in
  let speedLimit :=
    if float64_gt (APIClient.SpeedLimit c) (float64_of_Z 0) then
      uint64_of_float64
        (float64_div (float64_mul (APIClient.SpeedLimit c) (float64_of_Z 1000000))
           (float64_of_Z 8))
    else
      uint64_of_float64
        (float64_div
           (float64_mul (NodeInfoResponse.SpeedLimit nodeInfoResponse) (float64_of_Z 1000000))
           (float64_of_Z 8)) in
  let nodeInfo :=
    {| NodeInfo.NodeType := APIClient.NodeType c;
       NodeInfo.NodeID := APIClient.NodeID c;
       NodeInfo.Port := NodeInfoResponse.Port nodeInfoResponse;
       NodeInfo.SpeedLimit := speedLimit;
       NodeInfo.TransportProtocol := "tcp";
       NodeInfo.CypherMethod := NodeInfoResponse.Method nodeInfoResponse;
       NodeInfo.ServerKey := NodeInfoResponse.ServerKey nodeInfoResponse;
       NodeInfo.AlterID := 0;
       NodeInfo.EnableTLS := false;
       NodeInfo.Path := "";
       NodeInfo.Host := "";
       NodeInfo.EnableVless := false;
       NodeInfo.VlessFlow := "";
       NodeInfo.ServiceName := "" |} in
  (Some nodeInfo, None).

Definition ParseTrojanNodeResponse (c : APIClient.t) (nodeInfoResponse : NodeInfoResponse.t)
  : option NodeInfo.t * option error := (None, None).

(** The state of the loop of [ParseUserListResponse]: the two variables
    declared before it, and the slice it fills. *)
Record user_loop_state : Type := {
  deviceLimit : Z;
  speedLimit : Z;
  userList : list UserInfo.t
}.

(** [s[i] = x]: an index out of range panics. *)
Definition slice_store {A : Type} (s : list A) (i : nat) (x : A) : IO (list A) :=
  if decide (i < length s)%nat then mret (<[ i := x ]> s)
  else panic ("runtime error: index out of range [" +:+ itoa (Z.of_nat i)
              +:+ "] with length " +:+ itoa (Z.of_nat (length s))).

(** One iteration, for the index [i] and the element [user]. *)
Definition ParseUserListResponse_body (c : APIClient.t) (st : user_loop_state)
    (i : nat) (user : UserResponse.t) : IO user_loop_state :=
  let deviceLimit :=
    if 0 <? APIClient.DeviceLimit c then APIClient.DeviceLimit c
    else UserResponse.DeviceLimit user in
  let speedLimit :=
    if float64_gt (APIClient.SpeedLimit c) (float64_of_Z 0) then
      uint64_of_float64
        (float64_div (float64_mul (APIClient.SpeedLimit c) (float64_of_Z 1000000))
           (float64_of_Z 8))
    else
      uint64_of_float64
        (float64_div (float64_mul (UserResponse.SpeedLimit user) (float64_of_Z 1000000))
           (float64_of_Z 8)) in
  userList ← slice_store (userList st) i
               {| UserInfo.UID := UserResponse.ID user;
                  UserInfo.Passwd := UserResponse.Passwd user;
                  UserInfo.UUID := UserResponse.Passwd user;
                  UserInfo.SpeedLimit := speedLimit;
                  UserInfo.DeviceLimit := deviceLimit |};
  mret {| deviceLimit := deviceLimit; speedLimit := speedLimit; userList := userList |}.

(** [for i, x := range xs] from the index [i] on, threading the state. *)
Fixpoint range_from {S A : Type} (body : S -> nat -> A -> IO S) (i : nat) (xs : list A)
    (st : S) : IO S :=
  match xs with
  | [] => mret st
  | x :: xs' => st' ← body st i x; range_from body (Datatypes.S i) xs' st'
  end.

(** The argument is a pointer to a slice, nil ([None]) or not; [len] of what
    a nil pointer points to panics. *)
Definition ParseUserListResponse (c : APIClient.t)
    (userInfoResponse : option (list UserResponse.t))
  : IO (option (list UserInfo.t) * option error) :=
  match userInfoResponse with
  | None => panic "runtime error: invalid memory address or nil pointer dereference"
  | Some users =>
      let st :=
        {| deviceLimit := 0; speedLimit := 0;
           userList := replicate (length users) UserInfo.zero |} in
      st ← range_from (ParseUserListResponse_body c) 0 users st;
      mret (Some (userList st), None)
  end.

Definition GetNodeInfo (w : World.t) (c : APIClient.t)
  : IO (option NodeInfo.t * option error) :=
  let path := Sprintf "/api/node/config" [] in
  '(res, err) ← resty_Execute w c
      {| Resty.Method := "GET"; Resty.URL := path;
         Resty.ForceContentType := "application/json"; Resty.Body := None |};
  match err with
  | Some err => mret (None, Some err)
  | None =>
      match parseResponse c res path err with
      | (_, Some err) => mret (None, Some err)
      | (responseData, None) =>
          match json_Unmarshal_NodeInfoResponse (default EmptyString responseData) with
          | inr err =>
              mret (None, Some (Errorf "unmarshal %s failed: %s"
                                  [OpString "*pmpanel.NodeInfoResponse"; OpString err]))
          | inl nodeInfoResponse =>
              log_Printf "nodeInfoResponse: %+v"
                [OpString (fmt_NodeInfoResponse nodeInfoResponse)];;
              let dispatch :=
                if String.eqb (APIClient.NodeType c) "V2ray" then
                  Some (ParseV2rayNodeResponse c nodeInfoResponse)
                else if String.eqb (APIClient.NodeType c) "Trojan" then
                  Some (ParseTrojanNodeResponse c nodeInfoResponse)
                else if String.eqb (APIClient.NodeType c) "Shadowsocks" then
                  Some (ParseSSNodeResponse c nodeInfoResponse)
                else None in
              match dispatch with
              | None =>
                  mret (None, Some (Errorf "unsupported Node type: %s"
                                      [OpString (APIClient.NodeType c)]))
              | Some (nodeInfo, Some err) =>
                  let res := json_Marshal_NodeInfoResponse nodeInfoResponse in
                  mret (None,
                        Some (Errorf ("Parse node info failed: %s, " +:+ String LF "Error: %s")
                                [OpString res; OpString err]))
              | Some (nodeInfo, None) => mret (nodeInfo, None)
              end
          end
      end
  end.

Definition GetUserList (w : World.t) (c : APIClient.t)
  : IO (option (list UserInfo.t) * option error) :=
  let path := "/api/node/user" in
  '(res, err) ← resty_Execute w c
      {| Resty.Method := "GET"; Resty.URL := path;
         Resty.ForceContentType := "application/json"; Resty.Body := None |};
  log_Printf "[PMPanel] Get user list for node: %s" [OpString (APIClient.NodeID c)];;
  match parseResponse c res path err with
  | (_, Some err) => mret (None, Some err)
  | (responseData, None) =>
      match json_Unmarshal_UserResponses (default EmptyString responseData) with
      | inr err =>
          mret (None, Some (Errorf "unmarshal %s failed: %s"
                              [OpString "*[]pmpanel.UserResponse"; OpString err]))
      | inl userListResponse =>
          '(userList, err) ← ParseUserListResponse c userListResponse;
          match err with
          | Some err =>
              let res := json_Marshal_UserResponses userListResponse in
              mret (None, Some (Errorf "parse user list failed: %s" [OpString res]))
          | None => mret (userList, None)
          end
      end
  end.

Definition GetNodeRule (c : APIClient.t) : IO (option (list DetectRule.t) * option error) :=
  let ruleList := APIClient.LocalRuleList c in
  mret (Some ruleList, None).

Definition ReportIllegal {DetectResult : Type} (c : APIClient.t)
    (detectResultList : list DetectResult) : IO (option error) :=
  mret None.

End Client.

(** ** The client: description and telemetry *)

(** Modelled from the spec: [api.ClientInfo] is declared in a package that is
    not among the sources.  The fields are those that [Describe] sets. *)
Module ClientInfo.
Record t : Type := {
  APIHost : string;
  NodeID : string;
  Key : string;
  NodeType : string
}.
End ClientInfo.

(** Modelled from the spec: the telemetry shapes, node health (CPU, memory,
    disk and uptime scalars), online users (user id and originating address)
    and traffic usage (user id, upload and download byte counters), are
    declared in files that are not among the sources, once in the package
    [api] (what the caller supplies) and once in this package (what is sent).
    The fields are those that the reporters copy; the types of the scalars
    do not matter to this package, which only copies them. *)
Module api_NodeStatus.
Record t : Type := {
  CPU : float64;
  Mem : float64;
  Disk : float64;
  Uptime : Z
}.
End api_NodeStatus.

Module NodeStatus.
Record t : Type := {
  CPU : float64;
  Mem : float64;
  Disk : float64;
  Uptime : Z
}.
End NodeStatus.

Module api_OnlineUser.
Record t : Type := {
  UID : Z;
  IP : string
}.
End api_OnlineUser.

Module OnlineUser.
Record t : Type := {
  UID : Z;
  IP : string
}.

Definition zero : t := {| UID := 0; IP := "" |}.
End OnlineUser.

Module OnlineUserPostData.
Record t : Type := {
  Online : list OnlineUser.t
}.
End OnlineUserPostData.

Module api_UserTraffic.
Record t : Type := {
  UID : Z;
  Upload : Z;
  Download : Z
}.
End api_UserTraffic.

Module UserTraffic.
Record t : Type := {
  UID : Z;
  Upload : Z;
  Download : Z
}.

Definition zero : t := {| UID := 0; Upload := 0; Download := 0 |}.
End UserTraffic.

Module TrafficPostData.
Record t : Type := {
  Traffic : list UserTraffic.t
}.
End TrafficPostData.

(** The body that a request holds after [SetBody] of a value of one of the
    three shapes.  The transport encodes it as JSON when it executes the
    request; a failure to do so is one more way for the transport to answer
    with an error. *)
Class RequestBody : Type := {
  body_NodeStatus : NodeStatus.t -> string;
  body_OnlineUserPostData : OnlineUserPostData.t -> string;
  body_TrafficPostData : TrafficPostData.t -> string
}.

Section Telemetry.
Context `{RequestBody}.

Definition Describe (c : APIClient.t) : ClientInfo.t :=
  {| ClientInfo.APIHost := APIClient.APIHost c;
     ClientInfo.NodeID := APIClient.NodeID c;
     ClientInfo.Key := APIClient.Key c;
     ClientInfo.NodeType := APIClient.NodeType c |}.

(** [Debug] sets the flag of the transport client that the [APIClient]
    points to; the client with the flag set is returned. *)
Definition Debug (c : APIClient.t) : APIClient.t :=
  {| APIClient.client := Resty.SetDebug true (APIClient.client c);
     APIClient.APIHost := APIClient.APIHost c;
     APIClient.NodeID := APIClient.NodeID c;
     APIClient.Key := APIClient.Key c;
     APIClient.NodeType := APIClient.NodeType c;
     APIClient.EnableVless := APIClient.EnableVless c;
     APIClient.VlessFlow := APIClient.VlessFlow c;
     APIClient.SpeedLimit := APIClient.SpeedLimit c;
     APIClient.DeviceLimit := APIClient.DeviceLimit c;
     APIClient.LocalRuleList := APIClient.LocalRuleList c |}.

(** [c.client.R().SetHeader(k, v)...Post(path)]: the request goes out with
    the header [k: v] over the headers of the client. *)
Definition resty_Execute_SetHeader (w : World.t) (c : APIClient.t) (k v : string)
    (r : Resty.Request) : IO (Resty.Response * option error) :=
  let client := Resty.SetHeaders {[ k := v ]} (APIClient.client c) in
  resty_call w client r.

Definition ReportNodeStatus (w : World.t) (c : APIClient.t) (nodeStatus : api_NodeStatus.t)
  : IO (option error) :=
  let data :=
    {| NodeStatus.CPU := api_NodeStatus.CPU nodeStatus;
       NodeStatus.Mem := api_NodeStatus.Mem nodeStatus;
       NodeStatus.Disk := api_NodeStatus.Disk nodeStatus;
       NodeStatus.Uptime := api_NodeStatus.Uptime nodeStatus |} in
  let path := "/api/node/status" in
  '(res, err) ← resty_Execute w c
      {| Resty.Method := "POST"; Resty.URL := path;
         Resty.ForceContentType := "application/json";
         Resty.Body := Some (body_NodeStatus data) |};
  match parseResponse c res path err with
  | (_, Some err) => mret (Some err)
  | (_, None) => mret None
  end.

(** One iteration of the loop of [ReportNodeOnlineUsers]. *)
Definition ReportNodeOnlineUsers_body (data : list OnlineUser.t) (i : nat)
    (user : api_OnlineUser.t) : IO (list OnlineUser.t) :=
  slice_store data i
    {| OnlineUser.UID := api_OnlineUser.UID user; OnlineUser.IP := api_OnlineUser.IP user |}.

Definition ReportNodeOnlineUsers (w : World.t) (c : APIClient.t)
    (onlineUserList : list api_OnlineUser.t) : IO (option error) :=
  let data := replicate (length onlineUserList) OnlineUser.zero in
  data ← range_from ReportNodeOnlineUsers_body 0 onlineUserList data;
  let postData := {| OnlineUserPostData.Online := data |} in
  let path := "/api/node/user/online" in
  '(res, err) ← resty_Execute_SetHeader w c "Content-Type" "application/json"
      {| Resty.Method := "POST"; Resty.URL := path;
         Resty.ForceContentType := "application/json";
         Resty.Body := Some (body_OnlineUserPostData postData) |};
  match parseResponse c res path err with
  | (_, Some err) => mret (Some err)
  | (_, None) => mret None
  end.

(** One iteration of the loop of [ReportUserTraffic]. *)
Definition ReportUserTraffic_body (data : list UserTraffic.t) (i : nat)
    (traffic : api_UserTraffic.t) : IO (list UserTraffic.t) :=
  slice_store data i
    {| UserTraffic.UID := api_UserTraffic.UID traffic;
       UserTraffic.Upload := api_UserTraffic.Upload traffic;
       UserTraffic.Download := api_UserTraffic.Download traffic |}.

Definition ReportUserTraffic (w : World.t) (c : APIClient.t)
    (userTraffic : list api_UserTraffic.t) : IO (option error) :=
  let data := replicate (length userTraffic) UserTraffic.zero in
  data ← range_from ReportUserTraffic_body 0 userTraffic data;
  let postData := {| TrafficPostData.Traffic := data |} in
  let path := "/api/node/user/traffic" in
  '(res, err) ← resty_Execute_SetHeader w c "Content-Type" "application/json"
      {| Resty.Method := "POST"; Resty.URL := path;
         Resty.ForceContentType := "application/json";
         Resty.Body := Some (body_TrafficPostData postData) |};
  match parseResponse c res path err with
  | (_, Some err) => mret (Some err)
  | (_, None) => mret None
  end.

End Telemetry.

(** ** The vocabulary of the statements *)

(** The node types that pass the validation of [New]. *)
Definition accepted `{GoRuntime} (nodeType : string) : Prop :=
  let lowered := strings_ToLower nodeType in
  lowered = "shadowsocks" \/ lowered = "v2ray" \/ lowered = "trojan".

(** The node types that [GetNodeInfo] dispatches to a parser. *)
Definition dispatched (nodeType : string) : Prop :=
  nodeType = "V2ray" \/ nodeType = "Trojan" \/ nodeType = "Shadowsocks".

#[global] Instance accepted_dec `{GoRuntime} (nodeType : string) :
  Decision (accepted nodeType).
Proof. unfold accepted. cbv zeta. apply _. Defined.

#[global] Instance dispatched_dec (nodeType : string) : Decision (dispatched nodeType).
Proof. unfold dispatched. apply _. Defined.

(** The conversion that both parsers apply to a speed in megabits per
    second: [uint64((v * 1000000) / 8)]. *)
Definition bytes_per_second `{GoRuntime} (v : float64) : Z :=
  uint64_of_float64 (float64_div (float64_mul v (float64_of_Z 1000000)) (float64_of_Z 8)).

(** [v > 0] on a [float64]. *)
Definition positive_speed (v : float64) : bool := float64_gt v (float64_of_Z 0).

(** The record that one iteration of [ParseUserListResponse] stores. *)
Definition UserInfo_of `{GoRuntime} (c : APIClient.t) (user : UserResponse.t) : UserInfo.t :=
  {| UserInfo.UID := UserResponse.ID user;
     UserInfo.Passwd := UserResponse.Passwd user;
     UserInfo.UUID := UserResponse.Passwd user;
     UserInfo.SpeedLimit :=
       if positive_speed (APIClient.SpeedLimit c)
       then bytes_per_second (APIClient.SpeedLimit c)
       else bytes_per_second (UserResponse.SpeedLimit user);
     UserInfo.DeviceLimit :=
       if 0 <? APIClient.DeviceLimit c then APIClient.DeviceLimit c
       else UserResponse.DeviceLimit user |}.

(** [f] is the float of the whole number [n], [0 < n < 2^53]: its mantissa
    [k] has 53 binary digits, where [n] has [d]. *)
Definition whole (f : float64) (n : Z) : Prop :=
  exists (k : positive) (d : Z),
    f = S754_finite false k (d - 53) /\
    Zpos (digits2_pos k) = 53 /\
    1 <= d <= 53 /\
    Zpos k = n * 2 ^ (53 - d).

(** The request that [GetNodeInfo] sends. *)
Definition node_config_request : Resty.Request :=
  {| Resty.Method := "GET"; Resty.URL := "/api/node/config";
     Resty.ForceContentType := "application/json"; Resty.Body := None |}.

(** The rule that the loader makes of a line. *)
Definition local_rule (line : string) : DetectRule.t :=
  {| DetectRule.ID := -1; DetectRule.Pattern := {| expr := line |} |}.

(** The request that [GetUserList] sends. *)
Definition user_list_request : Resty.Request :=
  {| Resty.Method := "GET"; Resty.URL := "/api/node/user";
     Resty.ForceContentType := "application/json"; Resty.Body := None |}.

(** The events that are requests to the panel. *)
Definition is_send (e : Event) : bool :=
  match e with
  | EvSend _ _ => true
  | _ => false
  end.

(** The text of a file made of the given lines, each ended by a line feed. *)
Definition join_lines (lines : list string) : string :=
  foldr (fun line text => line +:+ String LF text) EmptyString lines.

(** A line that the scanner can deliver: it holds no line feed, and fits
    the buffer. *)
Definition scannable (line : string) : Prop :=
  string_forallb (fun c => negb (Ascii.eqb c LF)) line = true /\
  Z.of_nat (String.length line) < bufio_MaxScanTokenSize.

(** The header set that the online-user and traffic reports go out with. *)
Definition json_client (c : APIClient.t) : Resty.Client :=
  Resty.SetHeaders {[ "Content-Type" := "application/json" ]} (APIClient.client c).

(** The text of [n] slashes. *)
Fixpoint slashes (n : nat) : string :=
  match n with
  | O => EmptyString
  | S n' => String "/" (slashes n')
  end.

(** What the hook of [New] logs at the end of a call for [r] that failed
    with the error [e]: the error, when the transport has a response
    object. *)
Definition failure_log (w : World.t) (client : Resty.Client) (r : Resty.Request)
    (e : error) : list Event :=
  if World.HasResponse w client r then [EvLog e] else [].

(** What the hooks of the client log at the end of the call for [r]. *)
Definition hook_log (w : World.t) (client : Resty.Client) (r : Resty.Request)
  : list Event :=
  map EvLog
    (Resty.onErrorHooks client r
       (if World.HasResponse w client r then Some (World.Execute w client r).1 else None)
       (World.Execute w client r).2).

(** ** Sample values, on which the statements below are exercised *)

(** A runtime for the samples.  A conversion to [uint64] of a number that is
    out of range wraps around modulo 2^64, and gives 2^63 for an infinity and
    for a NaN.  Every regexp compiles.  The JSON decoder knows four texts:
    the empty text, which it refuses as cut short, [null], which leaves its
    target as it is, the empty object and the empty array, each of which it
    refuses for a target of the other kind; any other text it takes for one
    that is cut short. *)
Definition sample_runtime : GoRuntime :=
  {| uint64_unrepresentable := fun f =>
       match float64_truncate f with
       | Some z => z mod 2 ^ 64
       | None => 2 ^ 63
       end;
     Map_unicode_ToLower := fun s => s;
     regexp_Compile_error := fun _ => None;
     json_Unmarshal_NodeInfoResponse := fun data =>
       if String.eqb data "{}" || String.eqb data "null" then
         inl {| NodeInfoResponse.Port := 0; NodeInfoResponse.Method := "";
                NodeInfoResponse.ServerKey := "";
                NodeInfoResponse.SpeedLimit := S754_zero false |}
       else if String.eqb data "[]" then
         inr "json: cannot unmarshal array into Go value of type pmpanel.NodeInfoResponse"
       else inr "unexpected end of JSON input";
     json_Unmarshal_UserResponses := fun data =>
       if String.eqb data "[]" then inl (Some [])
       else if String.eqb data "null" then inl None
       else if String.eqb data "{}" then
         inr "json: cannot unmarshal object into Go value of type []pmpanel.UserResponse"
       else inr "unexpected end of JSON input";
     json_Marshal_NodeInfoResponse := fun _ => "{}";
     json_Marshal_UserResponses := fun _ => "[]";
     fmt_NodeInfoResponse := fun _ => "&{}" |}.

Definition sample_config (nodeType : string) (path : string) : Config.t :=
  {| Config.APIHost := "https://panel.example";
     Config.NodeID := "7";
     Config.Key := "secret";
     Config.NodeType := nodeType;
     Config.EnableVless := false;
     Config.VlessFlow := "";
     Config.Timeout := 0;
     Config.SpeedLimit := float64_of_Z 0;
     Config.DeviceLimit := 0;
     Config.RuleListPath := path |}.

Definition sample_client (nodeType : string) (speed : float64) (devices : Z) : APIClient.t :=
  {| APIClient.client := Resty.New;
     APIClient.APIHost := "https://panel.example";
     APIClient.NodeID := "7";
     APIClient.Key := "secret";
     APIClient.NodeType := nodeType;
     APIClient.EnableVless := false;
     APIClient.VlessFlow := "";
     APIClient.SpeedLimit := speed;
     APIClient.DeviceLimit := devices;
     APIClient.LocalRuleList := [] |}.

Definition sample_response (status : Z) (body : string) : Resty.Response :=
  {| Resty.StatusCode := status; Resty.RespBody := body |}.

Definition sample_world : World.t :=
  {| World.os_Open := fun _ => inr "open: no such file or directory";
     World.Execute := fun _ _ => (sample_response 0 "", Some "dial tcp: connection refused");
     World.HasResponse := fun _ _ => true |}.

(** A panel that answers every request with status 200 and an empty object. *)
Definition sample_panel : World.t :=
  {| World.os_Open := fun _ => inr "open: no such file or directory";
     World.Execute := fun _ _ => (sample_response 200 "{}", None);
     World.HasResponse := fun _ _ => true |}.

(** The payload [{port: 8443, method: "aes-256-gcm", server_key: "k1",
    speedlimit: 100}], decoded. *)
Definition shadowsocks_payload : NodeInfoResponse.t :=
  {| NodeInfoResponse.Port := 8443;
     NodeInfoResponse.Method := "aes-256-gcm";
     NodeInfoResponse.ServerKey := "k1";
     NodeInfoResponse.SpeedLimit := float64_of_Z 100 |}.

(** The file of three lines [abc], [d.*e] and [^foo$]. *)
Definition three_line_file : string :=
  "abc" +:+ String LF ("d.*e" +:+ String LF ("^foo$" +:+ String LF "")).

(** A file system with the file of three lines in its directory: the
    directory opens, as every directory does, and cannot be read. *)
Definition three_line_world : World.t :=
  {| World.os_Open := fun path =>
       if String.eqb path "/etc/nboard-node/rulelist"
       then inl {| World.contents := three_line_file; World.read_error := None |}
       else if String.eqb path "/etc/nboard-node"
       then inl {| World.contents := "";
                   World.read_error := Some ("read " +:+ path +:+ ": is a directory") |}
       else inr ("open " +:+ path +:+ ": no such file or directory");
     World.Execute := fun _ _ => (sample_response 200 "{}", None);
     World.HasResponse := fun _ _ => true |}.

(** Bodies in a compact notation of their own. *)
Definition sample_bodies : RequestBody :=
  {| body_NodeStatus := fun d => "uptime=" +:+ itoa (NodeStatus.Uptime d);
     body_OnlineUserPostData := fun d =>
       foldr (fun u text => itoa (OnlineUser.UID u) +:+ "@" +:+ OnlineUser.IP u +:+ ";" +:+ text)
         "" (OnlineUserPostData.Online d);
     body_TrafficPostData := fun d =>
       foldr (fun u text => itoa (UserTraffic.UID u) +:+ ":" +:+ itoa (UserTraffic.Upload u)
                            +:+ "/" +:+ itoa (UserTraffic.Download u) +:+ ";" +:+ text)
         "" (TrafficPostData.Traffic d) |}.

(** A panel that refuses every request with status 403. *)
Definition sample_forbidden : World.t :=
  {| World.os_Open := fun _ => inr "open: no such file or directory";
     World.Execute := fun _ _ => (sample_response 403 "no", None);
     World.HasResponse := fun _ _ => true |}.

(** A panel that answers every request with status 200 and the JSON [null],
    and one that answers with the empty array. *)
Definition sample_null_panel : World.t :=
  {| World.os_Open := fun _ => inr "open: no such file or directory";
     World.Execute := fun _ _ => (sample_response 200 "null", None);
     World.HasResponse := fun _ _ => true |}.

Definition sample_empty_panel : World.t :=
  {| World.os_Open := fun _ => inr "open: no such file or directory";
     World.Execute := fun _ _ => (sample_response 200 "[]", None);
     World.HasResponse := fun _ _ => true |}.

(** A panel whose answers, with status 200, have an empty body. *)
Definition sample_mute_panel : World.t :=
  {| World.os_Open := fun _ => inr "open: no such file or directory";
     World.Execute := fun _ _ => (sample_response 200 "", None);
     World.HasResponse := fun _ _ => true |}.

(** A transport that fails to encode the body of its requests, as it does
    for a number that is not one (a NaN has no JSON): the request is not
    handed to the HTTP client, and there is no response object. *)
Definition sample_unprepared : World.t :=
  {| World.os_Open := fun _ => inr "open: no such file or directory";
     World.Execute := fun _ _ => (sample_response 0 "", Some "json: unsupported value: NaN");
     World.HasResponse := fun _ _ => false |}.

(** ** Response classification *)

Lemma append_empty_r (s : string) : s +:+ "" = s.
Proof.
  induction s as [|a s IH]; [reflexivity|].
  change (String a (s +:+ "") = String a s). by rewrite IH.
Qed.

Section Classification.
Variables (c : APIClient.t) (res : Resty.Response) (path : string).

Let url : string := assembleURL c path.
Let body : string := Resty.RespBody res.
Let status : Z := Resty.StatusCode res.

Lemma parseResponse_transport_error (e : error) :
  parseResponse c res path (Some e) =
  (None, Some ("request " +:+ url +:+ " failed: " +:+ e)).
Proof.
  unfold parseResponse, Errorf. cbn. by rewrite append_empty_r.
Qed.

Lemma parseResponse_ok :
  status = 200 -> parseResponse c res path None = (Some body, None).
Proof. unfold parseResponse, status. by intros ->. Qed.

Lemma parseResponse_status (kind : string) :
  (status = 400 /\ kind = " failed with bad request: ") \/
  (status = 401 /\ kind = " failed with unauthorized: ") \/
  (status = 403 /\ kind = " failed with forbidden: ") ->
  parseResponse c res path None = (None, Some ("request " +:+ url +:+ kind +:+ body)).
Proof.
  unfold parseResponse, Errorf, status.
  intros [[-> ->]|[[-> ->]|[-> ->]]]; cbn; by rewrite append_empty_r.
Qed.

Lemma parseResponse_other :
  status <> 200 -> status <> 400 -> status <> 401 -> status <> 403 ->
  parseResponse c res path None =
  (None, Some ("request " +:+ url +:+ " failed with status code " +:+ itoa status
                 +:+ ": " +:+ body)).
Proof.
  unfold parseResponse, Errorf. fold status. intros H200 H400 H401 H403.
  repeat match goal with
         | Hne : status <> ?k |- context [status =? ?k] =>
             rewrite (proj2 (Z.eqb_neq status k) Hne)
         end.
  cbn. by rewrite append_empty_r.
Qed.

(** C2.  [parseResponse] classifies a transport outcome: a transport error
    gives the connectivity failure, whose text names the URL made of the
    host and the target path; without one, status 200 gives the body
    unchanged and no error; 400, 401 and 403 give the bad-request, the
    unauthorized and the forbidden failure; every other status gives the
    failure that carries the status code in decimal and the body. *)
Theorem parseResponse_classification :
  url = APIClient.APIHost c +:+ path /\
  (forall e : error,
      parseResponse c res path (Some e) =
      (None, Some ("request " +:+ url +:+ " failed: " +:+ e))) /\
  (status = 200 -> parseResponse c res path None = (Some body, None)) /\
  (status = 400 ->
   parseResponse c res path None =
   (None, Some ("request " +:+ url +:+ " failed with bad request: " +:+ body))) /\
  (status = 401 ->
   parseResponse c res path None =
   (None, Some ("request " +:+ url +:+ " failed with unauthorized: " +:+ body))) /\
  (status = 403 ->
   parseResponse c res path None =
   (None, Some ("request " +:+ url +:+ " failed with forbidden: " +:+ body))) /\
  (status <> 200 -> status <> 400 -> status <> 401 -> status <> 403 ->
   parseResponse c res path None =
   (None, Some ("request " +:+ url +:+ " failed with status code " +:+ itoa status
                  +:+ ": " +:+ body))).
Proof.
  split; [reflexivity|].
  split; [exact parseResponse_transport_error|].
  split; [exact parseResponse_ok|].
  repeat split; try (intros Hs; apply parseResponse_status; tauto).
  exact parseResponse_other.
Qed.

End Classification.

Lemma parseResponse_classification_witness :
  let c := sample_client "Shadowsocks" (float64_of_Z 0) 0 in
  let path := "/api/node/user" in
  parseResponse c (sample_response 0 "") path (Some "dial tcp: timeout") =
    (None, Some "request https://panel.example/api/node/user failed: dial tcp: timeout") /\
  parseResponse c (sample_response 200 "[]") path None = (Some "[]", None) /\
  parseResponse c (sample_response 400 "bad") path None =
    (None, Some "request https://panel.example/api/node/user failed with bad request: bad") /\
  parseResponse c (sample_response 401 "who") path None =
    (None, Some "request https://panel.example/api/node/user failed with unauthorized: who") /\
  parseResponse c (sample_response 403 "no") path None =
    (None, Some "request https://panel.example/api/node/user failed with forbidden: no") /\
  parseResponse c (sample_response 502 "down") path None =
    (None, Some "request https://panel.example/api/node/user failed with status code 502: down").
Proof.
  intros c path.
  pose proof (fun r => parseResponse_classification c r path) as P.
  split; [destruct (P (sample_response 0 "")) as (_ & Herr & _); exact (Herr _)|].
  split; [destruct (P (sample_response 200 "[]")) as (_ & _ & H200 & _); exact (H200 eq_refl)|].
  split; [destruct (P (sample_response 400 "bad")) as (_ & _ & _ & H400 & _);
          exact (H400 eq_refl)|].
  split; [destruct (P (sample_response 401 "who")) as (_ & _ & _ & _ & H401 & _);
          exact (H401 eq_refl)|].
  split; [destruct (P (sample_response 403 "no")) as (_ & _ & _ & _ & _ & H403 & _);
          exact (H403 eq_refl)|].
  destruct (P (sample_response 502 "down")) as (_ & _ & _ & _ & _ & _ & Hother).
  apply Hother; cbn; lia.
Defined.

(** ** Construction *)

Section Construction.
Context `{GoRuntime}.

Lemma strings_ToLower_ASCII (s : string) :
  string_forallb is_ASCII s = true ->
  strings_ToLower s = string_map lower_byte s.
Proof.
  unfold strings_ToLower. intros ->.
  destruct (string_forallb (fun c => negb (is_upper c)) s) eqn:E; [|reflexivity].
  induction s as [|a s IH]; [reflexivity|]. cbn in E |- *.
  apply andb_prop in E as [Ha Hs]. unfold lower_byte.
  rewrite (negb_true_iff _) in Ha. rewrite Ha. f_equal. by apply IH.
Qed.

Lemma strings_ToLower_sample :
  strings_ToLower "ShadowSocks" = "shadowsocks" /\ strings_ToLower "V2Ray" = "v2ray".
Proof. split; reflexivity. Qed.

Lemma New_invalid (w : World.t) (apiConfig : Config.t) :
  ~ accepted (Config.NodeType apiConfig) -> New w apiConfig = ([], Returned None).
Proof.
  unfold accepted, New. cbv zeta. intros Hn.
  destruct (String.eqb_spec (strings_ToLower (Config.NodeType apiConfig)) "shadowsocks");
    [tauto|].
  destruct (String.eqb_spec (strings_ToLower (Config.NodeType apiConfig)) "v2ray");
    [tauto|].
  destruct (String.eqb_spec (strings_ToLower (Config.NodeType apiConfig)) "trojan");
    [tauto|].
  reflexivity.
Qed.

(** What [New] does once the node type is accepted: it logs, loads the rule
    list, and returns a client that keeps the node type as configured. *)
Lemma New_valid (w : World.t) (apiConfig : Config.t) :
  accepted (Config.NodeType apiConfig) ->
  exists (msg : string) (client : Resty.Client),
    New w apiConfig =
    (localRuleList ← (emit (EvLog msg);; readLocalRuleList w (Config.RuleListPath apiConfig));
     mret (Some {| APIClient.client := client;
                   APIClient.NodeID := Config.NodeID apiConfig;
                   APIClient.Key := Config.Key apiConfig;
                   APIClient.APIHost := Config.APIHost apiConfig;
                   APIClient.NodeType := Config.NodeType apiConfig;
                   APIClient.EnableVless := Config.EnableVless apiConfig;
                   APIClient.VlessFlow := Config.VlessFlow apiConfig;
                   APIClient.SpeedLimit := Config.SpeedLimit apiConfig;
                   APIClient.DeviceLimit := Config.DeviceLimit apiConfig;
                   APIClient.LocalRuleList := localRuleList |})).
Proof.
  unfold accepted, New. cbv zeta. intros Hacc.
  set (lowered := strings_ToLower (Config.NodeType apiConfig)) in *.
  assert (negb (String.eqb lowered "shadowsocks") && negb (String.eqb lowered "v2ray")
          && negb (String.eqb lowered "trojan") = false) as ->.
  { destruct Hacc as [-> | [-> | ->]]; reflexivity. }
  eexists _, _. unfold log_Printf.
  destruct (readLocalRuleList w (Config.RuleListPath apiConfig)) as [t [rules|v|n]];
    reflexivity.
Qed.

Lemma New_returns (w : World.t) (apiConfig : Config.t) (t : list Event) (c : APIClient.t) :
  New w apiConfig = (t, Returned (Some c)) ->
  accepted (Config.NodeType apiConfig) /\
  APIClient.NodeType c = Config.NodeType apiConfig /\
  APIClient.SpeedLimit c = Config.SpeedLimit apiConfig /\
  APIClient.DeviceLimit c = Config.DeviceLimit apiConfig /\
  exists t', readLocalRuleList w (Config.RuleListPath apiConfig)
             = (t', Returned (APIClient.LocalRuleList c)).
Proof.
  intros HNew.
  assert (accepted (Config.NodeType apiConfig)) as Hacc.
  { destruct (decide (accepted (Config.NodeType apiConfig))) as [Hacc|Hn]; [done|].
    rewrite (New_invalid w _ Hn) in HNew. discriminate. }
  split; [done|].
  destruct (New_valid w apiConfig Hacc) as (msg & client & E). rewrite E in HNew.
  destruct (readLocalRuleList w (Config.RuleListPath apiConfig)) as [t' [rules|v|n]];
    cbn in HNew; try discriminate.
  injection HNew as _ <-. cbn. eauto.
Qed.

(** The transport client of a client from [New] has one error hook, the one
    that [New] registers. *)
Lemma New_errorHooks (w : World.t) (apiConfig : Config.t) (t : list Event)
    (c : APIClient.t) :
  New w apiConfig = (t, Returned (Some c)) ->
  Resty.errorHooks (APIClient.client c) = [New_OnError].
Proof.
  unfold New. cbv zeta.
  destruct (negb _ && negb _ && negb _); [discriminate|].
  unfold log_Printf.
  destruct (readLocalRuleList w (Config.RuleListPath apiConfig)) as [t' [rules|v|n]];
    cbn; intros [= _ <-]; cbn.
  by destruct (0 <? Config.Timeout apiConfig).
Qed.

End Construction.

(** C8.  A configuration whose node type, lowercased, is none of
    "shadowsocks", "v2ray" and "trojan" gets no client: [New] returns nil,
    and does nothing else (no log line, no file access). *)
Theorem New_unsupported_node_type `{GoRuntime} (w : World.t) (apiConfig : Config.t) :
  let nodeType := strings_ToLower (Config.NodeType apiConfig) in
  nodeType <> "shadowsocks" -> nodeType <> "v2ray" -> nodeType <> "trojan" ->
  New w apiConfig = ([], Returned None).
Proof.
  intros nodeType H1 H2 H3. apply New_invalid. unfold accepted. cbv zeta.
  fold nodeType. tauto.
Qed.

Lemma New_unsupported_node_type_witness :
  New (H := sample_runtime) sample_world (sample_config "wireguard" "rulelist") =
  ([], Returned None).
Proof.
  apply (New_unsupported_node_type (H := sample_runtime)); vm_compute; discriminate.
Defined.

(** ** Node config fetch *)

Lemma io_bind_returned {A B : Type} (t : list Event) (a : A) (k : A -> IO B) :
  ((t, Returned a) ≫= k) = (t ++ (k a).1, (k a).2).
Proof. unfold mbind, IO_bind, io_bind. by destruct (k a) as [t' o]. Qed.

(** A call sends the request, runs the hooks, and returns the world's
    answer. *)
Lemma resty_call_eq (w : World.t) (client : Resty.Client) (r : Resty.Request) :
  resty_call w client r
  = (EvSend client r :: hook_log w client r, Returned (World.Execute w client r)).
Proof.
  unfold resty_call, hook_log.
  destruct (World.Execute w client r) as [res err].
  unfold log_lines, emit, mbind, IO_bind, io_bind, mret, IO_ret, io_ret. cbn.
  by rewrite app_nil_r.
Qed.

(** The hooks are silent when the call succeeds. *)
Lemma hook_log_ok (w : World.t) (client : Resty.Client) (r : Resty.Request)
    (res : Resty.Response) :
  World.Execute w client r = (res, None) -> hook_log w client r = [].
Proof. unfold hook_log. by intros ->. Qed.

Lemma resty_call_ok (w : World.t) (client : Resty.Client) (r : Resty.Request)
    (res : Resty.Response) :
  World.Execute w client r = (res, None) ->
  resty_call w client r = ([EvSend client r], Returned (res, None)).
Proof. intros Hex. by rewrite resty_call_eq, (hook_log_ok _ _ _ _ Hex), Hex. Qed.

Lemma resty_call_error (w : World.t) (client : Resty.Client) (r : Resty.Request)
    (res : Resty.Response) (e : error) :
  World.Execute w client r = (res, Some e) ->
  resty_call w client r = (EvSend client r :: hook_log w client r, Returned (res, Some e)).
Proof. intros Hex. by rewrite resty_call_eq, Hex. Qed.

(** On a client whose one hook is that of [New], a call that fails logs the
    error when the transport has a response object, and nothing otherwise. *)
Lemma hook_log_New (w : World.t) (client : Resty.Client) (r : Resty.Request)
    (res : Resty.Response) (e : error) :
  Resty.errorHooks client = [New_OnError] ->
  World.Execute w client r = (res, Some e) ->
  hook_log w client r = failure_log w client r e.
Proof.
  unfold hook_log, failure_log, Resty.onErrorHooks. intros -> ->.
  by destruct (World.HasResponse w client r).
Qed.

Section NodeInfoFetch.
Context `{GoRuntime}.
Variables (w : World.t) (c : APIClient.t).

#[local] Arguments ParseSSNodeResponse : simpl never.
#[local] Arguments parseResponse : simpl never.

(** Both fetches start with a request to the panel. *)
Lemma GetNodeInfo_trace :
  exists t : list Event,
    fst (GetNodeInfo w c) = EvSend (APIClient.client c) node_config_request :: t.
Proof.
  unfold GetNodeInfo, resty_Execute. cbv zeta.
  rewrite resty_call_eq, io_bind_returned. by eexists.
Qed.

Lemma GetUserList_sends :
  exists t : list Event,
    fst (GetUserList w c) = EvSend (APIClient.client c) user_list_request :: t.
Proof.
  unfold GetUserList, resty_Execute. cbv zeta.
  rewrite resty_call_eq, io_bind_returned. by eexists.
Qed.

(** With a node type that the dispatch does not know, every path through
    [GetNodeInfo] ends in an error. *)
Lemma GetNodeInfo_undispatched_fails :
  ~ dispatched (APIClient.NodeType c) ->
  exists e : error, snd (GetNodeInfo w c) = Returned (None, Some e).
Proof.
  intros Hnd. unfold GetNodeInfo, resty_Execute. cbv zeta.
  rewrite resty_call_eq, io_bind_returned. cbn [snd].
  destruct (World.Execute w (APIClient.client c) _) as [res [e|]]; [by eexists|].
  destruct (parseResponse c res _ None) as [data [e|]]; [by eexists|].
  destruct (json_Unmarshal_NodeInfoResponse (default "" data)) as [r|e]; [|by eexists].
  cbn.
  destruct (String.eqb_spec (APIClient.NodeType c) "V2ray") as [E|_];
    [exfalso; apply Hnd; unfold dispatched; tauto|].
  destruct (String.eqb_spec (APIClient.NodeType c) "Trojan") as [E|_];
    [exfalso; apply Hnd; unfold dispatched; tauto|].
  destruct (String.eqb_spec (APIClient.NodeType c) "Shadowsocks") as [E|_];
    [exfalso; apply Hnd; unfold dispatched; tauto|].
  by eexists.
Qed.

(** ... and the path on which the panel answered 200 with a body that decodes
    ends in the unsupported-node-type error. *)
Lemma GetNodeInfo_undispatched_unsupported (res : Resty.Response) (r : NodeInfoResponse.t) :
  ~ dispatched (APIClient.NodeType c) ->
  World.Execute w (APIClient.client c) node_config_request = (res, None) ->
  Resty.StatusCode res = 200 ->
  json_Unmarshal_NodeInfoResponse (Resty.RespBody res) = inl r ->
  snd (GetNodeInfo w c)
  = Returned (None, Some ("unsupported Node type: " +:+ APIClient.NodeType c)).
Proof.
  intros Hnd Hex Hst Hdec. unfold GetNodeInfo, resty_Execute. cbv zeta.
  change (Sprintf "/api/node/config" []) with "/api/node/config".
  fold node_config_request. rewrite (resty_call_ok _ _ _ _ Hex). cbn.
  rewrite (parseResponse_ok c res _ Hst). cbn. rewrite Hdec. cbn.
  destruct (String.eqb_spec (APIClient.NodeType c) "V2ray") as [E|_];
    [exfalso; apply Hnd; unfold dispatched; tauto|].
  destruct (String.eqb_spec (APIClient.NodeType c) "Trojan") as [E|_];
    [exfalso; apply Hnd; unfold dispatched; tauto|].
  destruct (String.eqb_spec (APIClient.NodeType c) "Shadowsocks") as [E|_];
    [exfalso; apply Hnd; unfold dispatched; tauto|].
  unfold Errorf. cbn. by rewrite append_empty_r.
Qed.

(** With the node type "Shadowsocks", a 200 answer that decodes goes through
    [ParseSSNodeResponse]. *)
Lemma GetNodeInfo_Shadowsocks (res : Resty.Response) (r : NodeInfoResponse.t)
    (nodeInfo : NodeInfo.t) :
  APIClient.NodeType c = "Shadowsocks" ->
  World.Execute w (APIClient.client c) node_config_request = (res, None) ->
  Resty.StatusCode res = 200 ->
  json_Unmarshal_NodeInfoResponse (Resty.RespBody res) = inl r ->
  ParseSSNodeResponse c r = (Some nodeInfo, None) ->
  snd (GetNodeInfo w c) = Returned (Some nodeInfo, None).
Proof.
  intros HNT Hex Hst Hdec HP. unfold GetNodeInfo, resty_Execute. cbv zeta.
  change (Sprintf "/api/node/config" []) with "/api/node/config".
  fold node_config_request. rewrite (resty_call_ok _ _ _ _ Hex). cbn.
  rewrite (parseResponse_ok c res _ Hst). cbn. rewrite Hdec, HNT. cbn.
  by rewrite HP.
Qed.

(** A status other than 200 is an error of [parseResponse]. *)
Lemma parseResponse_not_ok (res : Resty.Response) (path : string) :
  Resty.StatusCode res <> 200 ->
  exists e : error, parseResponse c res path None = (None, Some e).
Proof.
  intros Hst. unfold parseResponse.
  destruct (Z.eqb_spec (Resty.StatusCode res) 200) as [|_]; [done|]. cbn [negb].
  destruct (Resty.StatusCode res =? 400); [by eexists|].
  destruct (Resty.StatusCode res =? 401); [by eexists|].
  destruct (Resty.StatusCode res =? 403); by eexists.
Qed.

(** The failures before the dispatch, whatever the node type: the error of
    the transport as it is, the error of [parseResponse] for a status other
    than 200, the unmarshal error for a body that does not decode. *)
Lemma GetNodeInfo_early_failures :
  (forall (res : Resty.Response) (e : error),
      World.Execute w (APIClient.client c) node_config_request = (res, Some e) ->
      snd (GetNodeInfo w c) = Returned (None, Some e)) /\
  (forall res : Resty.Response,
      World.Execute w (APIClient.client c) node_config_request = (res, None) ->
      Resty.StatusCode res <> 200 ->
      exists e : error,
        parseResponse c res "/api/node/config" None = (None, Some e) /\
        snd (GetNodeInfo w c) = Returned (None, Some e)) /\
  (forall (res : Resty.Response) (e : error),
      World.Execute w (APIClient.client c) node_config_request = (res, None) ->
      Resty.StatusCode res = 200 ->
      json_Unmarshal_NodeInfoResponse (Resty.RespBody res) = inr e ->
      snd (GetNodeInfo w c)
      = Returned (None, Some ("unmarshal *pmpanel.NodeInfoResponse failed: " +:+ e))).
Proof.
  split; [|split].
  - intros res e Hex. unfold GetNodeInfo, resty_Execute. cbv zeta.
    change (Sprintf "/api/node/config" []) with "/api/node/config".
    fold node_config_request. rewrite (resty_call_error _ _ _ _ _ Hex).
    by rewrite io_bind_returned.
  - intros res Hex Hst.
    destruct (parseResponse_not_ok res "/api/node/config" Hst) as (e & E).
    exists e. split; [exact E|].
    unfold GetNodeInfo, resty_Execute. cbv zeta.
    change (Sprintf "/api/node/config" []) with "/api/node/config".
    fold node_config_request. rewrite (resty_call_ok _ _ _ _ Hex). cbn.
    by rewrite E.
  - intros res e Hex Hst Hdec. unfold GetNodeInfo, resty_Execute. cbv zeta.
    change (Sprintf "/api/node/config" []) with "/api/node/config".
    fold node_config_request. rewrite (resty_call_ok _ _ _ _ Hex). cbn.
    rewrite (parseResponse_ok c res _ Hst). cbn. rewrite Hdec.
    unfold Errorf. cbn. by rewrite append_empty_r.
Qed.

End NodeInfoFetch.

(** C3 (as amended).  [New] validates the lowercased node type and keeps the
    configured spelling in the client, [GetNodeInfo] dispatches on that
    spelling.  So for a configuration whose node type is accepted but is not
    exactly "Shadowsocks", "V2ray" or "Trojan": [New] does not refuse it (once
    the rule list has loaded it returns a client with the node type as
    configured); and on every client that [New] returns for it,
    [GetNodeInfo] never yields a node descriptor, and yields the
    unsupported-node-type error whenever the panel answered the config
    request with status 200 and a body that decodes; otherwise it yields the
    earlier failure: the error of the transport as it is, the error of
    [parseResponse] for a status other than 200, the unmarshal error for a
    body that does not decode. *)
Theorem GetNodeInfo_case_mismatch `{GoRuntime} (w : World.t) (apiConfig : Config.t) :
  accepted (Config.NodeType apiConfig) ->
  ~ dispatched (Config.NodeType apiConfig) ->
  (forall (t : list Event) (rules : list DetectRule.t),
      readLocalRuleList w (Config.RuleListPath apiConfig) = (t, Returned rules) ->
      exists (t' : list Event) (c : APIClient.t),
        New w apiConfig = (t', Returned (Some c)) /\
        APIClient.NodeType c = Config.NodeType apiConfig) /\
  (forall (t : list Event) (c : APIClient.t),
      New w apiConfig = (t, Returned (Some c)) ->
      forall w' : World.t,
        (exists e : error, snd (GetNodeInfo w' c) = Returned (None, Some e)) /\
        (forall (res : Resty.Response) (r : NodeInfoResponse.t),
            World.Execute w' (APIClient.client c) node_config_request = (res, None) ->
            Resty.StatusCode res = 200 ->
            json_Unmarshal_NodeInfoResponse (Resty.RespBody res) = inl r ->
            snd (GetNodeInfo w' c)
            = Returned (None, Some ("unsupported Node type: "
                                      +:+ Config.NodeType apiConfig))) /\
        (forall (res : Resty.Response) (e : error),
            World.Execute w' (APIClient.client c) node_config_request = (res, Some e) ->
            snd (GetNodeInfo w' c) = Returned (None, Some e)) /\
        (forall res : Resty.Response,
            World.Execute w' (APIClient.client c) node_config_request = (res, None) ->
            Resty.StatusCode res <> 200 ->
            exists e : error,
              parseResponse c res "/api/node/config" None = (None, Some e) /\
              snd (GetNodeInfo w' c) = Returned (None, Some e)) /\
        (forall (res : Resty.Response) (e : error),
            World.Execute w' (APIClient.client c) node_config_request = (res, None) ->
            Resty.StatusCode res = 200 ->
            json_Unmarshal_NodeInfoResponse (Resty.RespBody res) = inr e ->
            snd (GetNodeInfo w' c)
            = Returned (None, Some ("unmarshal *pmpanel.NodeInfoResponse failed: "
                                      +:+ e)))).
Proof.
  intros Hacc Hnd. split.
  - intros t rules Hload.
    destruct (New_valid w apiConfig Hacc) as (msg & client & E).
    rewrite E, Hload. cbn. eauto.
  - intros t c HNew w'.
    destruct (New_returns w apiConfig t c HNew) as (_ & HT & _).
    rewrite <- HT in Hnd |- *. split; [|split].
    + by apply GetNodeInfo_undispatched_fails.
    + intros res r. by apply GetNodeInfo_undispatched_unsupported.
    + apply GetNodeInfo_early_failures.
Qed.

Lemma GetNodeInfo_case_mismatch_witness :
  exists (t : list Event) (c : APIClient.t),
    New (H := sample_runtime) sample_world (sample_config "shadowsocks" "")
    = (t, Returned (Some c)) /\
    snd (GetNodeInfo (H := sample_runtime) sample_panel c)
    = Returned (None, Some "unsupported Node type: shadowsocks").
Proof.
  assert (accepted (H := sample_runtime) "shadowsocks") as Hacc
    by (left; reflexivity).
  assert (~ dispatched "shadowsocks") as Hnd
    by (intros [E|[E|E]]; discriminate E).
  destruct (GetNodeInfo_case_mismatch (H := sample_runtime) sample_world
              (sample_config "shadowsocks" "") Hacc Hnd) as [Hnew Hget].
  destruct (Hnew [] [] eq_refl) as (t & c & HNew & HT).
  exists t, c. split; [exact HNew|].
  exact (proj1 (proj2 (Hget t c HNew sample_panel)) (sample_response 200 "{}") _
           eq_refl eq_refl eq_refl).
Defined.

(** C3, as first stated, fails when the request itself fails: the client
    for the node type "shadowsocks" is constructed, and [GetNodeInfo] returns
    the transport's error, which is not the unsupported-node-type error. *)
Lemma GetNodeInfo_case_mismatch_counterexample :
  exists (t : list Event) (c : APIClient.t),
    New (H := sample_runtime) sample_world (sample_config "shadowsocks" "")
    = (t, Returned (Some c)) /\
    snd (GetNodeInfo (H := sample_runtime) sample_world c)
    = Returned (None, Some "dial tcp: connection refused") /\
    String.eqb "dial tcp: connection refused" "unsupported Node type: shadowsocks" = false.
Proof. eexists _, _. repeat split. Qed.

(** ** The limits *)

Section Roster.
Context `{GoRuntime}.
Variable c : APIClient.t.

Lemma ParseUserListResponse_body_stores (st : user_loop_state) (i : nat)
    (user : UserResponse.t) :
  (i < length (userList st))%nat ->
  exists st' : user_loop_state,
    ParseUserListResponse_body c st i user = ([], Returned st') /\
    userList st' = <[ i := UserInfo_of c user ]> (userList st).
Proof.
  intros Hi. unfold ParseUserListResponse_body, slice_store. cbv zeta.
  destruct (decide (i < length (userList st))%nat) as [_|Hn]; [|done].
  eexists. split; reflexivity.
Qed.

(** The loop invariant: before the iteration for index [length done], the
    slice holds the records of the elements already visited, then zero
    values; no store is out of range. *)
Lemma range_from_fills (l : list UserResponse.t) :
  forall (done : list UserInfo.t) (st : user_loop_state),
    userList st = done ++ replicate (length l) UserInfo.zero ->
    exists st' : user_loop_state,
      range_from (ParseUserListResponse_body c) (length done) l st = ([], Returned st') /\
      userList st' = done ++ map (UserInfo_of c) l.
Proof.
  induction l as [|user l IH]; intros done st Hst.
  - exists st. split; [reflexivity|]. by rewrite Hst.
  - destruct (ParseUserListResponse_body_stores st (length done) user)
      as (st1 & Ebody & Hst1).
    { rewrite Hst, length_app. cbn. lia. }
    destruct (IH (done ++ [UserInfo_of c user]) st1) as (st' & Eloop & Hst').
    { rewrite Hst1, Hst. cbn.
      replace (length done) with (length done + 0)%nat at 1 by lia.
      rewrite insert_app_r. cbn. by rewrite <- app_assoc. }
    exists st'. split.
    + cbn [range_from]. rewrite Ebody.
      replace (S (length done)) with (length (done ++ [UserInfo_of c user]))
        by (rewrite length_app; cbn; lia).
      cbn. by rewrite Eloop.
    + by rewrite Hst', <- app_assoc.
Qed.

Lemma ParseUserListResponse_map (l : list UserResponse.t) :
  ParseUserListResponse c (Some l) = ([], Returned (Some (map (UserInfo_of c) l), None)).
Proof.
  unfold ParseUserListResponse. cbv zeta.
  destruct (range_from_fills l [] {| deviceLimit := 0; speedLimit := 0;
              userList := replicate (length l) UserInfo.zero |} eq_refl)
    as (st' & Eloop & Hst').
  change (length []) with 0%nat in Eloop. rewrite Eloop. cbn. by rewrite Hst'.
Qed.

Lemma ParseUserListResponse_nil :
  ParseUserListResponse c None
  = ([], Panicked "runtime error: invalid memory address or nil pointer dereference").
Proof. reflexivity. Qed.

Lemma ParseUserListResponse_lookup (l : list UserResponse.t) (i : nat)
    (user : UserResponse.t) :
  l !! i = Some user ->
  exists out : list UserInfo.t,
    ParseUserListResponse c (Some l) = ([], Returned (Some out, None)) /\
    out !! i = Some (UserInfo_of c user).
Proof.
  intros Hi. eexists. split; [apply ParseUserListResponse_map|].
  by rewrite list_lookup_fmap, Hi.
Qed.

End Roster.

(** C4.  The user roster parser keeps length and order: on every list it
    returns (no store is out of range, nothing is sent or logged) a list as
    long as its input, whose record at position [i] is made of the input
    record at position [i]: it has its identifier and its credential, it is
    the record that one iteration of the loop stores for that input record,
    and it is the one that the parser produces for that input record alone
    (with the same client).  So two lists that agree at a position give
    rosters that agree there. *)
Theorem ParseUserListResponse_length_order `{GoRuntime} (c : APIClient.t)
    (l : list UserResponse.t) :
  exists out : list UserInfo.t,
    ParseUserListResponse c (Some l) = ([], Returned (Some out, None)) /\
    length out = length l /\
    out = map (UserInfo_of c) l /\
    (forall (i : nat) (user : UserResponse.t),
        l !! i = Some user ->
        exists r : UserInfo.t,
          out !! i = Some r /\
          UserInfo.UID r = UserResponse.ID user /\
          UserInfo.Passwd r = UserResponse.Passwd user /\
          r = UserInfo_of c user /\
          ParseUserListResponse c (Some [user]) = ([], Returned (Some [r], None))) /\
    (forall (i : nat) (l' : list UserResponse.t),
        l' !! i = l !! i ->
        exists out' : list UserInfo.t,
          ParseUserListResponse c (Some l') = ([], Returned (Some out', None)) /\
          out' !! i = out !! i).
Proof.
  exists (map (UserInfo_of c) l).
  split; [apply ParseUserListResponse_map|].
  split; [apply length_map|]. split; [reflexivity|]. split.
  - intros i user Hi. exists (UserInfo_of c user).
    split; [by rewrite list_lookup_fmap, Hi|].
    split; [reflexivity|]. split; [reflexivity|]. split; [reflexivity|].
    exact (ParseUserListResponse_map c [user]).
  - intros i l' Hi. exists (map (UserInfo_of c) l').
    split; [apply ParseUserListResponse_map|].
    by rewrite !list_lookup_fmap, Hi.
Qed.

Lemma ParseUserListResponse_length_order_witness :
  let u1 := {| UserResponse.ID := 1; UserResponse.Passwd := "a";
               UserResponse.SpeedLimit := float64_of_Z 10; UserResponse.DeviceLimit := 2 |} in
  let u2 := {| UserResponse.ID := 2; UserResponse.Passwd := "b";
               UserResponse.SpeedLimit := float64_of_Z 0; UserResponse.DeviceLimit := 0 |} in
  let c := sample_client "Shadowsocks" (float64_of_Z 0) 0 in
  exists (out : list UserInfo.t) (r : UserInfo.t),
    ParseUserListResponse (H := sample_runtime) c (Some [u1; u2])
    = ([], Returned (Some out, None)) /\
    length out = 2%nat /\
    out !! 1%nat = Some r /\
    UserInfo.UID r = 2 /\
    UserInfo.Passwd r = "b" /\
    ParseUserListResponse (H := sample_runtime) c (Some [u2]) = ([], Returned (Some [r], None)) /\
    exists out' : list UserInfo.t,
      ParseUserListResponse (H := sample_runtime) c (Some [u2; u2])
      = ([], Returned (Some out', None)) /\
      out' !! 1%nat = Some r.
Proof.
  intros u1 u2 c.
  destruct (ParseUserListResponse_length_order (H := sample_runtime) c [u1; u2])
    as (out & E & Hlen & _ & Hpos & Hsame).
  destruct (Hpos 1%nat u2 eq_refl) as (r & Hr & Huid & Hpw & _ & Er).
  destruct (Hsame 1%nat [u2; u2] eq_refl) as (out' & E' & Hr').
  exists out, r. repeat split; try assumption.
  exists out'. split; [exact E'|]. by rewrite Hr'.
Defined.

(** C10.  The one credential of a panel user record becomes both the
    password and the UUID of the user record produced for it. *)
Theorem ParseUserListResponse_credential `{GoRuntime} (c : APIClient.t)
    (l : list UserResponse.t) (i : nat) (user : UserResponse.t) :
  l !! i = Some user ->
  exists (out : list UserInfo.t) (r : UserInfo.t),
    ParseUserListResponse c (Some l) = ([], Returned (Some out, None)) /\
    out !! i = Some r /\
    UserInfo.Passwd r = UserResponse.Passwd user /\
    UserInfo.UUID r = UserResponse.Passwd user.
Proof.
  intros Hi. destruct (ParseUserListResponse_lookup c l i user Hi) as (out & E & Hout).
  exists out, (UserInfo_of c user). by repeat split.
Qed.

Lemma ParseUserListResponse_credential_witness :
  let user := {| UserResponse.ID := 1; UserResponse.Passwd := "0b2f-secret";
                 UserResponse.SpeedLimit := float64_of_Z 10;
                 UserResponse.DeviceLimit := 2 |} in
  exists (out : list UserInfo.t) (r : UserInfo.t),
    ParseUserListResponse (H := sample_runtime)
      (sample_client "Shadowsocks" (float64_of_Z 0) 0) (Some [user])
    = ([], Returned (Some out, None)) /\
    out !! 0%nat = Some r /\
    UserInfo.Passwd r = "0b2f-secret" /\ UserInfo.UUID r = "0b2f-secret".
Proof.
  intros user.
  exact (ParseUserListResponse_credential (H := sample_runtime) _ [user] 0 user eq_refl).
Defined.

Lemma ParseSSNodeResponse_fields `{GoRuntime} (c : APIClient.t)
    (nodeInfoResponse : NodeInfoResponse.t) :
  exists nodeInfo : NodeInfo.t,
    ParseSSNodeResponse c nodeInfoResponse = (Some nodeInfo, None) /\
    NodeInfo.SpeedLimit nodeInfo
    = (if positive_speed (APIClient.SpeedLimit c)
       then bytes_per_second (APIClient.SpeedLimit c)
       else bytes_per_second (NodeInfoResponse.SpeedLimit nodeInfoResponse)) /\
    NodeInfo.Port nodeInfo = NodeInfoResponse.Port nodeInfoResponse /\
    NodeInfo.TransportProtocol nodeInfo = "tcp" /\
    NodeInfo.CypherMethod nodeInfo = NodeInfoResponse.Method nodeInfoResponse /\
    NodeInfo.ServerKey nodeInfo = NodeInfoResponse.ServerKey nodeInfoResponse /\
    NodeInfo.NodeType nodeInfo = APIClient.NodeType c /\
    NodeInfo.NodeID nodeInfo = APIClient.NodeID c.
Proof. eexists. repeat split. Qed.

(** C1.  A positive local override wins: the speed limit of the node
    descriptor and of every user record is the conversion of the client's
    [SpeedLimit] when that is positive and the conversion of the panel's
    value otherwise; the device limit of every user record is the client's
    [DeviceLimit] when that is positive and the panel's value otherwise. *)
Theorem limit_override_precedence `{GoRuntime} (c : APIClient.t) :
  (forall nodeInfoResponse : NodeInfoResponse.t,
      exists nodeInfo : NodeInfo.t,
        ParseSSNodeResponse c nodeInfoResponse = (Some nodeInfo, None) /\
        (positive_speed (APIClient.SpeedLimit c) = true ->
         NodeInfo.SpeedLimit nodeInfo = bytes_per_second (APIClient.SpeedLimit c)) /\
        (positive_speed (APIClient.SpeedLimit c) = false ->
         NodeInfo.SpeedLimit nodeInfo
         = bytes_per_second (NodeInfoResponse.SpeedLimit nodeInfoResponse))) /\
  (forall (l : list UserResponse.t) (i : nat) (user : UserResponse.t),
      l !! i = Some user ->
      exists (out : list UserInfo.t) (r : UserInfo.t),
        ParseUserListResponse c (Some l) = ([], Returned (Some out, None)) /\
        out !! i = Some r /\
        (positive_speed (APIClient.SpeedLimit c) = true ->
         UserInfo.SpeedLimit r = bytes_per_second (APIClient.SpeedLimit c)) /\
        (positive_speed (APIClient.SpeedLimit c) = false ->
         UserInfo.SpeedLimit r = bytes_per_second (UserResponse.SpeedLimit user)) /\
        (0 < APIClient.DeviceLimit c ->
         UserInfo.DeviceLimit r = APIClient.DeviceLimit c) /\
        (APIClient.DeviceLimit c <= 0 ->
         UserInfo.DeviceLimit r = UserResponse.DeviceLimit user)).
Proof.
  split.
  - intros resp.
    destruct (ParseSSNodeResponse_fields c resp) as (nodeInfo & E & HS & _).
    exists nodeInfo. split; [done|]. rewrite HS.
    split; intros ->; reflexivity.
  - intros l i user Hi.
    destruct (ParseUserListResponse_lookup c l i user Hi) as (out & E & Hout).
    exists out, (UserInfo_of c user). split; [done|]. split; [done|]. cbn.
    split; [by intros ->|]. split; [by intros ->|]. split.
    + intros Hp. by rewrite (proj2 (Z.ltb_lt _ _) Hp).
    + intros Hn. by rewrite (proj2 (Z.ltb_ge _ _) Hn).
Qed.

Lemma limit_override_precedence_witness :
  let user := {| UserResponse.ID := 1; UserResponse.Passwd := "a";
                 UserResponse.SpeedLimit := float64_of_Z 10;
                 UserResponse.DeviceLimit := 2 |} in
  (exists (out : list UserInfo.t) (r : UserInfo.t),
      ParseUserListResponse (H := sample_runtime)
        (sample_client "Shadowsocks" (float64_of_Z 50) 3) (Some [user])
      = ([], Returned (Some out, None)) /\
      out !! 0%nat = Some r /\
      UserInfo.SpeedLimit r = 6250000 /\ UserInfo.DeviceLimit r = 3) /\
  (exists (out : list UserInfo.t) (r : UserInfo.t),
      ParseUserListResponse (H := sample_runtime)
        (sample_client "Shadowsocks" (float64_of_Z 0) 0) (Some [user])
      = ([], Returned (Some out, None)) /\
      out !! 0%nat = Some r /\
      UserInfo.SpeedLimit r = 1250000 /\ UserInfo.DeviceLimit r = 2).
Proof.
  intros user. split.
  - destruct (proj2 (limit_override_precedence (H := sample_runtime)
                       (sample_client "Shadowsocks" (float64_of_Z 50) 3))
                [user] 0%nat user eq_refl)
      as (out & r & E & Hr & Hs & _ & Hd & _).
    exists out, r. split; [exact E|]. split; [exact Hr|]. split.
    + rewrite (Hs eq_refl). vm_compute. reflexivity.
    + rewrite Hd; [reflexivity | cbn; lia].
  - destruct (proj2 (limit_override_precedence (H := sample_runtime)
                       (sample_client "Shadowsocks" (float64_of_Z 0) 0))
                [user] 0%nat user eq_refl)
      as (out & r & E & Hr & _ & Hs & _ & Hd).
    exists out, r. split; [exact E|]. split; [exact Hr|]. split.
    + rewrite (Hs eq_refl). vm_compute. reflexivity.
    + rewrite Hd; [reflexivity | cbn; lia].
Defined.

(** ** The Shadowsocks scenario *)

(** C6.  For a client without a positive speed override, the Shadowsocks
    parser turns the payload with port 8443, method "aes-256-gcm", server key
    "k1" and speed limit 100 into a node descriptor with port 8443, transport
    protocol "tcp", speed limit 12500000, cipher method "aes-256-gcm" and
    server key "k1"; and [GetNodeInfo] returns that descriptor when the node
    type is "Shadowsocks" and the panel's answer decodes to the payload. *)
Theorem shadowsocks_scenario `{GoRuntime} (c : APIClient.t) :
  positive_speed (APIClient.SpeedLimit c) = false ->
  exists nodeInfo : NodeInfo.t,
    ParseSSNodeResponse c shadowsocks_payload = (Some nodeInfo, None) /\
    NodeInfo.Port nodeInfo = 8443 /\
    NodeInfo.TransportProtocol nodeInfo = "tcp" /\
    NodeInfo.SpeedLimit nodeInfo = 12500000 /\
    NodeInfo.CypherMethod nodeInfo = "aes-256-gcm" /\
    NodeInfo.ServerKey nodeInfo = "k1" /\
    forall (w : World.t) (res : Resty.Response),
      APIClient.NodeType c = "Shadowsocks" ->
      World.Execute w (APIClient.client c) node_config_request = (res, None) ->
      Resty.StatusCode res = 200 ->
      json_Unmarshal_NodeInfoResponse (Resty.RespBody res) = inl shadowsocks_payload ->
      snd (GetNodeInfo w c) = Returned (Some nodeInfo, None).
Proof.
  intros Hno.
  destruct (ParseSSNodeResponse_fields c shadowsocks_payload)
    as (nodeInfo & E & HS & HP & HT & HM & HK & _).
  rewrite Hno in HS.
  exists nodeInfo. split; [exact E|].
  split; [exact HP|]. split; [exact HT|].
  split; [rewrite HS; vm_compute; reflexivity|].
  split; [exact HM|]. split; [exact HK|].
  intros w res HNT Hex Hst Hdec.
  by apply (GetNodeInfo_Shadowsocks w c res shadowsocks_payload).
Qed.

Lemma shadowsocks_scenario_witness :
  exists nodeInfo : NodeInfo.t,
    ParseSSNodeResponse (H := sample_runtime)
      (sample_client "Shadowsocks" (float64_of_Z 0) 0) shadowsocks_payload
    = (Some nodeInfo, None) /\
    NodeInfo.Port nodeInfo = 8443 /\
    NodeInfo.TransportProtocol nodeInfo = "tcp" /\
    NodeInfo.SpeedLimit nodeInfo = 12500000 /\
    NodeInfo.CypherMethod nodeInfo = "aes-256-gcm" /\
    NodeInfo.ServerKey nodeInfo = "k1".
Proof.
  destruct (shadowsocks_scenario (H := sample_runtime)
              (sample_client "Shadowsocks" (float64_of_Z 0) 0) eq_refl)
    as (nodeInfo & E & HP & HT & HS & HM & HK & _).
  exists nodeInfo. repeat split; assumption.
Defined.

(** ** The operations that stay local *)

(** C9.  [GetNodeRule] returns the client's rule list and no error and
    [ReportIllegal] returns no error, both without any effect: nothing is
    sent to the panel.  The rule list of a client that [New] returned is the
    one that [readLocalRuleList] loaded from the configured path. *)
Theorem stubs_stay_local `{GoRuntime} :
  (forall c : APIClient.t,
      GetNodeRule c = ([], Returned (Some (APIClient.LocalRuleList c), None))) /\
  (forall (DetectResult : Type) (c : APIClient.t) (detectResultList : list DetectResult),
      ReportIllegal c detectResultList = ([], Returned None)) /\
  (forall (w : World.t) (apiConfig : Config.t) (t : list Event) (c : APIClient.t),
      New w apiConfig = (t, Returned (Some c)) ->
      exists t' : list Event,
        readLocalRuleList w (Config.RuleListPath apiConfig)
        = (t', Returned (APIClient.LocalRuleList c))).
Proof.
  split; [reflexivity|]. split; [reflexivity|].
  intros w apiConfig t c HNew.
  by destruct (New_returns w apiConfig t c HNew) as (_ & _ & _ & _ & Hrules).
Qed.

Lemma stubs_stay_local_witness :
  exists (t : list Event) (c : APIClient.t),
    New (H := sample_runtime) sample_world (sample_config "Trojan" "")
    = (t, Returned (Some c)) /\
    GetNodeRule c = ([], Returned (Some [], None)) /\
    exists t' : list Event,
      readLocalRuleList (H := sample_runtime) sample_world ""
      = (t', Returned (APIClient.LocalRuleList c)).
Proof.
  eexists _, _. split; [reflexivity|]. split; [reflexivity|].
  exact (proj2 (proj2 (stubs_stay_local (H := sample_runtime))) sample_world
           (sample_config "Trojan" "") _ _ eq_refl).
Defined.

(** ** The rule loader *)

(** The scanner on a file with a carriage return, an empty line and no
    final line feed; and on the file of three lines. *)
Lemma bufio_scan_sample :
  bufio_scan ("a" +:+ String CR (String LF ("b" +:+ String LF (String LF "c")))) "" None
  = (["a"; "b"; ""; "c"], None) /\
  bufio_scan three_line_file "" None = (["abc"; "d.*e"; "^foo$"], None).
Proof. split; reflexivity. Qed.

Section RuleLoader.
Context `{GoRuntime}.
Variable w : World.t.

Lemma readLocalRuleList_empty_path : readLocalRuleList w "" = ([], Returned []).
Proof. reflexivity. Qed.

Lemma readLocalRuleList_open_error (path : string) (err : error) :
  path <> "" ->
  World.os_Open w path = inr err ->
  readLocalRuleList w path
  = ([EvOpen path; EvLog ("Error when opening file: " +:+ err)], Returned []).
Proof.
  intros Hp Hopen. unfold readLocalRuleList.
  destruct (String.eqb_spec path "") as [|_]; [done|]. cbn. rewrite Hopen.
  cbn. by rewrite append_empty_r.
Qed.

(** The loop on tokens that all compile appends one rule per token. *)
Lemma readLocalRuleList_loop_compiles (tokens : list string) :
  Forall (fun text => regexp_Compile_error text = None) tokens ->
  forall acc : list DetectRule.t,
    readLocalRuleList_loop tokens acc = ([], Returned (acc ++ map local_rule tokens)).
Proof.
  induction 1 as [|text tokens Hc _ IH]; intros acc; cbn.
  - by rewrite app_nil_r.
  - unfold regexp_MustCompile. rewrite Hc. cbn. rewrite IH. cbn.
    by rewrite <- app_assoc.
Qed.

(** A file that is read to its end, on tokens that all compile. *)
Lemma readLocalRuleList_reads (path : string) (file : World.File) (tokens : list string) :
  path <> "" ->
  World.os_Open w path = inl file ->
  bufio_scan (World.contents file) "" (World.read_error file) = (tokens, None) ->
  Forall (fun text => regexp_Compile_error text = None) tokens ->
  readLocalRuleList w path = ([EvOpen path; EvClose path], Returned (map local_rule tokens)).
Proof.
  intros Hp Hopen Hscan Hc. unfold readLocalRuleList.
  destruct (String.eqb_spec path "") as [|_]; [done|]. cbn. rewrite Hopen, Hscan.
  by rewrite (readLocalRuleList_loop_compiles tokens Hc []).
Qed.

(** A read error, or a line too long for the scanner, is fatal: the process
    exits after the log line, and the file is not closed. *)
Lemma readLocalRuleList_scan_error (path : string) (file : World.File)
    (tokens : list string) (err : error) :
  path <> "" ->
  World.os_Open w path = inl file ->
  bufio_scan (World.contents file) "" (World.read_error file) = (tokens, Some err) ->
  Forall (fun text => regexp_Compile_error text = None) tokens ->
  readLocalRuleList w path
  = ([EvOpen path; EvLog ("Error while reading file: " +:+ err)], Exited 1).
Proof.
  intros Hp Hopen Hscan Hc. unfold readLocalRuleList.
  destruct (String.eqb_spec path "") as [|_]; [done|]. cbn. rewrite Hopen, Hscan.
  rewrite (readLocalRuleList_loop_compiles tokens Hc []). cbn.
  by rewrite append_empty_r.
Qed.

(** The first line that is not a pattern makes [regexp.MustCompile] panic. *)
Lemma readLocalRuleList_loop_panics (good : list string) (bad : string)
    (rest : list string) (v : string) :
  Forall (fun text => regexp_Compile_error text = None) good ->
  regexp_Compile_error bad = Some v ->
  forall acc : list DetectRule.t,
    readLocalRuleList_loop (good ++ bad :: rest) acc = ([], Panicked v).
Proof.
  intros Hgood Hbad. induction Hgood as [|text good Hc _ IH]; intros acc; cbn.
  - unfold regexp_MustCompile. by rewrite Hbad.
  - unfold regexp_MustCompile. rewrite Hc. cbn. by rewrite IH.
Qed.

End RuleLoader.

(** C7 (as amended).  With the empty path the rule loader returns the
    empty list and does nothing (no file is opened, nothing is logged).  With
    a path that cannot be opened it opens, logs the error and returns the
    empty list.  With a path that opens but cannot be read to its end (the
    read fails, as on a directory, or a line does not fit the scanner), once
    the lines before that have compiled, it logs the error and the process
    exits with status 1: nothing is returned and the file is not closed.
    With a path that opens on the three lines [abc], [d.*e], [^foo$], read to
    the end, it returns three rules, in the order of the lines, each with the
    identifier -1 and the pattern compiled from its line (the three being
    patterns that compile). *)
Theorem readLocalRuleList_contract `{GoRuntime} (w : World.t) :
  readLocalRuleList w "" = ([], Returned []) /\
  (forall (path : string) (err : error),
      path <> "" ->
      World.os_Open w path = inr err ->
      readLocalRuleList w path
      = ([EvOpen path; EvLog ("Error when opening file: " +:+ err)], Returned [])) /\
  (forall (path : string) (file : World.File) (tokens : list string) (err : error),
      path <> "" ->
      World.os_Open w path = inl file ->
      bufio_scan (World.contents file) "" (World.read_error file) = (tokens, Some err) ->
      Forall (fun text => regexp_Compile_error text = None) tokens ->
      readLocalRuleList w path
      = ([EvOpen path; EvLog ("Error while reading file: " +:+ err)], Exited 1)) /\
  (forall (path : string) (file : World.File),
      path <> "" ->
      World.os_Open w path = inl file ->
      World.contents file = three_line_file ->
      World.read_error file = None ->
      regexp_Compile_error "abc" = None ->
      regexp_Compile_error "d.*e" = None ->
      regexp_Compile_error "^foo$" = None ->
      readLocalRuleList w path
      = ([EvOpen path; EvClose path],
         Returned [ {| DetectRule.ID := -1; DetectRule.Pattern := {| expr := "abc" |} |};
                    {| DetectRule.ID := -1; DetectRule.Pattern := {| expr := "d.*e" |} |};
                    {| DetectRule.ID := -1; DetectRule.Pattern := {| expr := "^foo$" |} |} ])).
Proof.
  split; [reflexivity|]. split; [apply readLocalRuleList_open_error|].
  split; [apply readLocalRuleList_scan_error|].
  intros path file Hp Hopen Hdata Herr H1 H2 H3.
  apply (readLocalRuleList_reads w path file ["abc"; "d.*e"; "^foo$"] Hp Hopen).
  - rewrite Hdata, Herr. reflexivity.
  - by repeat constructor.
Qed.

Lemma readLocalRuleList_contract_witness :
  readLocalRuleList (H := sample_runtime) three_line_world "/var/empty/rulelist"
  = ([EvOpen "/var/empty/rulelist";
      EvLog "Error when opening file: open /var/empty/rulelist: no such file or directory"],
     Returned []) /\
  readLocalRuleList (H := sample_runtime) three_line_world "/etc/nboard-node"
  = ([EvOpen "/etc/nboard-node";
      EvLog "Error while reading file: read /etc/nboard-node: is a directory"],
     Exited 1) /\
  readLocalRuleList (H := sample_runtime) three_line_world "/etc/nboard-node/rulelist"
  = ([EvOpen "/etc/nboard-node/rulelist"; EvClose "/etc/nboard-node/rulelist"],
     Returned [local_rule "abc"; local_rule "d.*e"; local_rule "^foo$"]).
Proof.
  pose proof (readLocalRuleList_contract (H := sample_runtime) three_line_world)
    as (_ & Hopen & Hfatal & Hread).
  split; [|split].
  - apply (Hopen "/var/empty/rulelist"); [discriminate | reflexivity].
  - apply (Hfatal "/etc/nboard-node"
             {| World.contents := "";
                World.read_error := Some "read /etc/nboard-node: is a directory" |} []);
      [discriminate | reflexivity | reflexivity | constructor].
  - apply (Hread "/etc/nboard-node/rulelist"
             {| World.contents := three_line_file; World.read_error := None |});
      [discriminate | reflexivity ..].
Defined.

(** C7, as first stated, fails on a path that opens but cannot be read: the
    directory /etc/nboard-node opens, the first read fails, and the loader
    does not return the empty list: it logs the error and the process exits
    with status 1. *)
Lemma readLocalRuleList_contract_counterexample :
  World.os_Open three_line_world "/etc/nboard-node"
  = inl {| World.contents := "";
           World.read_error := Some "read /etc/nboard-node: is a directory" |} /\
  readLocalRuleList (H := sample_runtime) three_line_world "/etc/nboard-node"
  = ([EvOpen "/etc/nboard-node";
      EvLog "Error while reading file: read /etc/nboard-node: is a directory"],
     Exited 1).
Proof. split; reflexivity. Qed.

(** ** The speed conversion *)

Section Digits.

Lemma digits2_bounds (p : positive) :
  2 ^ (Zpos (digits2_pos p) - 1) <= Zpos p < 2 ^ Zpos (digits2_pos p).
Proof.
  induction p as [p IH|p IH|]; cbn [digits2_pos].
  - rewrite Pos2Z.inj_succ, Z.pow_succ_r by lia.
    replace (Z.succ (Zpos (digits2_pos p)) - 1)
      with (Z.succ (Zpos (digits2_pos p) - 1)) by lia.
    rewrite Z.pow_succ_r by lia. lia.
  - rewrite Pos2Z.inj_succ, Z.pow_succ_r by lia.
    replace (Z.succ (Zpos (digits2_pos p)) - 1)
      with (Z.succ (Zpos (digits2_pos p) - 1)) by lia.
    rewrite Z.pow_succ_r by lia. lia.
  - cbn. lia.
Qed.

Lemma digits2_unique (p : positive) (d : Z) :
  2 ^ (d - 1) <= Zpos p < 2 ^ d -> Zpos (digits2_pos p) = d.
Proof.
  intros [Hlo Hhi]. pose proof (digits2_bounds p) as [Blo Bhi].
  assert (0 < d) as Hd.
  { destruct (Z.lt_trichotomy 0 d) as [?|[<-|Hneg]]; [done|cbn in Hhi; lia|].
    rewrite (Z.pow_neg_r 2 d Hneg) in Hhi. lia. }
  destruct (Z.lt_trichotomy (Zpos (digits2_pos p)) d) as [Hlt|[?|Hgt]]; [|done|].
  - assert (2 ^ Zpos (digits2_pos p) <= 2 ^ (d - 1)) by (apply Z.pow_le_mono_r; lia).
    lia.
  - assert (2 ^ d <= 2 ^ (Zpos (digits2_pos p) - 1)) by (apply Z.pow_le_mono_r; lia).
    lia.
Qed.

(** A mantissa of 53 digits that stands for [n] scaled by [2^(53-d)]: [n]
    has [d] digits. *)
Lemma scaled_bounds (n : Z) (k : positive) (d : Z) :
  Zpos (digits2_pos k) = 53 -> 1 <= d <= 53 -> Zpos k = n * 2 ^ (53 - d) ->
  2 ^ (d - 1) <= n < 2 ^ d.
Proof.
  intros Hk Hd Hkn. pose proof (digits2_bounds k) as B. rewrite Hk, Hkn in B.
  change (53 - 1) with 52 in B.
  assert (2 ^ 52 = 2 ^ (d - 1) * 2 ^ (53 - d)) as E52
    by (rewrite <- Z.pow_add_r by lia; f_equal; lia).
  assert (2 ^ 53 = 2 ^ d * 2 ^ (53 - d)) as E53
    by (rewrite <- Z.pow_add_r by lia; f_equal; lia).
  assert (0 < 2 ^ (53 - d)) by (apply Z.pow_pos_nonneg; lia).
  rewrite E52, E53 in B. nia.
Qed.

(** ... and every whole number below [2^53] has such a mantissa. *)
Lemma scaled_mantissa (n : Z) :
  0 < n < 2 ^ 53 ->
  exists (k : positive) (d : Z),
    Zpos (digits2_pos k) = 53 /\ 1 <= d <= 53 /\ Zpos k = n * 2 ^ (53 - d) /\
    d = Zdigits2 n.
Proof.
  intros Hn. destruct n as [|q|q]; [lia| |lia].
  set (d := Zpos (digits2_pos q)).
  pose proof (digits2_bounds q) as B. fold d in B.
  assert (1 <= d <= 53) as Hd.
  { split; [unfold d; lia|].
    destruct (Z.le_gt_cases d 53) as [|Hgt]; [done|].
    assert (2 ^ 53 <= 2 ^ (d - 1)) by (apply Z.pow_le_mono_r; lia). lia. }
  assert (0 < 2 ^ (53 - d)) as Hpow by (apply Z.pow_pos_nonneg; lia).
  exists (Z.to_pos (Zpos q * 2 ^ (53 - d))), d.
  rewrite Z2Pos.id by lia. split; [|done].
  apply digits2_unique. rewrite Z2Pos.id by lia. change (53 - 1) with 52.
  assert (2 ^ 52 = 2 ^ (d - 1) * 2 ^ (53 - d)) as ->
    by (rewrite <- Z.pow_add_r by lia; f_equal; lia).
  assert (2 ^ 53 = 2 ^ d * 2 ^ (53 - d)) as ->
    by (rewrite <- Z.pow_add_r by lia; f_equal; lia).
  nia.
Qed.

End Digits.

Section Rounding.

Lemma iter_pos_iter {A : Type} (f : A -> A) (p : positive) (x : A) :
  SpecFloat.iter_pos f p x = Pos.iter f x p.
Proof.
  revert x. induction p as [p IH|p IH|]; intros x; cbn.
  - rewrite !IH. by rewrite <- !Pos.iter_swap.
  - by rewrite !IH.
  - reflexivity.
Qed.

Lemma iter_xO_Z (k p : positive) : Zpos (Pos.iter xO k p) = Zpos k * 2 ^ Zpos p.
Proof.
  induction p as [|p IH] using Pos.peano_ind.
  - cbn. lia.
  - rewrite Pos.iter_succ, Pos2Z.inj_succ, Z.pow_succ_r by lia.
    rewrite Pos2Z.inj_xO, IH. lia.
Qed.

(** Shifting out [p] zero bits loses nothing. *)
Lemma shr_exact (k p : positive) :
  SpecFloat.iter_pos shr_1 p
    {| shr_m := Zpos (Pos.iter xO k p); shr_r := false; shr_s := false |}
  = {| shr_m := Zpos k; shr_r := false; shr_s := false |}.
Proof.
  rewrite iter_pos_iter.
  induction p as [|p IH] using Pos.peano_ind.
  - reflexivity.
  - rewrite Pos.iter_succ_r, Pos.iter_succ. cbn [shr_1 orb]. exact IH.
Qed.

(** Rounding to 53 digits a mantissa that is a 53-digit one followed by [s]
    zero bits does not change the value. *)
Lemma binary_round_aux_exact (sx : bool) (m k : positive) (e s : Z) :
  0 <= s ->
  Zpos m = Zpos k * 2 ^ s ->
  Zpos (digits2_pos k) = 53 ->
  -1074 <= e + s <= 971 ->
  binary_round_aux float64_prec float64_emax sx (Zpos m) e loc_Exact
  = S754_finite sx k (e + s).
Proof.
  intros Hs Hm Hk He.
  assert (Zdigits2 (Zpos m) = 53 + s) as Hdm.
  { cbn [Zdigits2]. apply digits2_unique. pose proof (digits2_bounds k) as B.
    rewrite Hk in B. rewrite Hm.
    replace (53 + s - 1) with (52 + s) by lia. rewrite !Z.pow_add_r by lia.
    change (53 - 1) with 52 in B. nia. }
  unfold binary_round_aux, shr_fexp. rewrite Hdm.
  unfold fexp, emin, float64_prec, float64_emax.
  replace (Z.max (53 + s + e - 53) (3 - 1024 - 53) - e) with s by lia.
  cbn [shr_record_of_loc].
  assert (shr {| shr_m := Zpos m; shr_r := false; shr_s := false |} e s
          = ({| shr_m := Zpos k; shr_r := false; shr_s := false |}, e + s)) as ->.
  { destruct s as [|p|p]; [| |lia].
    - cbn. rewrite Z.add_0_r. repeat f_equal. rewrite Z.pow_0_r in Hm. lia.
    - cbn [shr]. f_equal. rewrite <- iter_xO_Z in Hm. injection Hm as ->.
      apply shr_exact. }
  cbn [shr_m loc_of_shr_record round_nearest_even Zdigits2]. rewrite Hk.
  replace (Z.max (53 + (e + s) - 53) (3 - 1024 - 53) - (e + s)) with 0 by lia.
  cbn [shr shr_record_of_loc shr_m].
  destruct (Z.leb_spec (e + s) (1024 - 53)); [reflexivity|lia].
Qed.

Lemma float64_of_Z_whole (n : Z) : 0 < n < 2 ^ 53 -> whole (float64_of_Z n) n.
Proof.
  intros Hn. destruct (scaled_mantissa n Hn) as (k & d & Hdk & Hd & Hk & Hdn).
  exists k, d. split; [|done].
  destruct n as [|q|q]; [lia| |lia]. cbn [Zdigits2] in Hdn.
  unfold float64_of_Z, binary_normalize, binary_round, shl_align.
  rewrite <- Hdn. unfold fexp, emin, float64_prec, float64_emax.
  replace (Z.max (d + 0 - 53) (3 - 1024 - 53) - 0) with (d - 53) by lia.
  replace (Z.max (d + 0 - 53) (3 - 1024 - 53)) with (d - 53) by lia.
  assert (0 < 2 ^ (53 - d)) as Hpow by (apply Z.pow_pos_nonneg; lia).
  destruct (d - 53) as [|s|s] eqn:Es; [| lia |].
  - replace (S754_finite false k 0) with (S754_finite false k (0 + 0)) by done.
    apply binary_round_aux_exact; try lia.
    rewrite Hk. replace (53 - d) with 0 by lia. lia.
  - replace (S754_finite false k (Z.neg s)) with (S754_finite false k (Z.neg s + 0))
      by (f_equal; lia).
    apply binary_round_aux_exact; try lia.
    rewrite iter_xO_Z, Hk. replace (53 - d) with (Zpos s) by lia. lia.
Qed.

(** The product of two whole numbers is exact as long as it stays below
    [2^53]. *)
Lemma float64_mul_whole (f g : float64) (a b : Z) :
  whole f a -> whole g b -> a * b < 2 ^ 53 -> whole (float64_mul f g) (a * b).
Proof.
  intros (k1 & d1 & -> & Hk1 & Hd1 & E1) (k2 & d2 & -> & Hk2 & Hd2 & E2) Hab.
  pose proof (scaled_bounds a k1 d1 Hk1 Hd1 E1) as Ba.
  pose proof (scaled_bounds b k2 d2 Hk2 Hd2 E2) as Bb.
  assert (0 < 2 ^ (d1 - 1)) by (apply Z.pow_pos_nonneg; lia).
  assert (0 < 2 ^ (d2 - 1)) by (apply Z.pow_pos_nonneg; lia).
  assert (0 < a * b < 2 ^ 53) as Hpos by nia.
  destruct (scaled_mantissa (a * b) Hpos) as (k & d & Hk & Hd & E & _).
  pose proof (scaled_bounds (a * b) k d Hk Hd E) as Bab.
  assert (d1 + d2 - 1 <= d) as Hdd.
  { destruct (Z.le_gt_cases (d1 + d2 - 1) d) as [|Hgt]; [done|].
    assert (2 ^ d <= 2 ^ (d1 + d2 - 2)) by (apply Z.pow_le_mono_r; lia).
    assert (2 ^ (d1 + d2 - 2) = 2 ^ (d1 - 1) * 2 ^ (d2 - 1)) as E'
      by (rewrite <- Z.pow_add_r by lia; f_equal; lia).
    nia. }
  exists k, d. split; [|done].
  unfold float64_mul, SFmul. cbn [xorb].
  replace (d - 53) with ((d1 - 53 + (d2 - 53)) + (53 + d - d1 - d2)) by lia.
  apply binary_round_aux_exact; try lia.
  rewrite Pos2Z.inj_mul, E1, E2.
  assert (Zpos k * 2 ^ (53 + d - d1 - d2)
          = a * b * (2 ^ (53 - d) * 2 ^ (53 + d - d1 - d2)))
    as -> by (rewrite E; ring).
  rewrite <- Z.pow_add_r by lia.
  replace (53 - d + (53 + d - d1 - d2)) with ((53 - d1) + (53 - d2)) by lia.
  rewrite Z.pow_add_r by lia. ring.
Qed.

(** Dividing a normal number by 8 lowers its exponent by 3. *)
Lemma float64_div_8 (k : positive) (e : Z) :
  Zpos (digits2_pos k) = 53 ->
  -1070 <= e <= 971 ->
  float64_div (S754_finite false k e) (float64_of_Z 8) = S754_finite false k (e - 3).
Proof.
  intros Hk He.
  change (float64_of_Z 8) with (S754_finite false 4503599627370496 (-49)).
  unfold float64_div, SFdiv, SFdiv_core_binary. cbn [xorb Zdigits2]. rewrite Hk.
  change (Zpos (digits2_pos 4503599627370496)) with 53.
  unfold fexp, emin, float64_prec, float64_emax.
  replace (Z.min (Z.max (53 + e - (53 + -49) - 53) (3 - 1024 - 53)) (e - -49))
    with (e - 4) by lia.
  replace (e - -49 - (e - 4)) with 53 by lia.
  rewrite Z.shiftl_mul_pow2 by lia.
  assert (Z.div_eucl (Zpos k * 2 ^ 53) 4503599627370496 = (Zpos k~0, 0)) as ->.
  { pose proof (Z_div_mod (Zpos k * 2 ^ 53) 4503599627370496 eq_refl) as Hdm.
    destruct (Z.div_eucl (Zpos k * 2 ^ 53) 4503599627370496) as [q r].
    change (2 ^ 53) with (2 * 4503599627370496) in Hdm.
    f_equal; lia. }
  change (new_location 4503599627370496 0) with loc_Exact.
  replace (e - 3) with (e - 4 + 1) by lia.
  apply binary_round_aux_exact; try lia.
Qed.

End Rounding.

Section Conversion.
Context `{GoRuntime}.

Lemma uint64_of_whole_div_8 (f : float64) (n : Z) :
  whole f n -> uint64_of_float64 (float64_div f (float64_of_Z 8)) = n / 8.
Proof.
  intros (k & d & -> & Hk & Hd & E).
  pose proof (scaled_bounds n k d Hk Hd E) as Bn.
  rewrite float64_div_8 by (done || lia).
  unfold uint64_of_float64, float64_truncate.
  replace (d - 53 - 3) with (- (56 - d)) by lia.
  rewrite Z.shiftl_opp_r, Z.shiftr_div_pow2 by lia. rewrite E.
  replace (56 - d) with ((53 - d) + 3) by lia. rewrite Z.pow_add_r by lia.
  assert (0 < 2 ^ (53 - d)) by (apply Z.pow_pos_nonneg; lia).
  rewrite (Z.mul_comm n), Z.div_mul_cancel_l by lia. change (2 ^ 3) with 8.
  assert (0 < 2 ^ (d - 1)) by (apply Z.pow_pos_nonneg; lia).
  assert (2 ^ d <= 2 ^ 53) by (apply Z.pow_le_mono_r; lia).
  assert (0 <= n / 8) by (apply Z.div_pos; lia).
  assert (n / 8 <= n) by (apply Z.div_le_upper_bound; lia).
  destruct (Z.leb_spec 0 (n / 8)); [|lia].
  destruct (Z.ltb_spec (n / 8) (2 ^ 64)); [reflexivity|].
  assert (2 ^ 53 < 2 ^ 64) by (apply Z.pow_lt_mono_r; lia). lia.
Qed.

(** On a whole number of megabits per second whose product with 1000000
    is below [2^53], the float computation is the integer one. *)
Lemma bytes_per_second_whole (n : Z) :
  0 <= n -> n * 1000000 < 2 ^ 53 ->
  bytes_per_second (float64_of_Z n) = n * 1000000 / 8.
Proof.
  intros Hn Hr. unfold bytes_per_second.
  destruct (Z.eq_dec n 0) as [->|Hnz]; [reflexivity|].
  apply uint64_of_whole_div_8. apply float64_mul_whole; [| |done].
  - apply float64_of_Z_whole. lia.
  - apply float64_of_Z_whole. done.
Qed.

(** Beyond that range the product is rounded: here to a multiple of 128,
    whatever the runtime. *)
Lemma bytes_per_second_rounded :
  bytes_per_second (float64_of_Z 576460752305) = 72057594038124992.
Proof. vm_compute. reflexivity. Qed.

End Conversion.

(** C5 (as amended).  The node parser and the roster parser convert a speed
    by the same float64 computation, the product with 1000000 rounded to
    the nearest float, divided by 8, and truncated to an integer; what they
    convert is the client's speed limit when that is positive and the
    panel's otherwise.  For every whole number [n] of megabits per second,
    [0 <= n] and [n * 1000000 < 2^53], the result is exactly
    [n * 1000000 / 8], the integer quotient. *)
Theorem speed_conversion `{GoRuntime} :
  (forall (c : APIClient.t) (nodeInfoResponse : NodeInfoResponse.t) (user : UserResponse.t),
      exists (nodeInfo : NodeInfo.t) (r : UserInfo.t),
        ParseSSNodeResponse c nodeInfoResponse = (Some nodeInfo, None) /\
        ParseUserListResponse c (Some [user]) = ([], Returned (Some [r], None)) /\
        NodeInfo.SpeedLimit nodeInfo
        = bytes_per_second (if positive_speed (APIClient.SpeedLimit c)
                            then APIClient.SpeedLimit c
                            else NodeInfoResponse.SpeedLimit nodeInfoResponse) /\
        UserInfo.SpeedLimit r
        = bytes_per_second (if positive_speed (APIClient.SpeedLimit c)
                            then APIClient.SpeedLimit c
                            else UserResponse.SpeedLimit user)) /\
  (forall v : float64,
      bytes_per_second v
      = uint64_of_float64
          (float64_div (float64_mul v (float64_of_Z 1000000)) (float64_of_Z 8))) /\
  (forall n : Z,
      0 <= n -> n * 1000000 < 2 ^ 53 ->
      bytes_per_second (float64_of_Z n) = n * 1000000 / 8).
Proof.
  split; [|split; [reflexivity | exact bytes_per_second_whole]].
  intros c resp user.
  destruct (ParseSSNodeResponse_fields c resp) as (nodeInfo & E & HS & _).
  exists nodeInfo, (UserInfo_of c user).
  split; [exact E|]. split; [exact (ParseUserListResponse_map c [user])|].
  rewrite HS. cbn [UserInfo.SpeedLimit UserInfo_of].
  destruct (positive_speed (APIClient.SpeedLimit c)); split; reflexivity.
Qed.

Lemma speed_conversion_witness :
  bytes_per_second (H := sample_runtime) (float64_of_Z 100) = 100 * 1000000 / 8.
Proof.
  apply (proj2 (proj2 (speed_conversion (H := sample_runtime))) 100); [lia|].
  vm_compute. reflexivity.
Defined.

(** C5, as first stated, fails on a speed whose product with 1000000 is
    not a float64: with the override 576460752305, a whole number, the node
    descriptor gets 72057594038124992 where the integer quotient
    [576460752305 * 1000000 / 8] is 72057594038125000. *)
Lemma speed_conversion_counterexample :
  (exists nodeInfo : NodeInfo.t,
      ParseSSNodeResponse (H := sample_runtime)
        (sample_client "Shadowsocks" (float64_of_Z 576460752305) 0) shadowsocks_payload
      = (Some nodeInfo, None) /\
      NodeInfo.SpeedLimit nodeInfo = 72057594038124992) /\
  576460752305 * 1000000 / 8 = 72057594038125000 /\
  (72057594038124992 =? 72057594038125000) = false.
Proof.
  split; [|split; reflexivity].
  eexists. split; [reflexivity|]. vm_compute. reflexivity.
Qed.

(** * Further properties of the client *)

(** ** Responses *)

Lemma parseResponse_failure (c : APIClient.t) (res : Resty.Response) (path : string)
    (err : option error) :
  ~ (err = None /\ Resty.StatusCode res = 200) ->
  exists detail : string,
    parseResponse c res path err
    = (None, Some ("request " +:+ assembleURL c path +:+ " failed" +:+ detail)).
Proof.
  intros Hn. destruct err as [e|].
  - exists (": " +:+ e). by rewrite parseResponse_transport_error.
  - destruct (Z.eq_dec (Resty.StatusCode res) 200) as [E|N200]; [tauto|].
    destruct (Z.eq_dec (Resty.StatusCode res) 400) as [E|N400].
    { exists (" with bad request: " +:+ Resty.RespBody res).
      rewrite (parseResponse_status c res path " failed with bad request: ") by tauto.
      reflexivity. }
    destruct (Z.eq_dec (Resty.StatusCode res) 401) as [E|N401].
    { exists (" with unauthorized: " +:+ Resty.RespBody res).
      rewrite (parseResponse_status c res path " failed with unauthorized: ") by tauto.
      reflexivity. }
    destruct (Z.eq_dec (Resty.StatusCode res) 403) as [E|N403].
    { exists (" with forbidden: " +:+ Resty.RespBody res).
      rewrite (parseResponse_status c res path " failed with forbidden: ") by tauto.
      reflexivity. }
    exists (" with status code " +:+ itoa (Resty.StatusCode res) +:+ ": "
            +:+ Resty.RespBody res).
    by rewrite parseResponse_other.
Qed.

(** X1.  [parseResponse] returns either the body and no error, or no body and
    an error, never both and never neither: the body exactly when there is no
    transport error and the status is 200; and the text of every error
    starts with "request", the URL and "failed". *)
Theorem parseResponse_body_or_error (c : APIClient.t) (res : Resty.Response)
    (path : string) (err : option error) :
  (err = None /\ Resty.StatusCode res = 200 ->
   parseResponse c res path err = (Some (Resty.RespBody res), None)) /\
  (~ (err = None /\ Resty.StatusCode res = 200) ->
   exists detail : string,
     parseResponse c res path err
     = (None, Some ("request " +:+ assembleURL c path +:+ " failed" +:+ detail))).
Proof.
  split.
  - intros [-> Hst]. by apply parseResponse_ok.
  - apply parseResponse_failure.
Qed.

Lemma parseResponse_body_or_error_witness :
  let c := sample_client "Shadowsocks" (float64_of_Z 0) 0 in
  parseResponse c (sample_response 200 "{}") "/api/node/config" None = (Some "{}", None) /\
  exists detail : string,
    parseResponse c (sample_response 204 "") "/api/node/config" None
    = (None, Some ("request " +:+ assembleURL c "/api/node/config" +:+ " failed" +:+ detail)).
Proof.
  intros c. split.
  - apply (proj1 (parseResponse_body_or_error c (sample_response 200 "{}") _ None)).
    split; reflexivity.
  - apply (proj2 (parseResponse_body_or_error c (sample_response 204 "") _ None)).
    intros [_ Hst]. discriminate Hst.
Defined.

(** ** The node config fetch, path by path *)

Section NodeInfoPaths.
Context `{GoRuntime}.
Variables (w : World.t) (c : APIClient.t).

#[local] Arguments ParseSSNodeResponse : simpl never.
#[local] Arguments parseResponse : simpl never.

(** [GetNodeInfo] up to the answer of the panel. *)
Lemma GetNodeInfo_unfold :
  GetNodeInfo w c
  = ('(res, err) ← resty_call w (APIClient.client c) node_config_request;
     match err with
     | Some err => mret (None, Some err)
     | None =>
         match parseResponse c res "/api/node/config" err with
         | (_, Some err) => mret (None, Some err)
         | (responseData, None) =>
             match json_Unmarshal_NodeInfoResponse (default EmptyString responseData) with
             | inr err =>
                 mret (None, Some ("unmarshal *pmpanel.NodeInfoResponse failed: " +:+ err))
             | inl nodeInfoResponse =>
                 emit (EvLog ("nodeInfoResponse: " +:+ fmt_NodeInfoResponse nodeInfoResponse));;
                 if String.eqb (APIClient.NodeType c) "V2ray" then mret (None, None)
                 else if String.eqb (APIClient.NodeType c) "Trojan" then mret (None, None)
                 else if String.eqb (APIClient.NodeType c) "Shadowsocks" then
                   mret (fst (ParseSSNodeResponse c nodeInfoResponse), None)
                 else mret (None, Some ("unsupported Node type: " +:+ APIClient.NodeType c))
             end
         end
     end).
Proof.
  unfold GetNodeInfo, resty_Execute. cbv zeta.
  change (Sprintf "/api/node/config" []) with "/api/node/config".
  fold node_config_request. rewrite resty_call_eq.
  destruct (World.Execute w (APIClient.client c) node_config_request) as [res [e|]];
    [reflexivity|].
  cbn. destruct (parseResponse c res "/api/node/config" None) as [data [e|]];
    [reflexivity|].
  destruct (json_Unmarshal_NodeInfoResponse (default "" data)) as [r|e].
  - unfold log_Printf, Errorf. cbn. rewrite !append_empty_r.
    destruct (String.eqb (APIClient.NodeType c) "V2ray"); [reflexivity|].
    destruct (String.eqb (APIClient.NodeType c) "Trojan"); [reflexivity|].
    destruct (String.eqb (APIClient.NodeType c) "Shadowsocks"); [reflexivity|].
    reflexivity.
  - unfold Errorf. cbn. by rewrite append_empty_r.
Qed.

Lemma GetNodeInfo_on_transport_error (res : Resty.Response) (e : error) :
  World.Execute w (APIClient.client c) node_config_request = (res, Some e) ->
  GetNodeInfo w c
  = (EvSend (APIClient.client c) node_config_request
       :: hook_log w (APIClient.client c) node_config_request,
     Returned (None, Some e)).
Proof.
  intros Hex. rewrite GetNodeInfo_unfold, (resty_call_error _ _ _ _ _ Hex).
  rewrite io_bind_returned. cbn. by rewrite app_nil_r.
Qed.

Lemma GetNodeInfo_on_status (res : Resty.Response) :
  World.Execute w (APIClient.client c) node_config_request = (res, None) ->
  Resty.StatusCode res <> 200 ->
  exists detail : string,
    GetNodeInfo w c
    = ([EvSend (APIClient.client c) node_config_request],
       Returned (None, Some ("request " +:+ assembleURL c "/api/node/config"
                               +:+ " failed" +:+ detail))).
Proof.
  intros Hex Hst.
  destruct (parseResponse_failure c res "/api/node/config" None) as (detail & E);
    [tauto|].
  exists detail. rewrite GetNodeInfo_unfold, (resty_call_ok _ _ _ _ Hex). cbn.
  rewrite E. reflexivity.
Qed.

Lemma GetNodeInfo_on_decode_error (res : Resty.Response) (e : error) :
  World.Execute w (APIClient.client c) node_config_request = (res, None) ->
  Resty.StatusCode res = 200 ->
  json_Unmarshal_NodeInfoResponse (Resty.RespBody res) = inr e ->
  GetNodeInfo w c
  = ([EvSend (APIClient.client c) node_config_request],
     Returned (None, Some ("unmarshal *pmpanel.NodeInfoResponse failed: " +:+ e))).
Proof.
  intros Hex Hst Hdec. rewrite GetNodeInfo_unfold, (resty_call_ok _ _ _ _ Hex). cbn.
  rewrite (parseResponse_ok c res _ Hst). cbn. rewrite Hdec. reflexivity.
Qed.

Lemma GetNodeInfo_on_stub (res : Resty.Response) (r : NodeInfoResponse.t) :
  APIClient.NodeType c = "V2ray" \/ APIClient.NodeType c = "Trojan" ->
  World.Execute w (APIClient.client c) node_config_request = (res, None) ->
  Resty.StatusCode res = 200 ->
  json_Unmarshal_NodeInfoResponse (Resty.RespBody res) = inl r ->
  GetNodeInfo w c
  = ([EvSend (APIClient.client c) node_config_request;
      EvLog ("nodeInfoResponse: " +:+ fmt_NodeInfoResponse r)],
     Returned (None, None)).
Proof.
  intros HT Hex Hst Hdec. rewrite GetNodeInfo_unfold, (resty_call_ok _ _ _ _ Hex). cbn.
  rewrite (parseResponse_ok c res _ Hst). cbn. rewrite Hdec.
  destruct HT as [-> | ->]; reflexivity.
Qed.

Lemma GetNodeInfo_descriptor (nodeInfo : NodeInfo.t) (e : option error) :
  snd (GetNodeInfo w c) = Returned (Some nodeInfo, e) ->
  e = None /\
  APIClient.NodeType c = "Shadowsocks" /\
  exists r : NodeInfoResponse.t, ParseSSNodeResponse c r = (Some nodeInfo, None).
Proof.
  rewrite GetNodeInfo_unfold, resty_call_eq, io_bind_returned. cbn [snd].
  destruct (World.Execute w (APIClient.client c) node_config_request) as [res [e'|]];
    [discriminate|].
  cbn. destruct (parseResponse c res "/api/node/config" None) as [data [e'|]];
    [discriminate|].
  destruct (json_Unmarshal_NodeInfoResponse (default "" data)) as [r|e'];
    [|discriminate].
  cbn.
  destruct (String.eqb (APIClient.NodeType c) "V2ray"); [discriminate|].
  destruct (String.eqb (APIClient.NodeType c) "Trojan"); [discriminate|].
  destruct (String.eqb_spec (APIClient.NodeType c) "Shadowsocks") as [HT|_];
    [|discriminate].
  cbn. intros Hret.
  destruct (ParseSSNodeResponse_fields c r) as (n & E & _).
  rewrite E in Hret. cbn in Hret. injection Hret as <- <-.
  split; [done|]. split; [done|]. by exists r.
Qed.

End NodeInfoPaths.

(** X2.  The failures of [GetNodeInfo] before the dispatch, each after the
    one request.  An error of the transport is returned as it is (not worded
    by [parseResponse]), after the error hooks of the client have run: on a
    client from [New] the hook logs the error when the transport has a
    response object, and nothing when it has none.  A status other than 200
    gives, without a log line, the error of [parseResponse], that starts with
    "request", the URL and "failed"; a body that does not decode gives,
    without a log line, the unmarshal error that names the type. *)
Theorem GetNodeInfo_failures `{GoRuntime} (w : World.t) (c : APIClient.t)
    (res : Resty.Response) :
  (forall e : error,
      World.Execute w (APIClient.client c) node_config_request = (res, Some e) ->
      GetNodeInfo w c
      = (EvSend (APIClient.client c) node_config_request
           :: hook_log w (APIClient.client c) node_config_request,
         Returned (None, Some e)) /\
      forall (w0 : World.t) (apiConfig : Config.t) (t0 : list Event),
        New w0 apiConfig = (t0, Returned (Some c)) ->
        GetNodeInfo w c
        = (EvSend (APIClient.client c) node_config_request
             :: failure_log w (APIClient.client c) node_config_request e,
           Returned (None, Some e))) /\
  (World.Execute w (APIClient.client c) node_config_request = (res, None) ->
   Resty.StatusCode res <> 200 ->
   exists detail : string,
     GetNodeInfo w c
     = ([EvSend (APIClient.client c) node_config_request],
        Returned (None, Some ("request " +:+ assembleURL c "/api/node/config"
                                +:+ " failed" +:+ detail)))) /\
  (forall e : error,
      World.Execute w (APIClient.client c) node_config_request = (res, None) ->
      Resty.StatusCode res = 200 ->
      json_Unmarshal_NodeInfoResponse (Resty.RespBody res) = inr e ->
      GetNodeInfo w c
      = ([EvSend (APIClient.client c) node_config_request],
         Returned (None, Some ("unmarshal *pmpanel.NodeInfoResponse failed: " +:+ e)))).
Proof.
  split; [|split].
  - intros e Hex. split; [by apply GetNodeInfo_on_transport_error with res|].
    intros w0 apiConfig t0 HNew.
    rewrite <- (hook_log_New w _ _ res e (New_errorHooks w0 apiConfig t0 c HNew) Hex).
    by apply GetNodeInfo_on_transport_error with res.
  - apply GetNodeInfo_on_status.
  - intros e. apply GetNodeInfo_on_decode_error.
Qed.

Lemma GetNodeInfo_failures_witness :
  exists (t : list Event) (c : APIClient.t),
    New (H := sample_runtime) sample_world (sample_config "Shadowsocks" "")
    = (t, Returned (Some c)) /\
    GetNodeInfo (H := sample_runtime) sample_world c
    = ([EvSend (APIClient.client c) node_config_request;
        EvLog "dial tcp: connection refused"],
       Returned (None, Some "dial tcp: connection refused")) /\
    (exists detail : string,
        GetNodeInfo (H := sample_runtime) sample_forbidden c
        = ([EvSend (APIClient.client c) node_config_request],
           Returned (None, Some ("request " +:+ assembleURL c "/api/node/config"
                                   +:+ " failed" +:+ detail)))) /\
    GetNodeInfo (H := sample_runtime) sample_mute_panel c
    = ([EvSend (APIClient.client c) node_config_request],
       Returned (None, Some "unmarshal *pmpanel.NodeInfoResponse failed: unexpected end of JSON input")).
Proof.
  eexists _, _. split; [reflexivity|].
  match goal with
  | |- context [GetNodeInfo sample_world ?c0] => set (c := c0)
  end.
  assert (New (H := sample_runtime) sample_world (sample_config "Shadowsocks" "")
          = ([EvLog "Getting node info, Type: shadowsocks, NodeID: 7"],
             Returned (Some c))) as HNew by reflexivity.
  split; [|split].
  - exact (proj2 (proj1 (GetNodeInfo_failures (H := sample_runtime) sample_world c
                           (sample_response 0 "")) _ eq_refl) _ _ _ HNew).
  - apply (proj1 (proj2 (GetNodeInfo_failures (H := sample_runtime) sample_forbidden c
                           (sample_response 403 "no"))));
      [reflexivity | discriminate].
  - exact (proj2 (proj2 (GetNodeInfo_failures (H := sample_runtime) sample_mute_panel c
                           (sample_response 200 ""))) _ eq_refl eq_refl eq_refl).
Defined.

(** X3.  The two parsers that are not written yet: with the node type
    "V2ray" or "Trojan", when the panel answered 200 with a body that decodes,
    [GetNodeInfo] logs the payload and returns neither a node descriptor nor
    an error. *)
Theorem GetNodeInfo_unwritten_parsers `{GoRuntime} (w : World.t) (c : APIClient.t)
    (res : Resty.Response) (r : NodeInfoResponse.t) :
  APIClient.NodeType c = "V2ray" \/ APIClient.NodeType c = "Trojan" ->
  World.Execute w (APIClient.client c) node_config_request = (res, None) ->
  Resty.StatusCode res = 200 ->
  json_Unmarshal_NodeInfoResponse (Resty.RespBody res) = inl r ->
  GetNodeInfo w c
  = ([EvSend (APIClient.client c) node_config_request;
      EvLog ("nodeInfoResponse: " +:+ fmt_NodeInfoResponse r)],
     Returned (None, None)).
Proof. apply GetNodeInfo_on_stub. Qed.

Lemma GetNodeInfo_unwritten_parsers_witness :
  let c := sample_client "Trojan" (float64_of_Z 0) 0 in
  GetNodeInfo (H := sample_runtime) sample_panel c
  = ([EvSend (APIClient.client c) node_config_request; EvLog "nodeInfoResponse: &{}"],
     Returned (None, None)).
Proof.
  intros c.
  exact (GetNodeInfo_unwritten_parsers (H := sample_runtime) sample_panel c
           (sample_response 200 "{}") _ (or_intror eq_refl) eq_refl eq_refl eq_refl).
Defined.

Lemma ParseSSNodeResponse_unset `{GoRuntime} (c : APIClient.t) (r : NodeInfoResponse.t)
    (nodeInfo : NodeInfo.t) :
  ParseSSNodeResponse c r = (Some nodeInfo, None) ->
  NodeInfo.NodeType nodeInfo = APIClient.NodeType c /\
  NodeInfo.NodeID nodeInfo = APIClient.NodeID c /\
  NodeInfo.TransportProtocol nodeInfo = "tcp" /\
  NodeInfo.EnableTLS nodeInfo = false /\
  NodeInfo.Host nodeInfo = "" /\
  NodeInfo.Path nodeInfo = "" /\
  NodeInfo.ServiceName nodeInfo = "".
Proof. intros E. injection E as <-. by repeat split. Qed.

(** X4.  Whatever the panel answers, a node descriptor comes out of
    [GetNodeInfo] only for the node type "Shadowsocks", and then without an
    error: it is what [ParseSSNodeResponse] makes of some payload, so its
    node type and identifier are the client's, its transport protocol is
    "tcp", and TLS, host, path and service name are unset. *)
Theorem GetNodeInfo_descriptor_is_shadowsocks `{GoRuntime} (w : World.t) (c : APIClient.t)
    (nodeInfo : NodeInfo.t) (e : option error) :
  snd (GetNodeInfo w c) = Returned (Some nodeInfo, e) ->
  e = None /\
  APIClient.NodeType c = "Shadowsocks" /\
  NodeInfo.NodeType nodeInfo = "Shadowsocks" /\
  NodeInfo.NodeID nodeInfo = APIClient.NodeID c /\
  NodeInfo.TransportProtocol nodeInfo = "tcp" /\
  NodeInfo.EnableTLS nodeInfo = false /\
  NodeInfo.Host nodeInfo = "" /\
  NodeInfo.Path nodeInfo = "" /\
  NodeInfo.ServiceName nodeInfo = "" /\
  exists r : NodeInfoResponse.t, ParseSSNodeResponse c r = (Some nodeInfo, None).
Proof.
  intros Hret.
  destruct (GetNodeInfo_descriptor w c nodeInfo e Hret) as (He & HT & r & Er).
  split; [done|]. split; [done|].
  destruct (ParseSSNodeResponse_unset c r nodeInfo Er)
    as (HNT & HID & HTP & HTLS & HH & HP & HS).
  rewrite HT in HNT. repeat (split; [assumption|]). by exists r.
Qed.

Lemma GetNodeInfo_descriptor_is_shadowsocks_witness :
  let c := sample_client "Shadowsocks" (float64_of_Z 0) 0 in
  exists nodeInfo : NodeInfo.t,
    snd (GetNodeInfo (H := sample_runtime) sample_panel c) = Returned (Some nodeInfo, None) /\
    NodeInfo.TransportProtocol nodeInfo = "tcp" /\
    NodeInfo.EnableTLS nodeInfo = false.
Proof.
  intros c. eexists. split; [reflexivity|].
  destruct (GetNodeInfo_descriptor_is_shadowsocks (H := sample_runtime) sample_panel c
              _ None eq_refl) as (_ & _ & _ & _ & HP & HTLS & _).
  split; [exact HP | exact HTLS].
Defined.

(** ** The roster fetch, path by path *)

Section UserListPaths.
Context `{GoRuntime}.
Variables (w : World.t) (c : APIClient.t).

#[local] Arguments parseResponse : simpl never.
#[local] Arguments ParseUserListResponse : simpl never.

(** The line that [GetUserList] logs once the transport has answered. *)
Let log_line : Event :=
  EvLog ("[PMPanel] Get user list for node: " +:+ APIClient.NodeID c).

(** [GetUserList] after the answer of the panel. *)
Lemma GetUserList_unfold (res : Resty.Response) (err : option error) :
  World.Execute w (APIClient.client c) user_list_request = (res, err) ->
  GetUserList w c
  = (((EvSend (APIClient.client c) user_list_request
         :: hook_log w (APIClient.client c) user_list_request, Returned tt) : IO unit);;
     emit log_line;;
     match parseResponse c res "/api/node/user" err with
     | (_, Some err) => mret (None, Some err)
     | (responseData, None) =>
         match json_Unmarshal_UserResponses (default EmptyString responseData) with
         | inr err =>
             mret (None, Some ("unmarshal *[]pmpanel.UserResponse failed: " +:+ err))
         | inl userListResponse =>
             '(userList, err) ← ParseUserListResponse c userListResponse;
             match err with
             | Some err =>
                 mret (None, Some ("parse user list failed: "
                                     +:+ json_Marshal_UserResponses userListResponse))
             | None => mret (userList, None)
             end
         end
     end).
Proof.
  intros Hex. unfold GetUserList, resty_Execute. cbv zeta.
  fold user_list_request. rewrite resty_call_eq, Hex. unfold log_Printf, log_line. cbn.
  rewrite append_empty_r.
  destruct (parseResponse c res "/api/node/user" err) as [data [e|]]; [reflexivity|].
  destruct (json_Unmarshal_UserResponses (default "" data)) as [l|e].
  - destruct (ParseUserListResponse c l) as [t [[out [e|]]|v|n]];
      unfold Errorf; cbn; rewrite ?append_empty_r; reflexivity.
  - unfold Errorf. cbn. by rewrite append_empty_r.
Qed.

(** ... and when the call succeeded. *)
Lemma GetUserList_unfold_ok (res : Resty.Response) :
  World.Execute w (APIClient.client c) user_list_request = (res, None) ->
  GetUserList w c
  = (emit (EvSend (APIClient.client c) user_list_request);;
     emit log_line;;
     match parseResponse c res "/api/node/user" None with
     | (_, Some err) => mret (None, Some err)
     | (responseData, None) =>
         match json_Unmarshal_UserResponses (default EmptyString responseData) with
         | inr err =>
             mret (None, Some ("unmarshal *[]pmpanel.UserResponse failed: " +:+ err))
         | inl userListResponse =>
             '(userList, err) ← ParseUserListResponse c userListResponse;
             match err with
             | Some err =>
                 mret (None, Some ("parse user list failed: "
                                     +:+ json_Marshal_UserResponses userListResponse))
             | None => mret (userList, None)
             end
         end
     end).
Proof.
  intros Hex. by rewrite (GetUserList_unfold res None Hex), (hook_log_ok _ _ _ _ Hex).
Qed.

Lemma GetUserList_on_transport_error (res : Resty.Response) (e : error) :
  World.Execute w (APIClient.client c) user_list_request = (res, Some e) ->
  GetUserList w c
  = (EvSend (APIClient.client c) user_list_request
       :: hook_log w (APIClient.client c) user_list_request ++ [log_line],
     Returned (None, Some ("request " +:+ assembleURL c "/api/node/user"
                             +:+ " failed: " +:+ e))).
Proof.
  intros Hex. rewrite (GetUserList_unfold res (Some e) Hex).
  rewrite parseResponse_transport_error. reflexivity.
Qed.

Lemma GetUserList_on_status (res : Resty.Response) :
  World.Execute w (APIClient.client c) user_list_request = (res, None) ->
  Resty.StatusCode res <> 200 ->
  exists detail : string,
    GetUserList w c
    = ([EvSend (APIClient.client c) user_list_request; log_line],
       Returned (None, Some ("request " +:+ assembleURL c "/api/node/user"
                               +:+ " failed" +:+ detail))).
Proof.
  intros Hex Hn. rewrite (GetUserList_unfold_ok res Hex).
  destruct (parseResponse_failure c res "/api/node/user" None) as (detail & E); [tauto|].
  exists detail. rewrite E. reflexivity.
Qed.

Lemma GetUserList_on_decode_error (res : Resty.Response) (e : error) :
  World.Execute w (APIClient.client c) user_list_request = (res, None) ->
  Resty.StatusCode res = 200 ->
  json_Unmarshal_UserResponses (Resty.RespBody res) = inr e ->
  GetUserList w c
  = ([EvSend (APIClient.client c) user_list_request; log_line],
     Returned (None, Some ("unmarshal *[]pmpanel.UserResponse failed: " +:+ e))).
Proof.
  intros Hex Hst Hdec. rewrite (GetUserList_unfold_ok res Hex).
  rewrite (parseResponse_ok c res _ Hst). cbn. rewrite Hdec. reflexivity.
Qed.

Lemma GetUserList_on_nil (res : Resty.Response) :
  World.Execute w (APIClient.client c) user_list_request = (res, None) ->
  Resty.StatusCode res = 200 ->
  json_Unmarshal_UserResponses (Resty.RespBody res) = inl None ->
  GetUserList w c
  = ([EvSend (APIClient.client c) user_list_request; log_line],
     Panicked "runtime error: invalid memory address or nil pointer dereference").
Proof.
  intros Hex Hst Hdec. rewrite (GetUserList_unfold_ok res Hex).
  rewrite (parseResponse_ok c res _ Hst). cbn. rewrite Hdec.
  rewrite ParseUserListResponse_nil. reflexivity.
Qed.

Lemma GetUserList_on_roster (res : Resty.Response) (l : list UserResponse.t) :
  World.Execute w (APIClient.client c) user_list_request = (res, None) ->
  Resty.StatusCode res = 200 ->
  json_Unmarshal_UserResponses (Resty.RespBody res) = inl (Some l) ->
  GetUserList w c
  = ([EvSend (APIClient.client c) user_list_request; log_line],
     Returned (Some (map (UserInfo_of c) l), None)).
Proof.
  intros Hex Hst Hdec. rewrite (GetUserList_unfold_ok res Hex).
  rewrite (parseResponse_ok c res _ Hst). cbn. rewrite Hdec.
  rewrite ParseUserListResponse_map. reflexivity.
Qed.

End UserListPaths.

(** X5.  The failures of [GetUserList], each after the one request and with
    the log line of the fetch.  An error of the transport comes back worded
    by [parseResponse] ("request", the URL, "failed: " and the error), not as
    it is; before the log line of the fetch come the lines of the error hooks
    of the client: on a client from [New], the error itself when the
    transport has a response object, and nothing when it has none.  A status
    other than 200 gives the error of [parseResponse]; a body that does not
    decode gives the unmarshal error that names the type. *)
Theorem GetUserList_failures `{GoRuntime} (w : World.t) (c : APIClient.t)
    (res : Resty.Response) :
  (forall e : error,
      World.Execute w (APIClient.client c) user_list_request = (res, Some e) ->
      GetUserList w c
      = (EvSend (APIClient.client c) user_list_request
           :: hook_log w (APIClient.client c) user_list_request
           ++ [EvLog ("[PMPanel] Get user list for node: " +:+ APIClient.NodeID c)],
         Returned (None, Some ("request " +:+ assembleURL c "/api/node/user"
                                 +:+ " failed: " +:+ e))) /\
      forall (w0 : World.t) (apiConfig : Config.t) (t0 : list Event),
        New w0 apiConfig = (t0, Returned (Some c)) ->
        GetUserList w c
        = (EvSend (APIClient.client c) user_list_request
             :: failure_log w (APIClient.client c) user_list_request e
             ++ [EvLog ("[PMPanel] Get user list for node: " +:+ APIClient.NodeID c)],
           Returned (None, Some ("request " +:+ assembleURL c "/api/node/user"
                                   +:+ " failed: " +:+ e)))) /\
  (World.Execute w (APIClient.client c) user_list_request = (res, None) ->
   Resty.StatusCode res <> 200 ->
   exists detail : string,
     GetUserList w c
     = ([EvSend (APIClient.client c) user_list_request;
         EvLog ("[PMPanel] Get user list for node: " +:+ APIClient.NodeID c)],
        Returned (None, Some ("request " +:+ assembleURL c "/api/node/user"
                                +:+ " failed" +:+ detail)))) /\
  (forall e : error,
      World.Execute w (APIClient.client c) user_list_request = (res, None) ->
      Resty.StatusCode res = 200 ->
      json_Unmarshal_UserResponses (Resty.RespBody res) = inr e ->
      GetUserList w c
      = ([EvSend (APIClient.client c) user_list_request;
          EvLog ("[PMPanel] Get user list for node: " +:+ APIClient.NodeID c)],
         Returned (None, Some ("unmarshal *[]pmpanel.UserResponse failed: " +:+ e)))).
Proof.
  split; [|split].
  - intros e Hex. split; [by apply GetUserList_on_transport_error with res|].
    intros w0 apiConfig t0 HNew.
    rewrite <- (hook_log_New w _ _ res e (New_errorHooks w0 apiConfig t0 c HNew) Hex).
    by apply GetUserList_on_transport_error with res.
  - apply GetUserList_on_status.
  - intros e. apply GetUserList_on_decode_error.
Qed.

Lemma GetUserList_failures_witness :
  exists (t : list Event) (c : APIClient.t),
    New (H := sample_runtime) sample_world (sample_config "Shadowsocks" "")
    = (t, Returned (Some c)) /\
    GetUserList (H := sample_runtime) sample_world c
    = ([EvSend (APIClient.client c) user_list_request;
        EvLog "dial tcp: connection refused";
        EvLog "[PMPanel] Get user list for node: 7"],
       Returned (None, Some "request https://panel.example/api/node/user failed: dial tcp: connection refused")) /\
    (exists detail : string,
        GetUserList (H := sample_runtime) sample_forbidden c
        = ([EvSend (APIClient.client c) user_list_request;
            EvLog "[PMPanel] Get user list for node: 7"],
           Returned (None, Some ("request " +:+ assembleURL c "/api/node/user"
                                   +:+ " failed" +:+ detail)))) /\
    GetUserList (H := sample_runtime) sample_panel c
    = ([EvSend (APIClient.client c) user_list_request;
        EvLog "[PMPanel] Get user list for node: 7"],
       Returned (None, Some "unmarshal *[]pmpanel.UserResponse failed: json: cannot unmarshal object into Go value of type []pmpanel.UserResponse")).
Proof.
  eexists _, _. split; [reflexivity|].
  match goal with
  | |- context [GetUserList sample_world ?c0] => set (c := c0)
  end.
  assert (New (H := sample_runtime) sample_world (sample_config "Shadowsocks" "")
          = ([EvLog "Getting node info, Type: shadowsocks, NodeID: 7"],
             Returned (Some c))) as HNew by reflexivity.
  split; [|split].
  - exact (proj2 (proj1 (GetUserList_failures (H := sample_runtime) sample_world c
                           (sample_response 0 "")) _ eq_refl) _ _ _ HNew).
  - apply (proj1 (proj2 (GetUserList_failures (H := sample_runtime) sample_forbidden c
                           (sample_response 403 "no"))));
      [reflexivity | discriminate].
  - exact (proj2 (proj2 (GetUserList_failures (H := sample_runtime) sample_panel c
                           (sample_response 200 "{}"))) _ eq_refl eq_refl eq_refl).
Defined.

(** X6.  When the panel answers 200 with a body that the decoder accepts
    while leaving the pointer to the user list nil (as JSON [null] does),
    [GetUserList] does not return: [ParseUserListResponse] dereferences the
    nil pointer and the call panics, after the request and the log line. *)
Theorem GetUserList_nil_panics `{GoRuntime} (w : World.t) (c : APIClient.t)
    (res : Resty.Response) :
  World.Execute w (APIClient.client c) user_list_request = (res, None) ->
  Resty.StatusCode res = 200 ->
  json_Unmarshal_UserResponses (Resty.RespBody res) = inl None ->
  GetUserList w c
  = ([EvSend (APIClient.client c) user_list_request;
      EvLog ("[PMPanel] Get user list for node: " +:+ APIClient.NodeID c)],
     Panicked "runtime error: invalid memory address or nil pointer dereference").
Proof. apply GetUserList_on_nil. Qed.

Lemma GetUserList_nil_panics_witness :
  let c := sample_client "Shadowsocks" (float64_of_Z 0) 0 in
  GetUserList (H := sample_runtime) sample_null_panel c
  = ([EvSend (APIClient.client c) user_list_request;
      EvLog "[PMPanel] Get user list for node: 7"],
     Panicked "runtime error: invalid memory address or nil pointer dereference").
Proof.
  intros c.
  exact (GetUserList_nil_panics (H := sample_runtime) sample_null_panel c
           (sample_response 200 "null") eq_refl eq_refl eq_refl).
Defined.

(** X7.  When the panel answers 200 with a body that decodes to a user
    list, [GetUserList] returns, after the one request and the log line and
    without an error, a roster of the same length whose record at each
    position is made of the panel's record at that position: an empty list
    gives an empty roster, not an error, and the "parse user list failed"
    error never occurs. *)
Theorem GetUserList_roster `{GoRuntime} (w : World.t) (c : APIClient.t)
    (res : Resty.Response) (l : list UserResponse.t) :
  World.Execute w (APIClient.client c) user_list_request = (res, None) ->
  Resty.StatusCode res = 200 ->
  json_Unmarshal_UserResponses (Resty.RespBody res) = inl (Some l) ->
  exists out : list UserInfo.t,
    GetUserList w c
    = ([EvSend (APIClient.client c) user_list_request;
        EvLog ("[PMPanel] Get user list for node: " +:+ APIClient.NodeID c)],
       Returned (Some out, None)) /\
    length out = length l /\
    (l = [] -> out = []) /\
    forall (i : nat) (user : UserResponse.t),
      l !! i = Some user ->
      exists r : UserInfo.t,
        out !! i = Some r /\
        UserInfo.UID r = UserResponse.ID user /\
        ParseUserListResponse c (Some [user]) = ([], Returned (Some [r], None)).
Proof.
  intros Hex Hst Hdec. exists (map (UserInfo_of c) l).
  split; [by apply (GetUserList_on_roster w c res)|].
  split; [apply length_map|]. split; [by intros ->|].
  intros i user Hi. exists (UserInfo_of c user).
  split; [by rewrite list_lookup_fmap, Hi|]. split; [reflexivity|].
  exact (ParseUserListResponse_map c [user]).
Qed.

Lemma GetUserList_roster_witness :
  let c := sample_client "Shadowsocks" (float64_of_Z 0) 0 in
  GetUserList (H := sample_runtime) sample_empty_panel c
  = ([EvSend (APIClient.client c) user_list_request;
      EvLog "[PMPanel] Get user list for node: 7"],
     Returned (Some [], None)).
Proof.
  intros c.
  destruct (GetUserList_roster (H := sample_runtime) sample_empty_panel c
              (sample_response 200 "[]") [] eq_refl eq_refl eq_refl)
    as (out & E & _ & Hnil & _).
  rewrite E, (Hnil eq_refl). reflexivity.
Defined.

(** ** Construction, in detail *)

Section ConstructionDetail.
Context `{GoRuntime}.
Variables (w : World.t) (apiConfig : Config.t).

(** [strings.TrimRight(s, "/")] takes the slashes off the end of [s], all
    of them and nothing else. *)
Lemma strings_TrimRight_slashes (s : string) :
  exists n : nat, s = strings_TrimRight s "/" +:+ slashes n.
Proof.
  induction s as [|a s [n IH]]; [by exists 0%nat|].
  cbn [strings_TrimRight]. destruct (strings_TrimRight s "/") as [|b r] eqn:E.
  - destruct (string_contains "/" a) eqn:Ea.
    + exists (S n). cbn in Ea. rewrite orb_false_r in Ea.
      apply Ascii.eqb_eq in Ea as ->. rewrite IH at 1. reflexivity.
    + exists n. rewrite IH at 1. reflexivity.
  - exists n. rewrite IH at 1. reflexivity.
Qed.

Lemma strings_TrimRight_trimmed (s s' : string) :
  strings_TrimRight s "/" <> s' +:+ "/".
Proof.
  revert s'. induction s as [|a s IH]; intros s'.
  - destruct s'; discriminate.
  - cbn [strings_TrimRight]. destruct (strings_TrimRight s "/") as [|b r] eqn:E.
    + destruct (string_contains "/" a) eqn:Ea; [destruct s'; discriminate|].
      destruct s' as [|a' s'].
      * intros [= ->]. discriminate Ea.
      * intros [= _ E']. destruct s'; discriminate E'.
    + destruct s' as [|a' s']; [discriminate|].
      intros [= _ E']. exact (IH s' E').
Qed.

Lemma New_client_settings (t : list Event) (c : APIClient.t) :
  New w apiConfig = (t, Returned (Some c)) ->
  Resty.RetryCount (APIClient.client c) = 3 /\
  Resty.BaseURL (APIClient.client c) = strings_TrimRight (Config.APIHost apiConfig) "/" /\
  Resty.Header (APIClient.client c) !! "Authorization" = Some (Config.Key apiConfig) /\
  Resty.QueryParam (APIClient.client c) !! "protocol"
  = Some (strings_ToLower (Config.NodeType apiConfig)) /\
  Resty.QueryParam (APIClient.client c) !! "node_id" = Some (Config.NodeID apiConfig) /\
  Resty.Debug (APIClient.client c) = false /\
  Resty.Timeout (APIClient.client c)
  = (if 0 <? Config.Timeout apiConfig
     then int64_wrap (Config.Timeout apiConfig * time_Second)
     else 5 * time_Second).
Proof.
  intros HNew.
  destruct (New_returns w apiConfig t c HNew) as (Hacc & _).
  revert HNew. unfold New. cbv zeta. unfold accepted in Hacc. cbv zeta in Hacc.
  set (lowered := strings_ToLower (Config.NodeType apiConfig)) in *.
  assert (negb (String.eqb lowered "shadowsocks") && negb (String.eqb lowered "v2ray")
          && negb (String.eqb lowered "trojan") = false) as ->.
  { destruct Hacc as [-> | [-> | ->]]; reflexivity. }
  unfold log_Printf.
  destruct (readLocalRuleList w (Config.RuleListPath apiConfig)) as [t' [rules|v|n]];
    cbn; intros [= _ <-]; cbn.
  repeat split.
  all: destruct (0 <? Config.Timeout apiConfig); reflexivity.
Qed.

Lemma New_copies (t : list Event) (c : APIClient.t) :
  New w apiConfig = (t, Returned (Some c)) ->
  APIClient.APIHost c = Config.APIHost apiConfig /\
  APIClient.NodeID c = Config.NodeID apiConfig /\
  APIClient.Key c = Config.Key apiConfig /\
  APIClient.NodeType c = Config.NodeType apiConfig /\
  APIClient.EnableVless c = Config.EnableVless apiConfig /\
  APIClient.VlessFlow c = Config.VlessFlow apiConfig /\
  APIClient.SpeedLimit c = Config.SpeedLimit apiConfig /\
  APIClient.DeviceLimit c = Config.DeviceLimit apiConfig.
Proof.
  intros HNew.
  destruct (New_returns w apiConfig t c HNew) as (Hacc & _).
  destruct (New_valid w apiConfig Hacc) as (msg & client & E). rewrite E in HNew.
  destruct (readLocalRuleList w (Config.RuleListPath apiConfig)) as [t' [rules|v|n]];
    cbn in HNew; try discriminate.
  injection HNew as _ <-. by repeat split.
Qed.

End ConstructionDetail.

(** X8.  The transport client of every client that [New] returns: three
    retries; as base URL the panel's address without the slashes at its end
    (the address is the base URL followed by slashes only, and the base URL
    ends in none), while the client itself keeps the address as configured;
    the key in the Authorization header; the query parameters [protocol], the
    lowercased node type, and [node_id]; debugging off; and one error hook,
    the one that logs the error of a call that failed with a response.  It is
    with this transport client that the node config fetch and the roster
    fetch send their request, whatever the panel then answers. *)
Theorem New_transport_settings `{GoRuntime} (w : World.t) (apiConfig : Config.t)
    (t : list Event) (c : APIClient.t) :
  New w apiConfig = (t, Returned (Some c)) ->
  Resty.RetryCount (APIClient.client c) = 3 /\
  Resty.BaseURL (APIClient.client c) = strings_TrimRight (Config.APIHost apiConfig) "/" /\
  (exists n : nat,
      Config.APIHost apiConfig = Resty.BaseURL (APIClient.client c) +:+ slashes n) /\
  (forall s : string, Resty.BaseURL (APIClient.client c) <> s +:+ "/") /\
  APIClient.APIHost c = Config.APIHost apiConfig /\
  Resty.Header (APIClient.client c) !! "Authorization" = Some (Config.Key apiConfig) /\
  Resty.QueryParam (APIClient.client c) !! "protocol"
  = Some (strings_ToLower (Config.NodeType apiConfig)) /\
  Resty.QueryParam (APIClient.client c) !! "node_id" = Some (Config.NodeID apiConfig) /\
  Resty.Debug (APIClient.client c) = false /\
  Resty.errorHooks (APIClient.client c) = [New_OnError] /\
  forall w' : World.t,
    (exists t' : list Event,
        fst (GetNodeInfo w' c) = EvSend (APIClient.client c) node_config_request :: t') /\
    (exists t' : list Event,
        fst (GetUserList w' c) = EvSend (APIClient.client c) user_list_request :: t').
Proof.
  intros HNew.
  destruct (New_client_settings w apiConfig t c HNew) as (H1 & H2 & H3 & H4 & H5 & H6 & _).
  destruct (New_copies w apiConfig t c HNew) as (HH & _).
  pose proof (New_errorHooks w apiConfig t c HNew) as H7.
  rewrite H2.
  split; [done|]. split; [done|].
  split; [apply strings_TrimRight_slashes|].
  split; [apply strings_TrimRight_trimmed|].
  repeat (split; [done|]).
  intros w'. split; [apply GetNodeInfo_trace | apply GetUserList_sends].
Qed.

Lemma New_transport_settings_witness :
  let apiConfig :=
    {| Config.APIHost := "https://panel.example//"; Config.NodeID := "7";
       Config.Key := "secret"; Config.NodeType := "ShadowSocks";
       Config.EnableVless := false; Config.VlessFlow := "";
       Config.Timeout := 0; Config.SpeedLimit := float64_of_Z 0;
       Config.DeviceLimit := 0; Config.RuleListPath := "" |} in
  exists (t : list Event) (c : APIClient.t),
    New (H := sample_runtime) sample_world apiConfig = (t, Returned (Some c)) /\
    Resty.BaseURL (APIClient.client c) = "https://panel.example" /\
    APIClient.APIHost c = "https://panel.example//" /\
    Resty.QueryParam (APIClient.client c) !! "protocol" = Some "shadowsocks" /\
    Resty.Header (APIClient.client c) !! "Authorization" = Some "secret" /\
    exists t' : list Event,
      fst (GetUserList (H := sample_runtime) sample_empty_panel c)
      = EvSend (APIClient.client c) user_list_request :: t'.
Proof.
  intros apiConfig. eexists _, _. split; [reflexivity|].
  destruct (New_transport_settings (H := sample_runtime) sample_world apiConfig
              _ _ eq_refl)
    as (_ & HB & _ & _ & HH & HA & HP & _ & _ & _ & Hsend).
  split; [exact HB|]. split; [exact HH|]. split; [exact HP|]. split; [exact HA|].
  exact (proj2 (Hsend sample_empty_panel)).
Defined.

(** X9.  The request timeout of a client that [New] returns is 5 seconds
    when the configured timeout is not positive, and the configured number
    of seconds when that is positive and at most 9223372036; beyond that,
    up to 18446744073 seconds, the duration (a 64-bit count of nanoseconds)
    wraps around to a negative value. *)
Theorem New_timeout `{GoRuntime} (w : World.t) (apiConfig : Config.t)
    (t : list Event) (c : APIClient.t) :
  New w apiConfig = (t, Returned (Some c)) ->
  (Config.Timeout apiConfig <= 0 ->
   Resty.Timeout (APIClient.client c) = 5 * 1000000000) /\
  (0 < Config.Timeout apiConfig <= 9223372036 ->
   Resty.Timeout (APIClient.client c) = Config.Timeout apiConfig * 1000000000) /\
  (9223372036 < Config.Timeout apiConfig <= 18446744073 ->
   Resty.Timeout (APIClient.client c) = Config.Timeout apiConfig * 1000000000 - 2 ^ 64 /\
   Resty.Timeout (APIClient.client c) < 0).
Proof.
  intros HNew.
  destruct (New_client_settings w apiConfig t c HNew) as (_ & _ & _ & _ & _ & _ & HT).
  rewrite HT. unfold int64_wrap, time_Second.
  split; [|split].
  - intros Hle. by rewrite (proj2 (Z.ltb_ge _ _) Hle).
  - intros [Hlo Hhi]. rewrite (proj2 (Z.ltb_lt _ _) Hlo).
    rewrite Z.mod_small by lia. lia.
  - intros [Hlo Hhi]. rewrite (proj2 (Z.ltb_lt _ _)) by lia.
    replace (Config.Timeout apiConfig * 1000000000 + 2 ^ 63)
      with ((Config.Timeout apiConfig * 1000000000 - 2 ^ 63) + 1 * 2 ^ 64) by lia.
    rewrite Z.mod_add by lia. rewrite Z.mod_small by lia. lia.
Qed.

Lemma New_timeout_witness :
  let apiConfig :=
    {| Config.APIHost := "https://panel.example"; Config.NodeID := "7";
       Config.Key := "secret"; Config.NodeType := "trojan";
       Config.EnableVless := false; Config.VlessFlow := "";
       Config.Timeout := 30; Config.SpeedLimit := float64_of_Z 0;
       Config.DeviceLimit := 0; Config.RuleListPath := "" |} in
  exists (t : list Event) (c : APIClient.t),
    New (H := sample_runtime) sample_world apiConfig = (t, Returned (Some c)) /\
    Resty.Timeout (APIClient.client c) = 30000000000.
Proof.
  intros apiConfig. eexists _, _. split; [reflexivity|].
  apply (proj1 (proj2 (New_timeout (H := sample_runtime) sample_world apiConfig
                         _ _ eq_refl))).
  cbn. lia.
Defined.

(** X10.  [Describe] on a client that [New] returned gives back the panel's
    address, the node identifier, the key and the node type of the
    configuration, the node type as it was spelled there (not lowercased);
    and [Debug] changes none of them. *)
Theorem Describe_New `{GoRuntime} (w : World.t) (apiConfig : Config.t)
    (t : list Event) (c : APIClient.t) :
  New w apiConfig = (t, Returned (Some c)) ->
  Describe c
  = {| ClientInfo.APIHost := Config.APIHost apiConfig;
       ClientInfo.NodeID := Config.NodeID apiConfig;
       ClientInfo.Key := Config.Key apiConfig;
       ClientInfo.NodeType := Config.NodeType apiConfig |} /\
  Describe (Debug c) = Describe c.
Proof.
  intros HNew.
  destruct (New_copies w apiConfig t c HNew) as (H1 & H2 & H3 & H4 & _).
  split; [|reflexivity]. unfold Describe. by rewrite H1, H2, H3, H4.
Qed.

Lemma Describe_New_witness :
  exists (t : list Event) (c : APIClient.t),
    New (H := sample_runtime) sample_world (sample_config "ShadowSocks" "") = (t, Returned (Some c)) /\
    ClientInfo.NodeType (Describe c) = "ShadowSocks".
Proof.
  eexists _, _. split; [reflexivity|].
  destruct (Describe_New (H := sample_runtime) sample_world
              (sample_config "ShadowSocks" "") _ _ eq_refl) as [E _].
  rewrite E. reflexivity.
Defined.

(** ** The scanner on whole files *)

Section Scanner.

Lemma string_append_assoc (a b c : string) : (a +:+ b) +:+ c = a +:+ (b +:+ c).
Proof.
  induction a as [|x a IH]; [reflexivity|].
  change (String x ((a +:+ b) +:+ c) = String x (a +:+ (b +:+ c))). by rewrite IH.
Qed.

Lemma string_length_append (a b : string) :
  String.length (a +:+ b) = (String.length a + String.length b)%nat.
Proof.
  induction a as [|x a IH]; [reflexivity|].
  change (S (String.length (a +:+ b)) = S (String.length a + String.length b)).
  by rewrite IH.
Qed.

(** One line, then its line feed: the scanner delivers the line, with what
    was already read of it. *)
Lemma bufio_scan_line (line : string) :
  forall (seen rest : string) (read_error : option error),
    string_forallb (fun c => negb (Ascii.eqb c LF)) line = true ->
    Z.of_nat (String.length (seen +:+ line)) < bufio_MaxScanTokenSize ->
    bufio_scan (line +:+ String LF rest) seen read_error
    = (dropCR (seen +:+ line) :: fst (bufio_scan rest EmptyString read_error),
       snd (bufio_scan rest EmptyString read_error)).
Proof.
  induction line as [|a line IH]; intros seen rest read_error Hlf Hlen.
  - rewrite append_empty_r.
    change (bufio_scan (String LF rest) seen read_error
            = (dropCR seen :: fst (bufio_scan rest "" read_error),
               snd (bufio_scan rest "" read_error))).
    cbn [bufio_scan]. rewrite Ascii.eqb_refl.
    by destruct (bufio_scan rest "" read_error).
  - cbn [string_forallb] in Hlf. apply andb_prop in Hlf as [Ha Hlf].
    apply negb_true_iff in Ha.
    change (String a line +:+ String LF rest) with (String a (line +:+ String LF rest)).
    cbn [bufio_scan]. rewrite Ha.
    rewrite string_length_append in Hlen. cbn [String.length] in Hlen.
    destruct (Z.leb_spec bufio_MaxScanTokenSize (Z.of_nat (String.length seen) + 1));
      [lia|].
    rewrite IH; [|done|].
    + by rewrite string_append_assoc.
    + rewrite string_append_assoc, string_length_append. cbn [String.length String.append].
      change (String a "" +:+ line) with (String a line). cbn [String.length]. lia.
Qed.

(** A file of scannable lines is delivered line by line, to the end. *)
Lemma bufio_scan_join (lines : list string) (read_error : option error) :
  Forall scannable lines ->
  bufio_scan (join_lines lines) EmptyString read_error = (map dropCR lines, read_error).
Proof.
  induction 1 as [|line lines [Hlf Hlen] _ IH]; [reflexivity|].
  cbn [join_lines foldr]. fold (join_lines lines).
  rewrite bufio_scan_line by done. by rewrite IH.
Qed.

(** A line that does not fit the buffer stops the scan. *)
Lemma bufio_scan_too_long (line : string) :
  forall (seen rest : string) (read_error : option error),
    string_forallb (fun c => negb (Ascii.eqb c LF)) line = true ->
    Z.of_nat (String.length seen) < bufio_MaxScanTokenSize ->
    bufio_MaxScanTokenSize <= Z.of_nat (String.length (seen +:+ line)) ->
    bufio_scan (line +:+ rest) seen read_error = ([], Some bufio_ErrTooLong).
Proof.
  induction line as [|a line IH]; intros seen rest read_error Hlf Hseen Hlen.
  - rewrite append_empty_r in Hlen. lia.
  - cbn [string_forallb] in Hlf. apply andb_prop in Hlf as [Ha Hlf].
    apply negb_true_iff in Ha.
    change (String a line +:+ rest) with (String a (line +:+ rest)).
    cbn [bufio_scan]. rewrite Ha.
    destruct (Z.leb_spec bufio_MaxScanTokenSize (Z.of_nat (String.length seen) + 1));
      [reflexivity|].
    apply IH; [done| |].
    + rewrite string_length_append. cbn [String.length]. lia.
    + by rewrite string_append_assoc.
Qed.

End Scanner.

(** ** The rule loader on whole files *)

Section RuleFiles.
Context `{GoRuntime}.
Variable w : World.t.

Lemma readLocalRuleList_loop_silent (tokens : list string) :
  forall acc : list DetectRule.t, fst (readLocalRuleList_loop tokens acc) = [].
Proof.
  induction tokens as [|text tokens IH]; intros acc; [reflexivity|].
  cbn [readLocalRuleList_loop]. unfold regexp_MustCompile.
  destruct (regexp_Compile_error text) as [v|]; [reflexivity|].
  specialize (IH (acc ++ [ {| DetectRule.ID := -1; DetectRule.Pattern := {| expr := text |} |} ])).
  cbn. destruct (readLocalRuleList_loop tokens _) as [t o]. cbn in IH |- *. by subst t.
Qed.

(** Every event of the rule loader is about the rule file or is a log line. *)
Lemma readLocalRuleList_events (path : string) :
  Forall (fun e => e = EvOpen path \/ e = EvClose path \/ exists msg, e = EvLog msg)
    (fst (readLocalRuleList w path)).
Proof.
  assert (forall l, Forall (fun e => e = EvOpen path \/ e = EvClose path
                                   \/ exists msg, e = EvLog msg) l ->
                    forall e, (e = EvOpen path \/ e = EvClose path
                               \/ exists msg, e = EvLog msg) ->
                    Forall (fun e => e = EvOpen path \/ e = EvClose path
                                   \/ exists msg, e = EvLog msg) (e :: l)) as Hcons
    by (intros l Hl e He; by constructor).
  unfold readLocalRuleList. destruct (negb (String.eqb path "")); [|constructor].
  cbn. destruct (World.os_Open w path) as [file|err].
  - destruct (bufio_scan (World.contents file) "" (World.read_error file)) as [tokens serr].
    pose proof (readLocalRuleList_loop_silent tokens []) as Hsilent.
    destruct (readLocalRuleList_loop tokens []) as [t [rules|v|n]]; cbn in Hsilent; subst t.
    + destruct serr as [e|]; cbn.
      * apply Hcons; [apply Hcons; [constructor|]|]; eauto.
      * apply Hcons; [apply Hcons; [constructor|]|]; eauto.
    + cbn. apply Hcons; [constructor|]. eauto.
    + cbn. apply Hcons; [constructor|]. eauto.
  - cbn. apply Hcons; [apply Hcons; [constructor|]|]; eauto.
Qed.

Lemma readLocalRuleList_panics (path : string) (file : World.File)
    (good : list string) (bad : string) (rest : list string) (serr : option error)
    (v : string) :
  path <> "" ->
  World.os_Open w path = inl file ->
  bufio_scan (World.contents file) "" (World.read_error file)
  = (good ++ bad :: rest, serr) ->
  Forall (fun text => regexp_Compile_error text = None) good ->
  regexp_Compile_error bad = Some v ->
  readLocalRuleList w path = ([EvOpen path], Panicked v).
Proof.
  intros Hp Hopen Hscan Hgood Hbad. unfold readLocalRuleList.
  destruct (String.eqb_spec path "") as [|_]; [done|]. cbn. rewrite Hopen, Hscan.
  by rewrite (readLocalRuleList_loop_panics good bad rest v Hgood Hbad []).
Qed.

End RuleFiles.

(** X11.  A rule file of scannable lines (no line longer than the
    scanner's buffer) that is read to its end and whose lines all compile
    gives one rule per line, in the order of the file, each with the
    identifier -1 and the pattern of its line without a final carriage
    return: an empty line gives a rule too, with the empty pattern.  The
    file is opened once and closed; nothing is logged. *)
Theorem readLocalRuleList_one_rule_per_line `{GoRuntime} (w : World.t) (path : string)
    (file : World.File) (lines : list string) :
  path <> "" ->
  World.os_Open w path = inl file ->
  World.contents file = join_lines lines ->
  World.read_error file = None ->
  Forall scannable lines ->
  Forall (fun line => regexp_Compile_error (dropCR line) = None) lines ->
  exists rules : list DetectRule.t,
    readLocalRuleList w path = ([EvOpen path; EvClose path], Returned rules) /\
    length rules = length lines /\
    forall (i : nat) (line : string),
      lines !! i = Some line ->
      rules !! i = Some {| DetectRule.ID := -1;
                           DetectRule.Pattern := {| expr := dropCR line |} |}.
Proof.
  intros Hp Hopen Hdata Herr Hscan Hc.
  exists (map local_rule (map dropCR lines)). split; [|split].
  - apply (readLocalRuleList_reads w path file (map dropCR lines) Hp Hopen).
    + rewrite Hdata, Herr. by apply bufio_scan_join.
    + by rewrite Forall_map.
  - by rewrite !length_map.
  - intros i line Hi. by rewrite !list_lookup_fmap, Hi.
Qed.

Lemma readLocalRuleList_one_rule_per_line_witness :
  let text := "abc" +:+ String LF (String LF ("x" +:+ String CR (String LF ""))) in
  let w := {| World.os_Open := fun _ => inl {| World.contents := text;
                                               World.read_error := None |};
              World.Execute := fun _ _ => (sample_response 200 "{}", None);
              World.HasResponse := fun _ _ => true |} in
  readLocalRuleList (H := sample_runtime) w "rulelist"
  = ([EvOpen "rulelist"; EvClose "rulelist"],
     Returned [local_rule "abc"; local_rule ""; local_rule "x"]).
Proof.
  intros text w.
  destruct (readLocalRuleList_one_rule_per_line (H := sample_runtime) w "rulelist"
              {| World.contents := text; World.read_error := None |}
              ["abc"; ""; "x" +:+ String CR ""])
    as (rules & E & Hlen & Hrules).
  - discriminate.
  - reflexivity.
  - reflexivity.
  - reflexivity.
  - repeat constructor.
  - repeat constructor.
  - rewrite E. f_equal. f_equal.
    destruct rules as [|r0 [|r1 [|r2 [|r3 rules]]]]; try discriminate Hlen.
    pose proof (Hrules 0%nat _ eq_refl) as H0.
    pose proof (Hrules 1%nat _ eq_refl) as H1.
    pose proof (Hrules 2%nat _ eq_refl) as H2.
    injection H0 as ->. injection H1 as ->. injection H2 as ->. reflexivity.
Defined.

(** X12.  An error of the scanner is fatal: when the reading of the rule
    file ends in a read error, or when a line does not fit the scanner's
    buffer of 65536 bytes, the loader (the lines before compiling) logs
    "Error while reading file" with the error and the process exits with
    status 1; no rule list is returned and the file is not closed. *)
Theorem readLocalRuleList_scan_errors_are_fatal `{GoRuntime} (w : World.t) (path : string)
    (file : World.File) (lines : list string) :
  path <> "" ->
  World.os_Open w path = inl file ->
  Forall scannable lines ->
  Forall (fun line => regexp_Compile_error (dropCR line) = None) lines ->
  (forall err : error,
      World.contents file = join_lines lines ->
      World.read_error file = Some err ->
      readLocalRuleList w path
      = ([EvOpen path; EvLog ("Error while reading file: " +:+ err)], Exited 1)) /\
  (forall long rest : string,
      World.contents file = join_lines lines +:+ long +:+ rest ->
      string_forallb (fun c => negb (Ascii.eqb c LF)) long = true ->
      bufio_MaxScanTokenSize <= Z.of_nat (String.length long) ->
      readLocalRuleList w path
      = ([EvOpen path; EvLog "Error while reading file: bufio.Scanner: token too long"],
         Exited 1)).
Proof.
  intros Hp Hopen Hscan Hc. split.
  - intros err Hdata Herr.
    apply (readLocalRuleList_scan_error w path file (map dropCR lines) err Hp Hopen).
    + rewrite Hdata, Herr. by apply bufio_scan_join.
    + by rewrite Forall_map.
  - intros long rest Hdata Hlf Hlen.
    apply (readLocalRuleList_scan_error w path file (map dropCR lines) _ Hp Hopen).
    + rewrite Hdata. clear Hc Hdata.
      induction Hscan as [|line lines [Hl1 Hl2] _ IH].
      * cbn [join_lines foldr map].
        change ("" +:+ long +:+ rest) with (long +:+ rest).
        apply bufio_scan_too_long; [done|reflexivity|done].
      * cbn [join_lines foldr map]. fold (join_lines lines).
        rewrite string_append_assoc.
        change (String LF (join_lines lines) +:+ long +:+ rest)
          with (String LF (join_lines lines +:+ long +:+ rest)).
        rewrite bufio_scan_line by done. by rewrite IH.
    + by rewrite Forall_map.
Qed.

Lemma readLocalRuleList_scan_errors_are_fatal_witness :
  let w := {| World.os_Open := fun _ => inl {| World.contents := join_lines ["abc"];
                                               World.read_error := Some "read rulelist: is a directory" |};
              World.Execute := fun _ _ => (sample_response 200 "{}", None);
              World.HasResponse := fun _ _ => true |} in
  readLocalRuleList (H := sample_runtime) w "rulelist"
  = ([EvOpen "rulelist"; EvLog "Error while reading file: read rulelist: is a directory"],
     Exited 1).
Proof.
  intros w.
  apply (proj1 (readLocalRuleList_scan_errors_are_fatal (H := sample_runtime) w "rulelist"
                  {| World.contents := join_lines ["abc"];
                     World.read_error := Some "read rulelist: is a directory" |}
                  ["abc"] ltac:(discriminate) eq_refl
                  ltac:(repeat constructor) ltac:(repeat constructor)));
    reflexivity.
Defined.

(** X13.  The first line of the rule file that is not a valid pattern makes
    the loader panic with what [regexp.MustCompile] says, whatever comes
    after it (more lines, a read error): the rules of the lines before are
    lost, nothing is logged and the file is not closed. *)
Theorem readLocalRuleList_invalid_pattern_panics `{GoRuntime} (w : World.t) (path : string)
    (file : World.File) (good : list string) (bad : string) (rest : list string)
    (v : string) :
  path <> "" ->
  World.os_Open w path = inl file ->
  World.contents file = join_lines (good ++ bad :: rest) ->
  Forall scannable (good ++ bad :: rest) ->
  Forall (fun line => regexp_Compile_error (dropCR line) = None) good ->
  regexp_Compile_error (dropCR bad) = Some v ->
  readLocalRuleList w path = ([EvOpen path], Panicked v).
Proof.
  intros Hp Hopen Hdata Hscan Hgood Hbad.
  apply (readLocalRuleList_panics w path file (map dropCR good) (dropCR bad)
           (map dropCR rest) (World.read_error file) v Hp Hopen).
  - rewrite Hdata, (bufio_scan_join _ _ Hscan). by rewrite map_app.
  - by rewrite Forall_map.
  - done.
Qed.

Lemma readLocalRuleList_invalid_pattern_panics_witness :
  let runtime :=
    {| uint64_unrepresentable := fun _ => 0;
       Map_unicode_ToLower := fun s => s;
       regexp_Compile_error := fun text =>
         if String.eqb text "a(b"
         then Some "regexp: Compile(`a(b`): error parsing regexp: missing closing ): `a(b`"
         else None;
       json_Unmarshal_NodeInfoResponse := fun _ => inr "unexpected end of JSON input";
       json_Unmarshal_UserResponses := fun _ => inr "unexpected end of JSON input";
       json_Marshal_NodeInfoResponse := fun _ => "{}";
       json_Marshal_UserResponses := fun _ => "[]";
       fmt_NodeInfoResponse := fun _ => "&{}" |} in
  let file := {| World.contents := join_lines (["abc"] ++ "a(b" :: ["d.*e"]);
                 World.read_error := None |} in
  let w := {| World.os_Open := fun _ => inl file;
              World.Execute := fun _ _ => (sample_response 200 "{}", None);
              World.HasResponse := fun _ _ => true |} in
  readLocalRuleList (H := runtime) w "rulelist"
  = ([EvOpen "rulelist"],
     Panicked "regexp: Compile(`a(b`): error parsing regexp: missing closing ): `a(b`").
Proof.
  intros runtime file w.
  apply (readLocalRuleList_invalid_pattern_panics (H := runtime) w "rulelist" file
           ["abc"] "a(b" ["d.*e"]).
  - discriminate.
  - reflexivity.
  - reflexivity.
  - repeat constructor.
  - repeat constructor.
  - reflexivity.
Defined.

(** X14.  [New] talks to no panel: whatever the configuration and the files,
    every event of a construction is a log line or the opening or closing of
    the configured rule file; no request is sent, although the log line says
    "Getting node info". *)
Theorem New_sends_nothing `{GoRuntime} (w : World.t) (apiConfig : Config.t) :
  Forall (fun e => e = EvOpen (Config.RuleListPath apiConfig)
                   \/ e = EvClose (Config.RuleListPath apiConfig)
                   \/ exists msg, e = EvLog msg)
    (fst (New w apiConfig)) /\
  existsb is_send (fst (New w apiConfig)) = false.
Proof.
  assert (Forall (fun e => e = EvOpen (Config.RuleListPath apiConfig)
                           \/ e = EvClose (Config.RuleListPath apiConfig)
                           \/ exists msg, e = EvLog msg)
            (fst (New w apiConfig))) as Hev.
  { destruct (decide (accepted (Config.NodeType apiConfig))) as [Hacc|Hn].
    - destruct (New_valid w apiConfig Hacc) as (msg & client & E). rewrite E.
      pose proof (readLocalRuleList_events w (Config.RuleListPath apiConfig)) as Hrl.
      destruct (readLocalRuleList w (Config.RuleListPath apiConfig)) as [t [rules|v|n]];
        cbn in Hrl |- *; try rewrite app_nil_r; constructor; eauto.
    - rewrite (New_invalid w apiConfig Hn). constructor. }
  split; [exact Hev|].
  induction Hev as [|e t He _ IH]; [reflexivity|].
  cbn [existsb]. rewrite IH.
  destruct He as [-> | [-> | [msg ->]]]; reflexivity.
Qed.

(** ** Telemetry *)

Section TelemetryPaths.
Context `{RequestBody}.

Lemma io_bind_ret {A B : Type} (a : A) (k : A -> IO B) :
  (([], Returned a) : IO A) ≫= k = k a.
Proof.
  unfold mbind, IO_bind, io_bind. by destruct (k a) as [t o].
Qed.

(** A store at the first index that is still a zero value. *)
Lemma slice_store_next {B : Type} (done rest : list B) (z v : B) :
  slice_store (done ++ z :: rest) (length done) v = ([], Returned (done ++ v :: rest)).
Proof.
  unfold slice_store.
  destruct (decide (length done < length (done ++ z :: rest))%nat) as [_|Hn];
    [|exfalso; apply Hn; rewrite length_app; cbn; lia].
  replace (length done) with (length done + 0)%nat by lia.
  by rewrite insert_app_r.
Qed.

(** A loop that stores, at each index, what [f] makes of the element fills
    the slice with the map of [f], no store being out of range. *)
Lemma range_from_store {A B : Type} (f : A -> B) (z : B) (l : list A) :
  forall done : list B,
    range_from (fun data i x => slice_store data i (f x)) (length done) l
      (done ++ replicate (length l) z)
    = ([], Returned (done ++ map f l)).
Proof.
  induction l as [|x l IH]; intros done.
  - cbn. by rewrite !app_nil_r.
  - cbn [range_from replicate length]. rewrite slice_store_next.
    specialize (IH (done ++ [f x])).
    rewrite length_app, <- app_assoc in IH. cbn [length app] in IH.
    replace (length done + 1)%nat with (S (length done)) in IH by lia.
    cbn. rewrite IH. by rewrite <- app_assoc.
Qed.

Lemma parseResponse_error_iff (c : APIClient.t) (res : Resty.Response) (path : string)
    (err : option error) :
  snd (parseResponse c res path err) = None <-> err = None /\ Resty.StatusCode res = 200.
Proof.
  split.
  - intros Hnone.
    destruct (decide (err = None /\ Resty.StatusCode res = 200)) as [|Hn]; [done|].
    destruct (parseResponse_failure c res path err Hn) as (detail & E).
    rewrite E in Hnone. discriminate.
  - intros [-> Hst]. by rewrite parseResponse_ok.
Qed.

Variables (w : World.t) (c : APIClient.t).

Lemma ReportNodeStatus_sends (nodeStatus : api_NodeStatus.t) :
  let r :=
    {| Resty.Method := "POST"; Resty.URL := "/api/node/status";
       Resty.ForceContentType := "application/json";
       Resty.Body :=
         Some (body_NodeStatus
                 {| NodeStatus.CPU := api_NodeStatus.CPU nodeStatus;
                    NodeStatus.Mem := api_NodeStatus.Mem nodeStatus;
                    NodeStatus.Disk := api_NodeStatus.Disk nodeStatus;
                    NodeStatus.Uptime := api_NodeStatus.Uptime nodeStatus |}) |} in
  ReportNodeStatus w c nodeStatus
  = (EvSend (APIClient.client c) r :: hook_log w (APIClient.client c) r,
     Returned (snd (parseResponse c (fst (World.Execute w (APIClient.client c) r))
                      "/api/node/status" (snd (World.Execute w (APIClient.client c) r))))).
Proof.
  intros r. unfold ReportNodeStatus, resty_Execute. cbv zeta. fold r.
  rewrite resty_call_eq, io_bind_returned.
  destruct (World.Execute w (APIClient.client c) r) as [res err]. cbn.
  destruct (parseResponse c res "/api/node/status" err) as [data [e|]];
    cbn; by rewrite app_nil_r.
Qed.

Lemma ReportNodeOnlineUsers_sends (onlineUserList : list api_OnlineUser.t) :
  let r :=
    {| Resty.Method := "POST"; Resty.URL := "/api/node/user/online";
       Resty.ForceContentType := "application/json";
       Resty.Body :=
         Some (body_OnlineUserPostData
                 {| OnlineUserPostData.Online :=
                      map (fun user => {| OnlineUser.UID := api_OnlineUser.UID user;
                                          OnlineUser.IP := api_OnlineUser.IP user |})
                        onlineUserList |}) |} in
  ReportNodeOnlineUsers w c onlineUserList
  = (EvSend (json_client c) r :: hook_log w (json_client c) r,
     Returned (snd (parseResponse c (fst (World.Execute w (json_client c) r))
                      "/api/node/user/online" (snd (World.Execute w (json_client c) r))))).
Proof.
  intros r. unfold ReportNodeOnlineUsers, resty_Execute_SetHeader. cbv zeta.
  assert (range_from ReportNodeOnlineUsers_body 0 onlineUserList
            (replicate (length onlineUserList) OnlineUser.zero)
          = ([], Returned (map (fun user => {| OnlineUser.UID := api_OnlineUser.UID user;
                                               OnlineUser.IP := api_OnlineUser.IP user |})
                             onlineUserList))) as Hfill
    by exact (range_from_store _ OnlineUser.zero onlineUserList []).
  rewrite Hfill, io_bind_ret. fold (json_client c). fold r.
  rewrite resty_call_eq, io_bind_returned.
  destruct (World.Execute w (json_client c) r) as [res err]. cbn.
  destruct (parseResponse c res "/api/node/user/online" err) as [data [e|]];
    cbn; by rewrite app_nil_r.
Qed.

Lemma ReportUserTraffic_sends (userTraffic : list api_UserTraffic.t) :
  let r :=
    {| Resty.Method := "POST"; Resty.URL := "/api/node/user/traffic";
       Resty.ForceContentType := "application/json";
       Resty.Body :=
         Some (body_TrafficPostData
                 {| TrafficPostData.Traffic :=
                      map (fun traffic =>
                             {| UserTraffic.UID := api_UserTraffic.UID traffic;
                                UserTraffic.Upload := api_UserTraffic.Upload traffic;
                                UserTraffic.Download := api_UserTraffic.Download traffic |})
                        userTraffic |}) |} in
  ReportUserTraffic w c userTraffic
  = (EvSend (json_client c) r :: hook_log w (json_client c) r,
     Returned (snd (parseResponse c (fst (World.Execute w (json_client c) r))
                      "/api/node/user/traffic" (snd (World.Execute w (json_client c) r))))).
Proof.
  intros r. unfold ReportUserTraffic, resty_Execute_SetHeader. cbv zeta.
  assert (range_from ReportUserTraffic_body 0 userTraffic
            (replicate (length userTraffic) UserTraffic.zero)
          = ([], Returned (map (fun traffic =>
                                  {| UserTraffic.UID := api_UserTraffic.UID traffic;
                                     UserTraffic.Upload := api_UserTraffic.Upload traffic;
                                     UserTraffic.Download := api_UserTraffic.Download traffic |})
                             userTraffic))) as Hfill
    by exact (range_from_store _ UserTraffic.zero userTraffic []).
  rewrite Hfill, io_bind_ret. fold (json_client c). fold r.
  rewrite resty_call_eq, io_bind_returned.
  destruct (World.Execute w (json_client c) r) as [res err]. cbn.
  destruct (parseResponse c res "/api/node/user/traffic" err) as [data [e|]];
    cbn; by rewrite app_nil_r.
Qed.

End TelemetryPaths.

(** What the error hooks log at the end of a call: nothing when the call
    succeeded; on the transport client of a client from [New], with or
    without the JSON content type, the error of a call that failed, when the
    transport has a response object. *)
Lemma hook_log_report `{GoRuntime} (w : World.t) (c : APIClient.t) (client : Resty.Client)
    (r : Resty.Request) (res : Resty.Response) (err : option error) :
  Resty.errorHooks client = Resty.errorHooks (APIClient.client c) ->
  World.Execute w client r = (res, err) ->
  (err = None -> hook_log w client r = []) /\
  (forall (e : error) (w0 : World.t) (apiConfig : Config.t) (t0 : list Event),
      err = Some e ->
      New w0 apiConfig = (t0, Returned (Some c)) ->
      hook_log w client r = failure_log w client r e).
Proof.
  intros Hhooks Hex. split.
  - intros ->. by apply hook_log_ok with res.
  - intros e w0 apiConfig t0 -> HNew. apply hook_log_New with res; [|done].
    rewrite Hhooks. by apply New_errorHooks with w0 apiConfig t0.
Qed.

(** X15.  [ReportNodeStatus] sends exactly one request, the POST of the four
    scalars as they were given to /api/node/status, and returns the error
    of [parseResponse] on the answer: no error exactly when the transport
    reported none and the status is 200.  Nothing is logged when the call
    succeeded; when it failed, the error hooks of the client have logged: on
    a client from [New], the error of the transport, when the transport has
    a response object. *)
Theorem ReportNodeStatus_report `{GoRuntime} `{RequestBody} (w : World.t) (c : APIClient.t)
    (nodeStatus : api_NodeStatus.t) (res : Resty.Response) (err : option error) :
  let r :=
    {| Resty.Method := "POST"; Resty.URL := "/api/node/status";
       Resty.ForceContentType := "application/json";
       Resty.Body :=
         Some (body_NodeStatus
                 {| NodeStatus.CPU := api_NodeStatus.CPU nodeStatus;
                    NodeStatus.Mem := api_NodeStatus.Mem nodeStatus;
                    NodeStatus.Disk := api_NodeStatus.Disk nodeStatus;
                    NodeStatus.Uptime := api_NodeStatus.Uptime nodeStatus |}) |} in
  World.Execute w (APIClient.client c) r = (res, err) ->
  ReportNodeStatus w c nodeStatus
  = (EvSend (APIClient.client c) r :: hook_log w (APIClient.client c) r,
     Returned (snd (parseResponse c res "/api/node/status" err))) /\
  (err = None -> hook_log w (APIClient.client c) r = []) /\
  (forall (e : error) (w0 : World.t) (apiConfig : Config.t) (t0 : list Event),
      err = Some e ->
      New w0 apiConfig = (t0, Returned (Some c)) ->
      hook_log w (APIClient.client c) r = failure_log w (APIClient.client c) r e) /\
  (snd (parseResponse c res "/api/node/status" err) = None
   <-> err = None /\ Resty.StatusCode res = 200).
Proof.
  intros r Hex.
  destruct (hook_log_report w c (APIClient.client c) r res err eq_refl Hex) as [Hok Hfail].
  split; [|split; [exact Hok|split; [exact Hfail|apply parseResponse_error_iff]]].
  pose proof (ReportNodeStatus_sends w c nodeStatus) as E. cbv zeta in E. fold r in E.
  by rewrite Hex in E.
Qed.

Lemma ReportNodeStatus_report_witness :
  let nodeStatus :=
    {| api_NodeStatus.CPU := float64_of_Z 12; api_NodeStatus.Mem := float64_of_Z 40;
       api_NodeStatus.Disk := float64_of_Z 7; api_NodeStatus.Uptime := 3600 |} in
  let r :=
    {| Resty.Method := "POST"; Resty.URL := "/api/node/status";
       Resty.ForceContentType := "application/json";
       Resty.Body := Some "uptime=3600" |} in
  exists (t : list Event) (c : APIClient.t),
    New (H := sample_runtime) sample_world (sample_config "Shadowsocks" "")
    = (t, Returned (Some c)) /\
    ReportNodeStatus (H := sample_bodies) sample_panel c nodeStatus
    = ([EvSend (APIClient.client c) r], Returned None) /\
    ReportNodeStatus (H := sample_bodies) sample_world c nodeStatus
    = ([EvSend (APIClient.client c) r; EvLog "dial tcp: connection refused"],
       Returned (Some "request https://panel.example/api/node/status failed: dial tcp: connection refused")) /\
    ReportNodeStatus (H := sample_bodies) sample_unprepared c
      {| api_NodeStatus.CPU := S754_nan; api_NodeStatus.Mem := float64_of_Z 40;
         api_NodeStatus.Disk := float64_of_Z 7; api_NodeStatus.Uptime := 3600 |}
    = ([EvSend (APIClient.client c) r],
       Returned (Some "request https://panel.example/api/node/status failed: json: unsupported value: NaN")).
Proof.
  intros nodeStatus r. eexists _, _. split; [reflexivity|].
  match goal with
  | |- context [ReportNodeStatus sample_world ?c0] => set (c := c0)
  end.
  assert (New (H := sample_runtime) sample_world (sample_config "Shadowsocks" "")
          = ([EvLog "Getting node info, Type: shadowsocks, NodeID: 7"],
             Returned (Some c))) as HNew by reflexivity.
  split; [|split].
  - destruct (ReportNodeStatus_report (H := sample_runtime) (H0 := sample_bodies)
                sample_panel c nodeStatus (sample_response 200 "{}") None eq_refl)
      as (E & Hok & _).
    rewrite E, (Hok eq_refl). reflexivity.
  - destruct (ReportNodeStatus_report (H := sample_runtime) (H0 := sample_bodies)
                sample_world c nodeStatus (sample_response 0 "")
                (Some "dial tcp: connection refused") eq_refl)
      as (E & _ & Hfail & _).
    rewrite E, (Hfail _ _ _ _ eq_refl HNew). reflexivity.
  - destruct (ReportNodeStatus_report (H := sample_runtime) (H0 := sample_bodies)
                sample_unprepared c
                {| api_NodeStatus.CPU := S754_nan; api_NodeStatus.Mem := float64_of_Z 40;
                   api_NodeStatus.Disk := float64_of_Z 7; api_NodeStatus.Uptime := 3600 |}
                (sample_response 0 "")
                (Some "json: unsupported value: NaN") eq_refl)
      as (E & _ & Hfail & _).
    rewrite E, (Hfail _ _ _ _ eq_refl HNew). reflexivity.
Defined.

(** X16.  [ReportNodeOnlineUsers] sends exactly one request, whatever the
    list, the empty one included: the POST to /api/node/user/online, with the
    JSON content type, of a list as long as the given one whose entry at
    each position carries the user id and the address of the given entry at
    that position (no store is out of range); and it returns the error of
    [parseResponse] on the answer, none exactly when the transport reported
    none and the status is 200.  Nothing is logged when the call succeeded;
    when it failed, the error hooks of the client have logged: on a client
    from [New], the error of the transport, when the transport has a
    response object. *)
Theorem ReportNodeOnlineUsers_report `{GoRuntime} `{RequestBody} (w : World.t)
    (c : APIClient.t) (onlineUserList : list api_OnlineUser.t) (res : Resty.Response)
    (err : option error) :
  let r :=
    {| Resty.Method := "POST"; Resty.URL := "/api/node/user/online";
       Resty.ForceContentType := "application/json";
       Resty.Body :=
         Some (body_OnlineUserPostData
                 {| OnlineUserPostData.Online :=
                      map (fun user => {| OnlineUser.UID := api_OnlineUser.UID user;
                                          OnlineUser.IP := api_OnlineUser.IP user |})
                        onlineUserList |}) |} in
  World.Execute w (json_client c) r = (res, err) ->
  ReportNodeOnlineUsers w c onlineUserList
  = (EvSend (json_client c) r :: hook_log w (json_client c) r,
     Returned (snd (parseResponse c res "/api/node/user/online" err))) /\
  (err = None -> hook_log w (json_client c) r = []) /\
  (forall (e : error) (w0 : World.t) (apiConfig : Config.t) (t0 : list Event),
      err = Some e ->
      New w0 apiConfig = (t0, Returned (Some c)) ->
      hook_log w (json_client c) r = failure_log w (json_client c) r e) /\
  Resty.Header (json_client c) !! "Content-Type" = Some "application/json" /\
  (snd (parseResponse c res "/api/node/user/online" err) = None
   <-> err = None /\ Resty.StatusCode res = 200).
Proof.
  intros r Hex.
  destruct (hook_log_report w c (json_client c) r res err eq_refl Hex) as [Hok Hfail].
  split; [|split; [exact Hok|split; [exact Hfail|split; [|apply parseResponse_error_iff]]]].
  - pose proof (ReportNodeOnlineUsers_sends w c onlineUserList) as E.
    cbv zeta in E. fold r in E. by rewrite Hex in E.
  - unfold json_client, Resty.SetHeaders. cbn [Resty.Header].
    apply lookup_union_Some_l. apply lookup_singleton_eq.
Qed.

Lemma ReportNodeOnlineUsers_report_witness :
  let onlineUserList :=
    [ {| api_OnlineUser.UID := 1; api_OnlineUser.IP := "10.0.0.1" |};
      {| api_OnlineUser.UID := 2; api_OnlineUser.IP := "10.0.0.2" |} ] in
  let r :=
    {| Resty.Method := "POST"; Resty.URL := "/api/node/user/online";
       Resty.ForceContentType := "application/json";
       Resty.Body := Some "1@10.0.0.1;2@10.0.0.2;" |} in
  exists (t : list Event) (c : APIClient.t),
    New (H := sample_runtime) sample_world (sample_config "Shadowsocks" "")
    = (t, Returned (Some c)) /\
    ReportNodeOnlineUsers (H := sample_bodies) sample_forbidden c onlineUserList
    = ([EvSend (json_client c) r],
       Returned (Some "request https://panel.example/api/node/user/online failed with forbidden: no")) /\
    ReportNodeOnlineUsers (H := sample_bodies) sample_world c onlineUserList
    = ([EvSend (json_client c) r; EvLog "dial tcp: connection refused"],
       Returned (Some "request https://panel.example/api/node/user/online failed: dial tcp: connection refused")).
Proof.
  intros onlineUserList r. eexists _, _. split; [reflexivity|].
  match goal with
  | |- context [ReportNodeOnlineUsers sample_world ?c0] => set (c := c0)
  end.
  assert (New (H := sample_runtime) sample_world (sample_config "Shadowsocks" "")
          = ([EvLog "Getting node info, Type: shadowsocks, NodeID: 7"],
             Returned (Some c))) as HNew by reflexivity.
  split.
  - destruct (ReportNodeOnlineUsers_report (H := sample_runtime) (H0 := sample_bodies)
                sample_forbidden c onlineUserList (sample_response 403 "no") None eq_refl)
      as (E & Hok & _).
    rewrite E, (Hok eq_refl). reflexivity.
  - destruct (ReportNodeOnlineUsers_report (H := sample_runtime) (H0 := sample_bodies)
                sample_world c onlineUserList (sample_response 0 "")
                (Some "dial tcp: connection refused") eq_refl)
      as (E & _ & Hfail & _).
    rewrite E, (Hfail _ _ _ _ eq_refl HNew). reflexivity.
Defined.

(** X17.  [ReportUserTraffic] sends exactly one request, whatever the list,
    the empty one included: the POST to /api/node/user/traffic, with the JSON
    content type, of a list as long as the given one whose entry at each
    position carries the user id and the upload and download counters of
    the given entry at that position, unchanged (no store is out of range);
    and it returns the error of [parseResponse] on the answer, none exactly
    when the transport reported none and the status is 200.  Nothing is
    logged when the call succeeded; when it failed, the error hooks of the
    client have logged: on a client from [New], the error of the transport,
    when the transport has a response object. *)
Theorem ReportUserTraffic_report `{GoRuntime} `{RequestBody} (w : World.t)
    (c : APIClient.t) (userTraffic : list api_UserTraffic.t) (res : Resty.Response)
    (err : option error) :
  let r :=
    {| Resty.Method := "POST"; Resty.URL := "/api/node/user/traffic";
       Resty.ForceContentType := "application/json";
       Resty.Body :=
         Some (body_TrafficPostData
                 {| TrafficPostData.Traffic :=
                      map (fun traffic =>
                             {| UserTraffic.UID := api_UserTraffic.UID traffic;
                                UserTraffic.Upload := api_UserTraffic.Upload traffic;
                                UserTraffic.Download := api_UserTraffic.Download traffic |})
                        userTraffic |}) |} in
  World.Execute w (json_client c) r = (res, err) ->
  ReportUserTraffic w c userTraffic
  = (EvSend (json_client c) r :: hook_log w (json_client c) r,
     Returned (snd (parseResponse c res "/api/node/user/traffic" err))) /\
  (err = None -> hook_log w (json_client c) r = []) /\
  (forall (e : error) (w0 : World.t) (apiConfig : Config.t) (t0 : list Event),
      err = Some e ->
      New w0 apiConfig = (t0, Returned (Some c)) ->
      hook_log w (json_client c) r = failure_log w (json_client c) r e) /\
  Resty.Header (json_client c) !! "Content-Type" = Some "application/json" /\
  (snd (parseResponse c res "/api/node/user/traffic" err) = None
   <-> err = None /\ Resty.StatusCode res = 200).
Proof.
  intros r Hex.
  destruct (hook_log_report w c (json_client c) r res err eq_refl Hex) as [Hok Hfail].
  split; [|split; [exact Hok|split; [exact Hfail|split; [|apply parseResponse_error_iff]]]].
  - pose proof (ReportUserTraffic_sends w c userTraffic) as E.
    cbv zeta in E. fold r in E. by rewrite Hex in E.
  - unfold json_client, Resty.SetHeaders. cbn [Resty.Header].
    apply lookup_union_Some_l. apply lookup_singleton_eq.
Qed.

Lemma ReportUserTraffic_report_witness :
  let userTraffic :=
    [ {| api_UserTraffic.UID := 1; api_UserTraffic.Upload := 100;
         api_UserTraffic.Download := 2000 |};
      {| api_UserTraffic.UID := 2; api_UserTraffic.Upload := 0;
         api_UserTraffic.Download := 5 |} ] in
  let r :=
    {| Resty.Method := "POST"; Resty.URL := "/api/node/user/traffic";
       Resty.ForceContentType := "application/json";
       Resty.Body := Some "1:100/2000;2:0/5;" |} in
  exists (t : list Event) (c : APIClient.t),
    New (H := sample_runtime) sample_world (sample_config "Shadowsocks" "")
    = (t, Returned (Some c)) /\
    ReportUserTraffic (H := sample_bodies) sample_panel c userTraffic
    = ([EvSend (json_client c) r], Returned None) /\
    ReportUserTraffic (H := sample_bodies) sample_world c userTraffic
    = ([EvSend (json_client c) r; EvLog "dial tcp: connection refused"],
       Returned (Some "request https://panel.example/api/node/user/traffic failed: dial tcp: connection refused")).
Proof.
  intros userTraffic r. eexists _, _. split; [reflexivity|].
  match goal with
  | |- context [ReportUserTraffic sample_world ?c0] => set (c := c0)
  end.
  assert (New (H := sample_runtime) sample_world (sample_config "Shadowsocks" "")
          = ([EvLog "Getting node info, Type: shadowsocks, NodeID: 7"],
             Returned (Some c))) as HNew by reflexivity.
  split.
  - destruct (ReportUserTraffic_report (H := sample_runtime) (H0 := sample_bodies)
                sample_panel c userTraffic (sample_response 200 "{}") None eq_refl)
      as (E & Hok & _).
    rewrite E, (Hok eq_refl). reflexivity.
  - destruct (ReportUserTraffic_report (H := sample_runtime) (H0 := sample_bodies)
                sample_world c userTraffic (sample_response 0 "")
                (Some "dial tcp: connection refused") eq_refl)
      as (E & _ & Hfail & _).
    rewrite E, (Hfail _ _ _ _ eq_refl HNew). reflexivity.
Defined.
